(** * The Onezone container entrypoint: configuration driver and readiness wait

    A shallow embedding of the control flow of [docker/onezone.py]:
    [get_emergency_passphrase], [set_emergency_passphrase],
    [do_auth_request], [get_batch_config], [configure], [format_step],
    [format_error], [format_dict], [unwrap_error_with_hosts],
    [wait_for_workers] and [nagios_up].

    The script talks to a local HTTP service, writes to standard output and
    sleeps.  Here the service is a list of scripted replies, handed out one
    per request, and every request, log line and sleep is recorded in order,
    so that a run of the script is a function from a world to an outcome and
    a world.  A run that asks for a reply the list does not have is
    [Blocked]: the script would wait there.

    The values that [json.loads] and [yaml.safe_load] produce are trees of
    Python values, with the operations the script applies to them ([get],
    subscripts, [in], [==], truth, iteration) defined on every shape of
    value, failing with the exception Python raises.  The parsers and
    serialisers themselves are not modelled: a response carries its body as
    text together with what the JSON and XML parsers make of it, and a
    request carries the value it serialises.  [textwrap.fill], [sorted],
    [str.split], [str()] and [repr()] are modelled after the Python library,
    for strings of code points below 256.

    Further parts of the script follow the same pattern:
    [wait_for_rest_listener] and the batch-mode part of the main block run
    in the same world; the functions that prepare the panel's files
    ([replace], [set_node_name], [config_file_initialized],
    [generate_config_file], [upgrade_legacy_vm_args],
    [upgrade_legacy_vm_args_if_exists], [get_container_id]) and those that
    print the container's details ([inspect_container], [show_ip_address],
    [show_ports], [show_details]) run on a [host] of text files; and
    [print_logs] with [print_new_logs] runs on a [terminal] whose log files
    change while the script sleeps and whose opening and reading can fail.
    Where it matters that the loader returns one object for an anchor and
    its aliases, [get_batch_config] is also given on a store of objects.
    [start_onepanel] and the handler of the main block, which end the
    process, are not modelled. *)

From Stdlib Require Import ZArith Ascii String List Bool Lia.
From stdpp Require Import base option list strings gmap pretty.

Open Scope string_scope.
Open Scope list_scope.
Open Scope Z_scope.

Set Warnings "-register-all".

(** ** Python values

    What [json.loads] and [yaml.safe_load] return, as far as the script looks
    at it.  A [str] is a Rocq [string]: one [ascii] per character, which
    covers the code points below 256.  A [dict] is an association list in
    insertion order and is read by first match; numbers with a fraction or an
    exponent are not represented. *)

Inductive pyval : Type :=
| PyNone
| PyBool (b : bool)
| PyInt (n : Z)
| PyStr (s : string)
| PyList (l : list pyval)
| PyDict (d : list (string * pyval)).

(** The exceptions the script raises or lets through. *)
Inductive exn : Type :=
| MissingVariableError (variable_name : string)
| AuthenticationError (message : string)
| RuntimeError (message : string)
| ValueError (message : string)
| KeyError (key : pyval)
| IndexError
| TypeError
| AttributeError
| ConnectionError
| JSONDecodeError
| ParseError.

(** The result of running a piece of the script: it returns, it raises, it
    waits for a reply the scripted service does not have, or the model's loop
    bound is used up. *)
Inductive outcome (A : Type) : Type :=
| Return (a : A)
| Raise (e : exn)
| Blocked
| OutOfFuel.
Arguments Return {A} a.
Arguments Raise {A} e.
Arguments Blocked {A}.
Arguments OutOfFuel {A}.

#[global] Instance outcome_ret : MRet outcome := @Return.
#[global] Instance outcome_bind : MBind outcome := λ A B f m,
  match m with
  | Return a => f a
  | Raise e => Raise e
  | Blocked => Blocked
  | OutOfFuel => OutOfFuel
  end.

Module Py.

(** [bool(v)] *)
Definition truthy (v : pyval) : bool :=
  match v with
  | PyNone => false
  | PyBool b => b
  | PyInt n => negb (n =? 0)
  | PyStr s => negb (String.eqb s "")
  | PyList l => negb (Nat.eqb (length l) 0)
  | PyDict d => negb (Nat.eqb (length d) 0)
  end.

Fixpoint lookup (k : string) (d : list (string * pyval)) : option pyval :=
  match d with
  | [] => None
  | (k', v) :: d' => if String.eqb k k' then Some v else lookup k d'
  end.

(** [d[k] = v] on a dict: an existing key keeps its place. *)
Fixpoint store (k : string) (v : pyval) (d : list (string * pyval))
  : list (string * pyval) :=
  match d with
  | [] => [(k, v)]
  | (k', v') :: d' =>
      if String.eqb k k' then (k', v) :: d' else (k', v') :: store k v d'
  end.

(** [a == b] *)
Fixpoint eq (a b : pyval) {struct a} : bool :=
  match a, b with
  | PyNone, PyNone => true
  | PyBool x, PyBool y => Bool.eqb x y
  | PyBool x, PyInt y => (if x then 1 else 0) =? y
  | PyInt x, PyBool y => x =? (if y then 1 else 0)
  | PyInt x, PyInt y => x =? y
  | PyStr x, PyStr y => String.eqb x y
  | PyList xs, PyList ys =>
      (fix go (xs ys : list pyval) {struct xs} : bool :=
         match xs, ys with
         | [], [] => true
         | x :: xs', y :: ys' => eq x y && go xs' ys'
         | _, _ => false
         end) xs ys
  | PyDict d, PyDict e =>
      Nat.eqb (length d) (length e) &&
      (fix go (d : list (string * pyval)) {struct d} : bool :=
         match d with
         | [] => true
         | (k, v) :: d' =>
             match lookup k e with
             | Some w => eq v w && go d'
             | None => false
             end
         end) d
  | _, _ => false
  end.

(** [v.get(k, default)] *)
Definition get (v : pyval) (k : string) (default : pyval) : outcome pyval :=
  match v with
  | PyDict d => Return (from_option id default (lookup k d))
  | _ => Raise AttributeError
  end.

(** [v[k]] for a string [k] *)
Definition getitem (v : pyval) (k : string) : outcome pyval :=
  match v with
  | PyDict d =>
      match lookup k d with
      | Some x => Return x
      | None => Raise (KeyError (PyStr k))
      end
  | _ => Raise TypeError
  end.

Definition chars (s : string) : list pyval :=
  (λ c, PyStr (String c "")) <$> list_ascii_of_string s.

(** the items [for x in v] runs through *)
Definition iter (v : pyval) : outcome (list pyval) :=
  match v with
  | PyList l => Return l
  | PyStr s => Return (chars s)
  | PyDict d => Return ((λ kv, PyStr kv.1) <$> d)
  | _ => Raise TypeError
  end.

Fixpoint prefix (p s : string) : bool :=
  match p, s with
  | EmptyString, _ => true
  | String a p', String b s' => Ascii.eqb a b && prefix p' s'
  | String _ _, EmptyString => false
  end.

(** [p in s] on strings *)
Fixpoint substring (p s : string) : bool :=
  prefix p s ||
  match s with
  | EmptyString => false
  | String _ s' => substring p s'
  end.

(** [k in v] for a string [k] *)
Definition contains (k : string) (v : pyval) : outcome bool :=
  match v with
  | PyDict d => Return (bool_decide (is_Some (lookup k d)))
  | PyStr s => Return (substring k s)
  | PyList l => Return (existsb (eq (PyStr k)) l)
  | _ => Raise TypeError
  end.

(** [v[0]] *)
Definition first (v : pyval) : outcome pyval :=
  match v with
  | PyList (x :: _) => Return x
  | PyList [] => Raise IndexError
  | PyStr (String c _) => Return (PyStr (String c ""))
  | PyStr EmptyString => Raise IndexError
  | PyDict _ => Raise (KeyError (PyInt 0))
  | _ => Raise TypeError
  end.

(** [v[1:]] *)
Definition rest (v : pyval) : outcome pyval :=
  match v with
  | PyList l => Return (PyList (tail l))
  | PyStr (String _ s) => Return (PyStr s)
  | PyStr EmptyString => Return (PyStr "")
  | _ => Raise TypeError
  end.

End Py.

(** ** Strings: [str.split], [str.join], [sorted], [str()] and [repr()] *)

Module Str.

Definition len (s : string) : Z := Z.of_nat (String.length s).

(** [s.split(sep)] for a one-character separator *)
Fixpoint split (sep : ascii) (s : string) : list string :=
  match s with
  | EmptyString => [""]
  | String c s' =>
      if Ascii.eqb c sep then "" :: split sep s'
      else match split sep s' with
           | p :: ps => String c p :: ps
           | [] => [String c ""]
           end
  end.

(** [sep.join(parts)] *)
Fixpoint join (sep : string) (parts : list string) : string :=
  match parts with
  | [] => ""
  | [p] => p
  | p :: ps => p +:+ sep +:+ join sep ps
  end.

Fixpoint insert_sorted (x : string) (l : list string) : list string :=
  match l with
  | [] => [x]
  | y :: l' => if String.leb x y then x :: l else y :: insert_sorted x l'
  end.

(** [sorted(l)] on strings: by code point, left to right *)
Definition sorted (l : list string) : list string :=
  foldr insert_sorted [] l.

Definition count (c : ascii) (s : string) : nat :=
  length (filter (λ x, x = c) (list_ascii_of_string s)).

Definition DQUOTE : ascii := "034"%char.

Definition hex_digit (n : N) : ascii :=
  ascii_of_N (if (n <? 10)%N then 48 + n else 87 + n)%N.

(** one character of [repr(s)], inside the quotes [q] *)
Definition repr_char (q : ascii) (c : ascii) : string :=
  let n := N_of_ascii c in
  if Ascii.eqb c q || Ascii.eqb c "\"%char then String "\" (String c "")
  else if (n =? 9)%N then "\t"
  else if (n =? 10)%N then "\n"
  else if (n =? 13)%N then "\r"
  else if (n <? 32)%N || (n =? 127)%N || ((128 <=? n)%N && (n <=? 160)%N)
          || (n =? 173)%N
       then String "\" (String "x" (String (hex_digit (n / 16))
                                      (String (hex_digit (n mod 16)) "")))
  else String c "".

Fixpoint concat_map (f : ascii → string) (s : string) : string :=
  match s with
  | EmptyString => ""
  | String c s' => f c +:+ concat_map f s'
  end.

(** [repr(s)]: single quotes unless the string has one and no double quote *)
Definition repr (s : string) : string :=
  let q : ascii :=
    if (0 <? count "'" s)%nat && (count DQUOTE s =? 0)%nat
    then DQUOTE else "'"%char in
  String q (concat_map (repr_char q) s) +:+ String q "".

End Str.

Module PyFmt.

(** [repr(v)] *)
Fixpoint repr (v : pyval) : string :=
  match v with
  | PyNone => "None"
  | PyBool true => "True"
  | PyBool false => "False"
  | PyInt n => pretty n
  | PyStr s => Str.repr s
  | PyList l =>
      "[" +:+ Str.join ", " (map repr l) +:+ "]"
  | PyDict d =>
      "{" +:+
      Str.join ", "
        ((fix go (d : list (string * pyval)) : list string :=
            match d with
            | [] => []
            | (k, x) :: d' => (Str.repr k +:+ ": " +:+ repr x) :: go d'
            end) d)
      +:+ "}"
  end.

(** [str(v)], which is what ['{}'.format(v)] writes *)
Definition str (v : pyval) : string :=
  match v with
  | PyStr s => s
  | _ => repr v
  end.

End PyFmt.

(** ** [textwrap.fill] with the script's [WRAP_KWARGS]

    [width=100], [break_long_words=False], [break_on_hyphens=False], and the
    library's defaults otherwise ([expand_tabs], [replace_whitespace] and
    [drop_whitespace] on, [tabsize=8], no [max_lines]). *)

Module Textwrap.

Definition WRAP_WIDTH : Z := 100.

(** the library's [_whitespace]: tab, newline, VT, FF, CR and space *)
Definition whitespace (c : ascii) : bool :=
  let n := N_of_ascii c in ((9 <=? n)%N && (n <=? 13)%N) || (n =? 32)%N.

(** [c.isspace()] below code point 256, which is what [strip()] removes *)
Definition isspace (c : ascii) : bool :=
  let n := N_of_ascii c in
  whitespace c || ((28 <=? n)%N && (n <=? 31)%N) || (n =? 133)%N || (n =? 160)%N.

Fixpoint spaces (n : nat) : string :=
  match n with O => "" | S n' => String " " (spaces n') end.

(** [text.expandtabs(8)] *)
Fixpoint expandtabs (col : nat) (s : string) : string :=
  match s with
  | EmptyString => ""
  | String c s' =>
      if (N_of_ascii c =? 9)%N then
        let incr := (8 - col mod 8)%nat in
        spaces incr +:+ expandtabs (col + incr)%nat s'
      else
        String c (expandtabs
                    (if (N_of_ascii c =? 10)%N || (N_of_ascii c =? 13)%N
                     then 0 else col + 1)%nat s')
  end.

(** [text.translate(unicode_whitespace_trans)] *)
Fixpoint translate (s : string) : string :=
  match s with
  | EmptyString => ""
  | String c s' => String (if whitespace c then " "%char else c) (translate s')
  end.

Definition munge_whitespace (text : string) : string :=
  translate (expandtabs 0 text).

(** [wordsep_simple_re.split(text)] without the empty pieces: the maximal
    runs of whitespace and of other characters, in order *)
Fixpoint split (s : string) : list string :=
  match s with
  | EmptyString => []
  | String c s' =>
      match split s' with
      | String d r :: rest =>
          if Bool.eqb (whitespace c) (whitespace d)
          then String c (String d r) :: rest
          else String c "" :: String d r :: rest
      | rest => String c "" :: rest
      end
  end.

(** [chunk.strip() == ''] *)
Fixpoint blank (s : string) : bool :=
  match s with
  | EmptyString => true
  | String c s' => isspace c && blank s'
  end.

(** the inner loop of [_wrap_chunks]: chunks are taken while they fit *)
Fixpoint take_fitting (width cur_len : Z) (chunks : list string)
  : list string * list string :=
  match chunks with
  | [] => ([], [])
  | c :: cs =>
      if cur_len + Str.len c <=? width then
        let '(line, rest) := take_fitting width (cur_len + Str.len c) cs in
        (c :: line, rest)
      else ([], chunks)
  end.

Definition drop_last_blank (cur_line : list string) : list string :=
  match last cur_line with
  | Some c => if blank c then removelast cur_line else cur_line
  | None => cur_line
  end.

(** one round of the outer loop of [_wrap_chunks]; [chunks] is the stack of
    chunks still to place, next chunk first *)
Definition wrap_round (initial_indent subsequent_indent : string)
    (lines chunks : list string) : list string * list string :=
  let indent := match lines with [] => initial_indent | _ => subsequent_indent end in
  let width := WRAP_WIDTH - Str.len indent in
  let chunks :=
    match chunks, lines with
    | c :: cs, _ :: _ => if blank c then cs else chunks
    | _, _ => chunks
    end in
  let '(cur_line, chunks) := take_fitting width 0 chunks in
  let '(cur_line, chunks) :=
    match chunks, cur_line with
    | c :: cs, [] => if width <? Str.len c then ([c], cs) else (cur_line, chunks)
    | _, _ => (cur_line, chunks)
    end in
  let cur_line := drop_last_blank cur_line in
  match cur_line with
  | [] => (lines, chunks)
  | _ => (lines ++ [indent +:+ Str.join "" cur_line], chunks)
  end.

Fixpoint wrap_chunks (fuel : nat) (initial_indent subsequent_indent : string)
    (lines chunks : list string) : list string :=
  match chunks, fuel with
  | [], _ => lines
  | _, O => lines
  | _, S fuel' =>
      let '(lines, chunks) :=
        wrap_round initial_indent subsequent_indent lines chunks in
      wrap_chunks fuel' initial_indent subsequent_indent lines chunks
  end.

Definition wrap (text initial_indent subsequent_indent : string) : list string :=
  let chunks := split (munge_whitespace text) in
  wrap_chunks (length chunks) initial_indent subsequent_indent [] chunks.

(** [textwrap.fill(text, initial_indent=.., subsequent_indent=.., **WRAP_KWARGS)] *)
Definition fill (text initial_indent subsequent_indent : string) : string :=
  Str.join (String "010" "") (wrap text initial_indent subsequent_indent).

End Textwrap.

(** ** The world the script runs in *)

(** A [requests.Response]: the status line, the headers, the body as text,
    and the body as [json.loads] and [xml.etree] read it ([None] where the
    parser raises; of an XML document only the root's attributes are used). *)
Record response : Type := Response {
  status_code : Z;
  headers : list (string * string);
  text : string;
  json : option pyval;
  xml_attrib : option (list (string * string))
}.

(** What the service does with one request: it answers, or the connection
    fails and [requests] raises. *)
Inductive reply : Type :=
| Answer (r : response)
| NoConnection.

(** What the script does to the outside, in order. *)
Inductive event : Type :=
| Request (method url : string) (auth : option (string * string))
          (data : option pyval)
| Stdout (data : string)
| Sleep (seconds : Z).

Record world : Type := World {
  environ : gmap string string;
  network : list reply;
  events : list event
}.

Definition io (A : Type) : Type := world → outcome A * world.

#[global] Instance io_ret : MRet io := λ A a w, (Return a, w).
#[global] Instance io_bind : MBind io := λ A B f m w,
  match m w with
  | (Return a, w') => f a w'
  | (Raise e, w') => (Raise e, w')
  | (Blocked, w') => (Blocked, w')
  | (OutOfFuel, w') => (OutOfFuel, w')
  end.

(** a computation that does not touch the world *)
Definition pure {A} (o : outcome A) : io A := λ w, (o, w).

Definition raise {A} (e : exn) : io A := pure (Raise e).

Definition emit (e : event) : io unit := λ w,
  (Return tt, {| environ := environ w; network := network w;
                 events := events w ++ [e] |}).

(** [try: body except <caught>: handler] *)
Definition try_except {A} (body : io A) (caught : exn → bool)
    (handler : exn → io A) : io A := λ w,
  match body w with
  | (Raise e, w') => if caught e then handler e w' else (Raise e, w')
  | r => r
  end.

Definition LF : string := String "010" "".

(** [log(message)]: [sys.stdout.write(message + end)] with [end='\n'] *)
Definition log (message : string) : io unit := emit (Stdout (message +:+ LF)).

(** [time.sleep(seconds)] *)
Definition sleep (seconds : Z) : io unit := emit (Sleep seconds).

(** [os.environ.get(name)] *)
Definition getenv (name : string) : io (option string) := λ w,
  (Return (environ w !! name), w).

(** [requests.put], [requests.post], [requests.get]: the request goes out and
    the service's next reply comes back.  The payload is kept as the value
    that [json.dumps] or [yaml.dump] is given. *)
Definition send (method url : string) (auth : option (string * string))
    (data : option pyval) : io response := λ w,
  let sent := events w ++ [Request method url auth data] in
  match network w with
  | [] => (Blocked, {| environ := environ w; network := []; events := sent |})
  | Answer r :: net =>
      (Return r, {| environ := environ w; network := net; events := sent |})
  | NoConnection :: net =>
      (Raise ConnectionError,
       {| environ := environ w; network := net; events := sent |})
  end.

(** [r.ok]: [raise_for_status()] raises for 400 to 599 *)
Definition ok (r : response) : bool :=
  negb ((400 <=? status_code r) && (status_code r <? 600)).

Definition lower (c : ascii) : ascii :=
  let n := N_of_ascii c in
  if (65 <=? n)%N && (n <=? 90)%N then ascii_of_N (n + 32) else c.

Fixpoint lowercase (s : string) : string :=
  match s with
  | EmptyString => ""
  | String c s' => String (lower c) (lowercase s')
  end.

(** [r.headers[name]]: the names compare without case *)
Fixpoint header (name : string) (hs : list (string * string)) : outcome string :=
  match hs with
  | [] => Raise (KeyError (PyStr name))
  | (k, v) :: hs' =>
      if String.eqb (lowercase k) (lowercase name) then Return v
      else header name hs'
  end.

(** [attrib[name]] on the attributes of an XML element *)
Fixpoint attrib_get (name : string) (a : list (string * string)) : option string :=
  match a with
  | [] => None
  | (k, v) :: a' => if String.eqb k name then Some v else attrib_get name a'
  end.

Definition attrib (name : string) (a : list (string * string)) : outcome string :=
  match attrib_get name a with
  | Some v => Return v
  | None => Raise (KeyError (PyStr name))
  end.

(** [json.loads(r.text)] *)
Definition json_loads (r : response) : outcome pyval :=
  match json r with
  | Some v => Return v
  | None => Raise JSONDecodeError
  end.

(** [eTree.fromstring(r.text).attrib] *)
Definition xml_fromstring (r : response) : outcome (list (string * string)) :=
  match xml_attrib r with
  | Some a => Return a
  | None => Raise ParseError
  end.

(** ** The script *)

Definition PASSPHRASE_USERNAME : string := "onepanel".
Definition EMERGENCY_PASSPHRASE_VARIABLE : string := "ONEPANEL_EMERGENCY_PASSPHRASE".

Definition unauthorized : Z := 401.
Definition forbidden : Z := 403.
Definition conflict : Z := 409.

Definition API : string := "https://127.0.0.1:9443".

(** [format_step] *)
Definition format_step (step : pyval) : outcome string :=
  match step with
  | PyStr s =>
      match Str.split ":" s with
      | [service; action] => Return ("* " +:+ service +:+ ": " +:+ action)
      | [] | [_] =>
          Raise (ValueError ("not enough values to unpack (expected 2, got "
                             +:+ pretty (length (Str.split ":" s)) +:+ ")"))
      | _ => Raise (ValueError "too many values to unpack (expected 2)")
      end
  | _ => Raise AttributeError
  end.

(** [get_emergency_passphrase] *)
Definition get_emergency_passphrase : io string :=
  passphrase ← getenv EMERGENCY_PASSPHRASE_VARIABLE;
  match passphrase with
  | None => raise (MissingVariableError EMERGENCY_PASSPHRASE_VARIABLE)
  | Some p => mret p
  end.

Definition is_auth_status (code : Z) : bool :=
  (code =? unauthorized) || (code =? forbidden).

(** [set_emergency_passphrase] *)
Definition set_emergency_passphrase (passphrase : string) : io unit :=
  r ← send "PUT" (API +:+ "/api/v3/onepanel/emergency_passphrase") None
         (Some (PyDict [("newPassphrase", PyStr passphrase)]));
  if is_auth_status (status_code r) then
    raise (AuthenticationError
             ("Could not set Onepanel emergency passphrase due to "
              +:+ "authentication error: " +:+ pretty (status_code r)
              +:+ " " +:+ text r))
  else if negb (ok r) then
    raise (RuntimeError
             ("Could not set Onepanel emergency passphrase: "
              +:+ pretty (status_code r) +:+ " " +:+ text r))
  else mret tt.

(** [do_auth_request(request, url, ...)] *)
Definition do_auth_request (method url : string) (data : option pyval)
  : io response :=
  passphrase ← get_emergency_passphrase;
  r ← send method url (Some (PASSPHRASE_USERNAME, passphrase)) data;
  if is_auth_status (status_code r) then
    raise (AuthenticationError
             ("Authentication error." +:+ LF
              +:+ "Please ensure that valid emergency passphrase is present" +:+ LF
              +:+ "in the " +:+ EMERGENCY_PASSPHRASE_VARIABLE
              +:+ " environment variable"))
  else mret r.

(** [d[k] = v] for a string [k] *)
Definition setitem (d : pyval) (k : string) (v : pyval) : outcome pyval :=
  match d with
  | PyDict kvs => Return (PyDict (Py.store k v kvs))
  | _ => Raise TypeError
  end.

(** [get_batch_config], from its third line on: [batch_config] is what
    [yaml.safe_load(os.environ.get('ONEZONE_CONFIG', ''))] has produced,
    [None] for a variable that is unset or empty.  The dict
    [onepanel_config] is the one inside [batch_config] when the key is there,
    so the final assignment then puts it back in its place. *)
Definition get_batch_config (batch_config : pyval) : outcome pyval :=
  if negb (Py.truthy batch_config) then Return (PyDict [])
  else
    onepanel_config ← Py.get batch_config "onepanel" (PyDict []);
    present ← Py.contains "interactiveDeployment" onepanel_config;
    if negb (present : bool) then
      onepanel_config ← setitem onepanel_config "interactiveDeployment" (PyBool false);
      setitem batch_config "onepanel" onepanel_config
    else Return batch_config.

(** [unwrap_error_with_hosts] *)
Definition unwrap_error_with_hosts (error_obj : pyval)
  : outcome (pyval * pyval * pyval * pyval) :=
  error_id ← Py.get error_obj "id" PyNone;
  description ← Py.get error_obj "description" PyNone;
  details ← Py.get error_obj "details" (PyDict []);
  let nodes := PyList [] in
  wrapped ← (if Py.eq error_id (PyStr "errorOnNodes")
             then Py.contains "error" details else Return false);
  if wrapped : bool then
    inner ← Py.getitem details "error";
    error_id ← Py.getitem inner "id";
    description ← Py.getitem inner "description";
    nodes ← Py.getitem details "hostnames";
    details ← Py.get inner "details" (PyDict []);
    Return (error_id, description, details, nodes)
  else Return (error_id, description, details, nodes).

(** the loop of [format_dict] over the items of a dict; [nested] is
    [format_dict] itself, called on the values that are dicts *)
Definition format_items (nested : pyval → string → outcome string)
    (indent : string) : list (string * pyval) → string → outcome string :=
  fix each (items : list (string * pyval)) (result : string) {struct items} :=
    match items with
    | [] => Return result
    | (key, value) :: items' =>
        match value with
        | PyDict _ =>
            inner ← nested value (indent +:+ "  ");
            each items' (result +:+ (indent +:+ key +:+ ":" +:+ LF) +:+ inner)
        | _ =>
            each items'
              (result +:+ Textwrap.fill (key +:+ ": " +:+ PyFmt.str value)
                            indent (indent +:+ "  ") +:+ LF)
        end
    end.

(** [format_dict] *)
Fixpoint format_dict (details : pyval) (indent : string) {struct details}
  : outcome string :=
  match details with
  | PyDict items => format_items format_dict indent items ""
  | _ => Raise AttributeError
  end.

(** the strings [sep.join(sorted(v))] is given *)
Fixpoint strings_of (l : list pyval) : outcome (list string) :=
  match l with
  | [] => Return []
  | PyStr s :: l' => ss ← strings_of l'; Return (s :: ss)
  | _ :: _ => Raise TypeError
  end.

(** [format_error] *)
Definition format_error (response : pyval) : outcome string :=
  has_error ← Py.contains "error" response;
  if negb (has_error : bool) then Return "Error: unexpected server response"
  else
    error_obj ← Py.getitem response "error";
    unwrapped ← unwrap_error_with_hosts error_obj;
    let '(error_id, descr, details, nodes) := unwrapped in
    details_str ← format_dict details "    ";
    let details_str :=
      if negb (String.eqb details_str "")
      then "  details:" +:+ LF +:+ details_str else details_str in
    nodes_str ←
      (if Py.truthy nodes then
         names ← Py.iter nodes ≫= strings_of;
         Return ("  nodes:" +:+ LF +:+ "    "
                 +:+ Str.join (LF +:+ "    ") (Str.sorted names))
       else Return "");
    descr_str ←
      match descr with
      | PyStr d => Return (Textwrap.fill ("description: " +:+ d) "  " "    ")
      | _ => Raise TypeError
      end;
    Return ("Error:" +:+ LF +:+ "  id: " +:+ PyFmt.str error_id +:+ LF
            +:+ nodes_str +:+ LF +:+ descr_str +:+ LF +:+ details_str).

(** *** [configure] *)

(** the body of [for step in ...]: a step equal to the head of the recorded
    list takes that head off, any other step is logged *)
Fixpoint report_steps (new : list pyval) (steps : pyval) : io pyval :=
  match new with
  | [] => mret steps
  | step :: new' =>
      seen ← pure (if Py.truthy steps
                   then head ← Py.first steps; Return (Py.eq step head)
                   else Return false);
      if seen : bool then
        steps ← pure (Py.rest steps);
        report_steps new' steps
      else
        line ← pure (format_step step);
        log line;;
        report_steps new' steps
  end.

(** the local variables of the polling loop *)
Record poll_state : Type := PollState {
  status : pyval;
  steps : pyval;
  resp : pyval
}.

(** one round of [while status == 'running'] *)
Definition poll_once (loc : string) (st : poll_state) : io poll_state :=
  r ← do_auth_request "GET" (API +:+ loc) None;
  if negb (ok r) then
    raise (RuntimeError ("Unexpected configuration error" +:+ LF +:+ text r
                         +:+ "For more information please check the logs."))
  else
    resp ← pure (json_loads r);
    status ← pure (Py.get resp "status" (PyStr "error"));
    new ← pure (Py.get resp "steps" (PyList []) ≫= Py.iter);
    report_steps new (steps st);;
    steps ← pure (Py.get resp "steps" (PyList []));
    sleep 1;;
    mret {| status := status; steps := steps; resp := resp |}.

(** [while status == 'running']; every round takes one reply off the scripted
    service, so [fuel] bounds the rounds by the replies there are *)
Fixpoint poll_loop (fuel : nat) (loc : string) (st : poll_state) : io poll_state :=
  if Py.eq (status st) (PyStr "running") then
    match fuel with
    | O => pure OutOfFuel
    | S fuel' => st' ← poll_once loc st; poll_loop fuel' loc st'
    end
  else mret st.

Definition replies_left : io nat := λ w, (Return (length (network w)), w).

(** [configure], from [status = 'running'] to the end: the polling of the
    task at [loc] *)
Definition configure_poll (loc : string) : io bool :=
  let st := {| status := PyStr "running"; steps := PyList []; resp := PyDict [] |} in
  log (LF +:+ "Configuring Onezone:");;
  n ← replies_left;
  st ← poll_loop (S n) loc st;
  if negb (Py.eq (status st) (PyStr "ok")) then
    message ← pure (format_error (resp st));
    raise (RuntimeError message)
  else mret true.

Definition is_AuthenticationError (e : exn) : bool :=
  match e with AuthenticationError _ => true | _ => false end.

(** [configure], up to [loc = r.headers['location']]: [None] stands for the
    two places that [return False], [Some loc] for going on to poll *)
Definition configure_submit (config : pyval) : io (option string) :=
  passphrase ← get_emergency_passphrase;
  existing ← try_except (set_emergency_passphrase passphrase;; mret false)
               is_AuthenticationError
               (λ _, mret true);
  if existing : bool then mret None
  else
    r ← do_auth_request "POST" (API +:+ "/api/v3/onepanel/zone/configuration")
          (Some config);
    if status_code r =? conflict then mret None
    else if negb (ok r) then
      raise (RuntimeError
               ("Failed to start configuration process, the response was:" +:+ LF
                +:+ "  code: " +:+ pretty (status_code r) +:+ LF
                +:+ "  body: " +:+ text r +:+ LF
                +:+ "For more information please check the logs."))
    else
      loc ← pure (header "location" (headers r));
      mret (Some loc).

(** [configure] *)
Definition configure (config : pyval) : io bool :=
  submitted ← configure_submit config;
  match submitted with
  | None => mret false
  | Some loc => configure_poll loc
  end.

(** *** [wait_for_workers] *)

Definition when (b : bool) (m : io unit) : io unit := if b then m else mret tt.

Definition any_exception (e : exn) : bool := true.

(** [nagios_up] *)
Definition nagios_up (url : string) (log_errors : bool) : io bool :=
  answered ←
    try_except
      (r ← do_auth_request "GET" url None;
       if negb (ok r) then
         when log_errors
           (log ("Onepanel service is reachable, but nagios is not reporting "
                 +:+ "an OK status - retrying..."));;
         mret None
       else mret (Some r))
      any_exception
      (λ _, when log_errors (log "Onepanel service is not reachable - retrying...");;
            mret None);
  match answered with
  | None => mret false
  | Some r =>
      healthdata ← pure (xml_fromstring r);
      status ← pure (attrib "status" healthdata);
      mret (String.eqb status "ok")
  end.

Definition NAGIOS_URL : string := API +:+ "/api/v3/onepanel/zone/nagios".

(** [while not nagios_up(...)]; the loop leaves by [raise] when [retries]
    reaches 120, so 120 rounds of fuel are never used up *)
Fixpoint wait_loop (fuel : nat) (retries : Z) : io unit :=
  up ← nagios_up NAGIOS_URL (retries mod 10 =? 9);
  if up : bool then mret tt
  else
    sleep 1;;
    let retries := retries + 1 in
    if retries =? 120 then
      raise (RuntimeError "Timeout waiting for the Onepanel service readiness")
    else
      match fuel with
      | O => pure OutOfFuel
      | S fuel' => wait_loop fuel' retries
      end.

(** [wait_for_workers] *)
Definition wait_for_workers : io unit := wait_loop 120 0.

(** * Terms of the statements

    Names for the requests, lines, replies and conditions that the
    properties below speak of, and the sample data they are tried on. *)

(** ** The credential *)

(** the error [do_auth_request] raises on a 401 or 403 *)
Definition auth_failure : exn :=
  AuthenticationError
    ("Authentication error." +:+ LF
     +:+ "Please ensure that valid emergency passphrase is present" +:+ LF
     +:+ "in the " +:+ EMERGENCY_PASSPHRASE_VARIABLE +:+ " environment variable").

(** an environment whose passphrase is the empty string *)
Definition sample_environ : gmap string string :=
  {[ EMERGENCY_PASSPHRASE_VARIABLE := "" ]}.

(** ** The batch configuration *)

(** [config['onepanel']['interactiveDeployment']], when both keys are there *)
Definition interactive_deployment (config : pyval) : option pyval :=
  match config with
  | PyDict d =>
      match Py.lookup "onepanel" d with
      | Some (PyDict o) => Py.lookup "interactiveDeployment" o
      | _ => None
      end
  | _ => None
  end.

(** ** Error reports *)

(** the error object of the specification's example *)
Definition errorOnNodes_sample : pyval :=
  PyDict [("id", PyStr "errorOnNodes");
          ("details",
           PyDict [("error", PyDict [("id", PyStr "X");
                                     ("description", PyStr "bad thing")]);
                   ("hostnames", PyList [PyStr "h1"; PyStr "h2"])])].

(** and the report [format_error] makes of it *)
Definition errorOnNodes_report : string :=
  "Error:" +:+ LF +:+
  "  id: X" +:+ LF +:+
  "  nodes:" +:+ LF +:+
  "    h1" +:+ LF +:+
  "    h2" +:+ LF +:+
  "  description: bad thing" +:+ LF.

(** ** Reports as the specification renders them *)

(** the detail tree of a report: every entry begins a line at the indent; a
    value that is a mapping has its entries under its key, two blanks
    further in; any other value is written after its key and wrapped *)
Definition detail_entries (nested : pyval → string → string) (indent : string)
  : list (string * pyval) → string :=
  fix each (items : list (string * pyval)) {struct items} : string :=
    match items with
    | [] => ""
    | (key, value) :: items' =>
        match value with
        | PyDict _ => indent +:+ key +:+ ":" +:+ LF +:+ nested value (indent +:+ "  ")
        | _ => Textwrap.fill (key +:+ ": " +:+ PyFmt.str value) indent (indent +:+ "  ")
               +:+ LF
        end +:+ each items'
    end.

Fixpoint detail_tree (details : pyval) (indent : string) {struct details} : string :=
  match details with
  | PyDict items => detail_entries detail_tree indent items
  | _ => ""
  end.

(** the report of an error with this id, description and details that
    occurred on these nodes: the id, the nodes in order one to a line if
    there are any, the wrapped description, and the detail tree if there are
    details *)
Definition error_report (error_id : string) (nodes : list string)
    (description : string) (details : list (string * pyval)) : string :=
  "Error:" +:+ LF
  +:+ "  id: " +:+ error_id +:+ LF
  +:+ match nodes with
      | [] => ""
      | _ => "  nodes:" +:+ LF +:+ "    " +:+ Str.join (LF +:+ "    ") (Str.sorted nodes)
      end +:+ LF
  +:+ Textwrap.fill ("description: " +:+ description) "  " "    " +:+ LF
  +:+ match details with
      | [] => ""
      | _ => "  details:" +:+ LF +:+ detail_tree (PyDict details) "    "
      end.

(** an error object with an id and a description, and details if it has any,
    as the data model has it: strings, and a mapping *)
Definition plain_error (e : list (string * pyval)) (error_id description : string)
    (details : list (string * pyval)) : Prop :=
  Py.lookup "id" e = Some (PyStr error_id)
  ∧ Py.lookup "description" e = Some (PyStr description)
  ∧ default (PyDict []) (Py.lookup "details" e) = PyDict details.

(** a response body with a sample of everything a report can hold *)
Definition detailed_failure : list (string * pyval) :=
  [("status", PyStr "error");
   ("error",
    PyDict [("id", PyStr "errorOnNodes");
            ("description", PyStr "Operation failed on some nodes");
            ("details",
             PyDict [("error",
                      PyDict [("id", PyStr "badValueString");
                              ("description", PyStr "Bad value: provided domain is not valid.");
                              ("details",
                               PyDict [("key", PyStr "domainName");
                                       ("limits", PyDict [("min", PyInt 1);
                                                          ("max", PyInt 253)])])]);
                     ("hostnames", PyList [PyStr "node2.local"; PyStr "node1.local"])])])].

(** ** Submitting the configuration *)

(** the two requests of the submission, as they appear in a trace *)
Definition PUT_passphrase (p : string) : event :=
  Request "PUT" (API +:+ "/api/v3/onepanel/emergency_passphrase") None
    (Some (PyDict [("newPassphrase", PyStr p)])).

Definition POST_configuration (p : string) (config : pyval) : event :=
  Request "POST" (API +:+ "/api/v3/onepanel/zone/configuration")
    (Some (PASSPHRASE_USERNAME, p)) (Some config).

Definition is_POST (e : event) : bool :=
  match e with Request method _ _ _ => String.eqb method "POST" | _ => false end.

(** the [Fatal] of a rejected configuration request: status and body *)
Definition start_failure (r : response) : exn :=
  RuntimeError
    ("Failed to start configuration process, the response was:" +:+ LF
     +:+ "  code: " +:+ pretty (status_code r) +:+ LF
     +:+ "  body: " +:+ text r +:+ LF
     +:+ "For more information please check the logs.").

(** the [Fatal] of a rejected passphrase request *)
Definition passphrase_failure (r : response) : exn :=
  RuntimeError ("Could not set Onepanel emergency passphrase: "
                +:+ pretty (status_code r) +:+ " " +:+ text r).

(** what [configure] does once the passphrase is set and the configuration
    request is answered by [r] *)
Definition submitted (r : response) : outcome (option string) :=
  if is_auth_status (status_code r) then Raise auth_failure
  else if status_code r =? conflict then Return None
  else if negb (ok r) then Raise (start_failure r)
  else loc ← header "location" (headers r); Return (Some loc).

(** the two results of the submission that are not failures *)
Definition AlreadyConfigured : option string := None.
Definition TaskHandle (location : string) : option string := Some location.

(** sample data: an environment with a passphrase, and answers of the
    service to the two requests *)
Definition secret_environ : gmap string string :=
  {[ EMERGENCY_PASSPHRASE_VARIABLE := "secret" ]}.

Definition no_content : response := Response 204 [] "" None None.

Definition created (location : string) : response :=
  Response 201 [("Location", location)] "" None None.

Definition server_error : response :=
  Response 500 [] "internal error" None None.

(** ** Steps *)

(** a step string with exactly one [':'] *)
Definition one_colon (s : string) : bool := Nat.eqb (Str.count ":" s) 1.

Definition well_formed_step (v : pyval) : bool :=
  match v with PyStr s => one_colon s | _ => false end.

Definition is_str (v : pyval) : bool :=
  match v with PyStr _ => true | _ => false end.

(** the line [format_step] makes of a service and an action *)
Definition step_line (service action : string) : string :=
  "* " +:+ service +:+ ": " +:+ action.

(** ** Polling *)

(** the request of one round, and a line on standard output *)
Definition GET_task (p loc : string) : event :=
  Request "GET" (API +:+ loc) (Some (PASSPHRASE_USERNAME, p)) None.

Definition written (line : string) : event := Stdout (line +:+ LF).

Definition is_GET (e : event) : bool :=
  match e with Request method _ _ _ => String.eqb method "GET" | _ => false end.

(** how many GET requests a trace has *)
Definition gets (evs : list event) : nat := length (List.filter is_GET evs).

(** a line that renders a step which splits into a service and an action *)
Definition rendering (line : string) : Prop :=
  ∃ step service action,
    Str.split ":" step = [service; action] ∧ line = step_line service action.

(** the [status] and [steps] of a response body *)
Definition status_of (d : list (string * pyval)) : pyval :=
  default (PyStr "error") (Py.lookup "status" d).

Definition steps_of (d : list (string * pyval)) : pyval :=
  default (PyList []) (Py.lookup "steps" d).

Definition round_state (d : list (string * pyval)) : poll_state :=
  {| status := status_of d; steps := steps_of d; resp := PyDict d |}.

(** the [Fatal] of a round whose answer is not accepted *)
Definition poll_failure (r : response) : exn :=
  RuntimeError ("Unexpected configuration error" +:+ LF +:+ text r
                +:+ "For more information please check the logs.").

(** a reply whose body is a JSON object with [status == 'running'] *)
Definition reports_running (rp : reply) : bool :=
  match rp with
  | Answer r =>
      match json r with
      | Some (PyDict d) => Py.eq (status_of d) (PyStr "running")
      | _ => false
      end
  | NoConnection => false
  end.

(** the heading the poll starts with, and the state it starts in *)
Definition HEADER : string := LF +:+ "Configuring Onezone:".

Definition initial_state : poll_state :=
  {| status := PyStr "running"; steps := PyList []; resp := PyDict [] |}.

(** what [configure] does with the state the loop ends in *)
Definition conclude (st : poll_state) : outcome bool :=
  if negb (Py.eq (status st) (PyStr "ok")) then
    message ← format_error (resp st); Raise (RuntimeError message)
  else Return true.

(** sample data: answers of a task that is deploying, has finished, has
    failed, and one that lists a step without a [':'] *)
Definition pending : response :=
  Response 200 [] ""
    (Some (PyDict [("status", PyStr "running"); ("steps", PyList [PyStr "oz_panel:deploy"])]))
    None.

Definition finished : response :=
  Response 200 [] "" (Some (PyDict [("status", PyStr "ok")])) None.

(** ** Rounds on well-formed steps *)

(** the recorded list is a list of well-formed steps *)
Definition wf_cursor (cursor : pyval) : Prop :=
  ∃ l, cursor = PyList l ∧ Forall (λ v, well_formed_step v = true) l.

(** the [steps] of a body are absent or a list of well-formed steps *)
Definition clean_steps (d : list (string * pyval)) : bool :=
  match Py.lookup "steps" d with
  | None => true
  | Some (PyList l) => forallb well_formed_step l
  | Some _ => false
  end.

(** an accepted reply that reports [running] with well-formed steps *)
Definition progress_reply (rp : reply) : bool :=
  match rp with
  | Answer r =>
      ok r &&
      match json r with
      | Some (PyDict d) => Py.eq (status_of d) (PyStr "running") && clean_steps d
      | _ => false
      end
  | NoConnection => false
  end.

Definition failed : response :=
  Response 200 [] ""
    (Some (PyDict [("status", PyStr "error"); ("error", errorOnNodes_sample)])) None.

Definition garbled : response :=
  Response 200 [] ""
    (Some (PyDict [("status", PyStr "running");
                   ("steps", PyList [PyStr "oz_panel:deploy"; PyStr "oz_worker"])]))
    None.

Definition deploying : response :=
  Response 200 [] ""
    (Some (PyDict [("status", PyStr "running");
                   ("steps", PyList [PyStr "oz_panel:deploy"; PyStr "oz_worker:start"])]))
    None.

(** ** Waiting for readiness *)

(** the health request, the two lines that are logged every tenth time, and
    the error of a wait that has run out *)
Definition GET_nagios (p : string) : event :=
  Request "GET" NAGIOS_URL (Some (PASSPHRASE_USERNAME, p)) None.

Definition NOT_REACHABLE : string :=
  "Onepanel service is not reachable - retrying...".

Definition NOT_OK : string :=
  "Onepanel service is reachable, but nagios is not reporting "
  +:+ "an OK status - retrying...".

Definition TIMEOUT : exn :=
  RuntimeError "Timeout waiting for the Onepanel service readiness".

(** what one health request comes to: the service is up, it is not (with
    the line that is logged when errors are logged), or the check breaks *)
Inductive health : Type :=
| Healthy
| Unhealthy (note : list string)
| Broken (e : exn).

Definition observe (rp : reply) : health :=
  match rp with
  | NoConnection => Unhealthy [NOT_REACHABLE]
  | Answer r =>
      if is_auth_status (status_code r) then Unhealthy [NOT_REACHABLE]
      else if negb (ok r) then Unhealthy [NOT_OK]
      else match xml_attrib r with
           | None => Broken ParseError
           | Some a =>
               match attrib_get "status" a with
               | Some s => if String.eqb s "ok" then Healthy else Unhealthy []
               | None => Broken (KeyError (PyStr "status"))
               end
           end
  end.

(** an observation that is not ok, and one that is *)
Definition not_ready (rp : reply) : bool :=
  match observe rp with Unhealthy _ => true | _ => false end.

Definition ready (rp : reply) : bool :=
  match observe rp with Healthy => true | _ => false end.

Definition is_Stdout (e : event) : bool :=
  match e with Stdout _ => true | _ => false end.

(** the requests and sleeps of a trace, in order *)
Definition pace (evs : list event) : list event :=
  List.filter (λ e, negb (is_Stdout e)) evs.

(** [n] health requests, each followed by a sleep of one second *)
Fixpoint attempts (p : string) (n : nat) : list event :=
  match n with
  | O => []
  | S n' => GET_nagios p :: Sleep 1 :: attempts p n'
  end.

(** sample data: health answers *)
Definition healthy : response :=
  Response 200 [] "<healthdata status='ok'/>" None (Some [("status", "ok")]).

Definition degraded : response :=
  Response 200 [] "<healthdata status='error'/>" None (Some [("status", "error")]).

Definition unavailable : response :=
  Response 503 [] "Service Unavailable" None None.

Definition not_xml : response :=
  Response 200 [] "pong" None None.

(** ** Terms of the further properties *)

(** what a trace writes to standard output, in order *)
Definition output (evs : list event) : list string :=
  flat_map (λ e, match e with Stdout data => [data] | _ => [] end) evs.

(** the line a failed observation logs when errors are logged, if any *)
Definition note_of (rp : reply) : list string :=
  match observe rp with Unhealthy note => note | _ => [] end.

(** the notes of a run of failed observations that starts at retry [k]:
    those of every tenth retry *)
Definition tenth_notes (k : nat) (downs : list reply) : list string :=
  concat (imap (λ i rp, if ((k + i) mod 10 =? 9)%nat then note_of rp else []) downs).

(** ** More of the script: the listener and the batch deployment *)

Definition is_ConnectionError (e : exn) : bool :=
  match e with ConnectionError => true | _ => false end.

Definition WAITING_NOTICE : string :=
  "Waiting for oz_panel server to be available" +:+ LF
  +:+ "(may require starting other cluster nodes)" +:+ LF.

(** [while not connected] of [wait_for_rest_listener]; the pair handed from
    round to round is [(first, connected)], and every round takes one reply
    off the scripted service *)
Fixpoint listener_loop (fuel : nat) (first connected : bool) : io unit :=
  if negb connected then
    match fuel with
    | O => pure OutOfFuel
    | S fuel' =>
        flags ← try_except
                  (send "GET" (API +:+ "/api/v3/onepanel/") None None;;
                   mret (first, true))
                  is_ConnectionError
                  (λ _, when first (log WAITING_NOTICE);;
                        sleep 1;;
                        mret (false, false));
        listener_loop fuel' flags.1 flags.2
    end
  else mret tt.

(** [wait_for_rest_listener] *)
Definition wait_for_rest_listener : io unit :=
  n ← replies_left;
  listener_loop (S n) true false.

Definition CONGRATULATIONS : string :=
  LF +:+ "Congratulations! New Onezone deployment successfully started.".

Definition WAITING_FOR_CLUSTER : string :=
  LF +:+ "Waiting for existing cluster to start...".

Definition RESUMED : string := "Existing Onezone deployment resumed work.".

Definition NO_ACCESS : string :=
  "The launch script cannot access onepanel to manage the deployment process." +:+ LF
  +:+ "Please ensure that valid emergency passphrase is present" +:+ LF
  +:+ "in the " +:+ EMERGENCY_PASSPHRASE_VARIABLE +:+ " environment variable" +:+ LF
  +:+ "or oversee the cluster status manually.".

Definition MISSING_ON_EXISTING : string :=
  "Environment variable " +:+ EMERGENCY_PASSPHRASE_VARIABLE +:+ " is missing." +:+ LF
  +:+ "An existing deployment will continue to work" +:+ LF
  +:+ "but this script will not be able to track its startup." +:+ LF
  +:+ "You can fix this by setting the variable" +:+ LF
  +:+ "to the Onepanel' passphrase (formerly admin account's password).".

Definition MISSING_ON_NEW : string :=
  "Environment variable " +:+ EMERGENCY_PASSPHRASE_VARIABLE +:+ " is missing." +:+ LF
  +:+ "When deploying a new cluster this variable is required." +:+ LF
  +:+ "Please set it to your desired Onepanel emergency passphrase." +:+ LF.

Definition deployment_handled (e : exn) : bool :=
  match e with
  | AuthenticationError _ | MissingVariableError _ => true
  | _ => false
  end.

(** the batch-mode part of the script's main block, from
    [batch_mode = os.environ.get('ONEPANEL_BATCH_MODE', 'false')] to the end
    of its [try] statement.  [config_file_existed] is the main block's
    variable of that name and [document] is what
    [yaml.safe_load(os.environ.get('ONEZONE_CONFIG', ''))] has produced.
    [batch_mode.lower()] is compared with an ASCII word, for which lowering
    the ASCII letters is enough: no other character below code point 256
    lowers to an ASCII one. *)
Definition batch_deployment (config_file_existed : bool) (document : pyval)
  : io unit :=
  batch_mode ← getenv "ONEPANEL_BATCH_MODE";
  if String.eqb (lowercase (default "false" batch_mode)) "true" then
    batch_config ← pure (get_batch_config document);
    try_except
      (started ← configure batch_config;
       if started : bool then log CONGRATULATIONS
       else
         log WAITING_FOR_CLUSTER;;
         wait_for_workers;;
         log RESUMED)
      deployment_handled
      (λ e,
         match e with
         | AuthenticationError _ => log NO_ACCESS
         | MissingVariableError variable_name =>
             if negb (String.eqb variable_name EMERGENCY_PASSPHRASE_VARIABLE)
             then raise e
             else if config_file_existed then log MISSING_ON_EXISTING
             else log MISSING_ON_NEW
         | _ => raise e
         end)
  else mret tt.

Definition GET_listener : event :=
  Request "GET" (API +:+ "/api/v3/onepanel/") None None.

(** [n] refused connections after the first one: each a request and a sleep *)
Fixpoint listener_retries (n : nat) : list event :=
  match n with
  | O => []
  | S n' => Sleep 1 :: GET_listener :: listener_retries n'
  end.

(** what [wait_for_rest_listener] does when [n] connections are refused
    before one is answered *)
Definition listener_trace (n : nat) : list event :=
  match n with
  | O => [GET_listener]
  | S n' => GET_listener :: written WAITING_NOTICE :: listener_retries (S n')
  end.

(** a reply that rejects the credentials *)
Definition rejecting (rp : reply) : bool :=
  match rp with
  | Answer r => is_auth_status (status_code r)
  | NoConnection => false
  end.

(** sample data: batch mode with a passphrase, batch mode without one, and
    an answer that rejects the credentials *)
Definition batch_environ : gmap string string :=
  {[ EMERGENCY_PASSPHRASE_VARIABLE := "wrong"; "ONEPANEL_BATCH_MODE" := "True" ]}.

Definition bare_environ : gmap string string :=
  {[ "ONEPANEL_BATCH_MODE" := "true" ]}.

Definition denied : response := Response 401 [] "Unauthorized" None None.

Definition sample_document : pyval :=
  PyDict [("cluster", PyDict [("domainName", PyStr "onezone.local")])].

Definition sample_config : pyval :=
  PyDict [("cluster", PyDict [("domainName", PyStr "onezone.local")]);
          ("onepanel", PyDict [("interactiveDeployment", PyBool false)])].

(** ** More of the script: the files of the container

    The first part of the script's main block prepares two files of the
    panel: the generated application configuration and the arguments of the
    Erlang node.  These functions read and write text files and print to
    standard output.  A [host] holds, for each path that exists, the text
    stored there, the paths that cannot be opened for writing, and what has
    been printed.  Only regular files are modelled, and text is a string of
    code points below 256: directories and the encoding are left out. *)

(** How a run of these functions ends when it does not return: with an
    [OSError] of the file system, with the failure of a command, with an
    exception of the first part of the model, or at a library behaviour
    that is not followed here ([Unfollowed], with the name of the library
    function). *)
Inductive failure : Type :=
| FileNotFoundError (path : string)
| PermissionError (path : string)
| CalledProcessError (command : string)
| Python (e : exn)
| Unfollowed (function : string).

Inductive result (A : Type) : Type :=
| Done (a : A)
| Failed (e : failure).
Arguments Done {A} a.
Arguments Failed {A} e.

Record host : Type := Host {
  files : gmap string string;
  readonly : gset string;
  printed : list string
}.

Definition sh (A : Type) : Type := host → result A * host.

#[global] Instance sh_ret : MRet sh := λ A a h, (Done a, h).
#[global] Instance sh_bind : MBind sh := λ A B f m h,
  match m h with
  | (Done a, h') => f a h'
  | (Failed e, h') => (Failed e, h')
  end.

Definition throw {A} (e : failure) : sh A := λ h, (Failed e, h).

Definition CR : ascii := "013"%char.
Definition NL : ascii := "010"%char.

(** What reading in text mode makes of the stored text: a carriage return,
    with or without a line feed after it, is read as a line feed. *)
Fixpoint universal_newlines (after_cr : bool) (s : string) : string :=
  match s with
  | EmptyString => ""
  | String c s' =>
      if Ascii.eqb c CR then String NL (universal_newlines true s')
      else if after_cr && Ascii.eqb c NL then universal_newlines false s'
      else String c (universal_newlines false s')
  end.

(** [open(path, 'r').read()], and with [update] [open(path, 'r+').read()] *)
Definition read_text (update : bool) (path : string) : sh string := λ h,
  match files h !! path with
  | None => (Failed (FileNotFoundError path), h)
  | Some stored =>
      if update && bool_decide (path ∈ readonly h)
      then (Failed (PermissionError path), h)
      else (Done (universal_newlines false stored), h)
  end.

(** The file at [path] is made to hold [content]: [open(path, 'w')] and
    [f.write(content)], or [f.seek(0); f.truncate(); f.write(content)] on a
    file that is open for updating.  On Linux a line feed is written as it
    is. *)
Definition write_text (path content : string) : sh unit := λ h,
  if bool_decide (path ∈ readonly h) then (Failed (PermissionError path), h)
  else (Done tt, {| files := <[path := content]> (files h);
                    readonly := readonly h; printed := printed h |}).

(** [os.path.exists(path)] *)
Definition path_exists (path : string) : sh bool := λ h,
  (Done (bool_decide (is_Some (files h !! path))), h).

(** [os.remove(path)] *)
Definition os_remove (path : string) : sh unit := λ h,
  match files h !! path with
  | None => (Failed (FileNotFoundError path), h)
  | Some _ => (Done tt, {| files := delete path (files h);
                           readonly := readonly h; printed := printed h |})
  end.

(** [log(message)] *)
Definition print (message : string) : sh unit := λ h,
  (Done tt, {| files := files h; readonly := readonly h;
               printed := printed h ++ [message +:+ LF] |}).

(** *** The regular expressions of the script *)

Module Re.

(** the text up to the end of the line: what [.*] matches *)
Fixpoint line_head (s : string) : string :=
  match s with
  | EmptyString => ""
  | String c s' => if Ascii.eqb c NL then "" else String c (line_head s')
  end.

Fixpoint drop_prefix (p s : string) : option string :=
  match p, s with
  | EmptyString, _ => Some s
  | String a p', String b s' => if Ascii.eqb a b then drop_prefix p' s' else None
  | String _ _, EmptyString => None
  end.

(** [re.search] for a literal [key] followed by a group that takes the rest
    of the line: the group of the leftmost match, if there is a match *)
Fixpoint search_line (key s : string) : option string :=
  match drop_prefix key s with
  | Some rest => Some (line_head rest)
  | None =>
      match s with
      | EmptyString => None
      | String _ s' => search_line key s'
      end
  end.

(** [re.sub] for a literal [key] followed by the rest of the line, where
    [key] is not empty and has no line feed and the replacement is taken as
    it is: every match, from [key] to the end of its line, becomes [repl];
    [in_match] is set while the rest of a match is passed over. *)
Fixpoint sub_line (key repl : string) (in_match : bool) (s : string) : string :=
  match s with
  | EmptyString => ""
  | String c s' =>
      if in_match then
        if Ascii.eqb c NL then String c (sub_line key repl false s')
        else sub_line key repl true s'
      else if Py.prefix key s then repl +:+ sub_line key repl true s'
      else String c (sub_line key repl false s')
  end.

Fixpoint skip_spaces (s : string) : string :=
  match s with
  | EmptyString => ""
  | String c s' => if Textwrap.isspace c then skip_spaces s' else s
  end.

(** [{config_initialized,\s*true}] matches at the start of [s] *)
Definition initialized_at (s : string) : bool :=
  match drop_prefix "{config_initialized," s with
  | Some rest => Py.prefix "true}" (skip_spaces rest)
  | None => false
  end.

(** [bool(re.search(r'{config_initialized,\s*true}', s))] *)
Fixpoint search_initialized (s : string) : bool :=
  if initialized_at s then true
  else match s with
       | EmptyString => false
       | String _ s' => search_initialized s'
       end.

End Re.

(** *** Paths and strings *)

Definition SLASH : ascii := "/"%char.

(** [s.rstrip(c)] for one character [c] *)
Fixpoint rstrip (c : ascii) (s : string) : string :=
  match s with
  | EmptyString => ""
  | String a s' =>
      match rstrip c s' with
      | EmptyString => if Ascii.eqb a c then "" else String a ""
      | rest => String a rest
      end
  end.

Fixpoint all_slashes (s : string) : bool :=
  match s with
  | EmptyString => true
  | String a s' => Ascii.eqb a SLASH && all_slashes s'
  end.

(** [p[:p.rfind('/') + 1]] *)
Fixpoint upto_last_slash (p : string) : string :=
  match p with
  | EmptyString => ""
  | String a p' =>
      match upto_last_slash p' with
      | EmptyString => if Ascii.eqb a SLASH then String a "" else ""
      | head => String a head
      end
  end.

(** [os.path.dirname(p)] *)
Definition dirname (p : string) : string :=
  let head := upto_last_slash p in
  if all_slashes head then head else rstrip SLASH head.

Fixpoint ends_with_slash (s : string) : bool :=
  match s with
  | EmptyString => false
  | String a EmptyString => Ascii.eqb a SLASH
  | String _ s' => ends_with_slash s'
  end.

(** [os.path.join(a, b)] *)
Definition path_join (a b : string) : string :=
  if Py.prefix "/" b then b
  else if String.eqb a "" || ends_with_slash a then a +:+ b
  else a +:+ "/" +:+ b.

(** *** The functions of the script *)

(** [replace(file_path, pattern, value)] for a pattern that is a literal
    [key] followed by the rest of the line, which is how the script calls
    it.  A [value] with a
    backslash in it is a template for [re.sub], with escapes and group
    references whose treatment differs between versions of Python; the
    model stops there. *)
Definition replace (file_path key value : string) : sh unit :=
  content ← read_text true file_path;
  content ← (if Py.substring "\" value then throw (Unfollowed "re.sub")
             else mret (Re.sub_line key value false content));
  write_text file_path content.

(** [sp.check_output(['hostname', flag]).decode()]: the output of a command
    that succeeded, or its failure *)
Definition check_output (command : string) (run : option string) : sh string :=
  match run with
  | Some out => mret out
  | None => throw (CalledProcessError command)
  end.

(** [set_node_name(file_path)], where [hostname_f] is what [hostname -f]
    does *)
Definition set_node_name (hostname_f : option string) (file_path : string)
  : sh unit :=
  out ← check_output "hostname -f" hostname_f;
  let hostname := rstrip NL out in
  replace file_path "-name " ("-name onepanel@" +:+ hostname).

(** [config_file_initialized(file_path)] *)
Definition config_file_initialized (file_path : string) : sh bool := λ h,
  match read_text false file_path h with
  | (Done content, h') => (Done (Re.search_initialized content), h')
  | (Failed _, h') => (Done false, h')
  end.

Definition CONFIG_HEAD : string :=
  "% MACHINE GENERATED FILE. DO NOT MODIFY." +:+ LF
  +:+ "% Use overlay.config for custom configuration." +:+ LF +:+ LF
  +:+ "[{onepanel, [{config_initialized, true}".

(** ['true' if value == 'true' else 'false'] *)
Definition flag_of (value : string) : string :=
  if String.eqb value "true" then "true" else "false".

Definition QUOTE : string := String Str.DQUOTE "".

(** the text that [generate_config_file] writes *)
Definition config_content (env : gmap string string) : string :=
  let content := CONFIG_HEAD in
  let generate_test_web_cert := env !! "ONEPANEL_GENERATE_TEST_WEB_CERT" in
  let content :=
    if negb (String.eqb (default "" generate_test_web_cert) "") then
      let domain := from_option PyStr PyNone (env !! "ONEPANEL_GENERATED_CERT_DOMAIN") in
      let flag := flag_of (default "" generate_test_web_cert) in
      content
      +:+ ("," +:+ LF +:+ "{generate_test_web_cert, " +:+ flag +:+ "}")
      +:+ ("," +:+ LF +:+ "{test_web_cert_domain, " +:+ QUOTE +:+ PyFmt.str domain
           +:+ QUOTE +:+ "}")
    else content in
  let trust_test_ca := env !! "ONEPANEL_TRUST_TEST_CA" in
  let content :=
    if negb (String.eqb (default "" trust_test_ca) "") then
      let flag := flag_of (default "" trust_test_ca) in
      content +:+ ("," +:+ LF +:+ "{treat_test_ca_as_trusted, " +:+ flag +:+ "}")
    else content in
  content +:+ (LF +:+ "]}].").

(** [generate_config_file(file_path)] under the environment [env] *)
Definition generate_config_file (env : gmap string string) (file_path : string)
  : sh unit :=
  write_text file_path (config_content env).

(** [AUTOGENERATED_VM_ARGS_TEMPLATE.format(node=node, cookie=cookie)] *)
Definition AUTOGENERATED_VM_ARGS (node cookie : string) : string :=
  "# MACHINE GENERATED FILE. DO NOT MODIFY." +:+ LF +:+ LF
  +:+ "## Name of the node" +:+ LF
  +:+ "-name " +:+ node +:+ LF +:+ LF
  +:+ "## Cookie for distributed erlang" +:+ LF
  +:+ "-setcookie " +:+ cookie +:+ LF.

(** [m.group(name)] on the result of [re.search] *)
Definition group (m : option string) : sh string :=
  match m with
  | Some text => mret text
  | None => throw (Python AttributeError)
  end.

(** [upgrade_legacy_vm_args(legacy_vm_args_path)] *)
Definition upgrade_legacy_vm_args (legacy_vm_args_path : string) : sh unit :=
  content ← read_text true legacy_vm_args_path;
  node ← group (Re.search_line "-name " content);
  cookie ← group (Re.search_line "-setcookie " content);
  let autogenerated_vm_args_path :=
    path_join (dirname legacy_vm_args_path) "autogenerated.vm.args" in
  write_text autogenerated_vm_args_path (AUTOGENERATED_VM_ARGS node cookie);;
  os_remove legacy_vm_args_path;;
  print ("Upgraded legacy vm.args: " +:+ legacy_vm_args_path +:+ " -> "
         +:+ autogenerated_vm_args_path).

Definition COMPONENTS : list string := ["cluster_manager"; "oz_panel"; "oz_worker"].
Definition ONEPANEL_OVERRIDE : string := "ONEPANEL_OVERRIDE".

(** the value of [ONEPANEL_OVERRIDE] when it is set and not empty *)
Definition override (env : gmap string string) : option string :=
  match env !! ONEPANEL_OVERRIDE with
  | Some "" | None => None
  | Some root => Some root
  end.

(** [legacy_vm_args_path_template.format(component=component)].  When the
    panel is started from sources the template holds the override path, and
    [str.format] reads braces in it as fields; the model stops there. *)
Definition legacy_vm_args_path (env : gmap string string) (component : string)
  : sh string :=
  match override env with
  | Some root =>
      if Py.substring "{" root || Py.substring "}" root
      then throw (Unfollowed "str.format")
      else mret (path_join (path_join root ("../" +:+ component))
                   ("_build/default/rel/" +:+ component +:+ "/etc/vm.args"))
  | None => mret ("/etc/" +:+ component +:+ "/vm.args")
  end.

Fixpoint upgrade_components (env : gmap string string) (components : list string)
  : sh unit :=
  match components with
  | [] => mret tt
  | component :: components' =>
      path ← legacy_vm_args_path env component;
      found ← path_exists path;
      (if found : bool then upgrade_legacy_vm_args path else mret tt);;
      upgrade_components env components'
  end.

(** [upgrade_legacy_vm_args_if_exists()] *)
Definition upgrade_legacy_vm_args_if_exists (env : gmap string string) : sh unit :=
  upgrade_components env COMPONENTS.

(** [f.readline()] on a file that has just been opened: the first line,
    with its line feed *)
Fixpoint first_line (s : string) : string :=
  match s with
  | EmptyString => ""
  | String c s' => if Ascii.eqb c NL then String c "" else String c (first_line s')
  end.

(** [get_container_id()] *)
Definition get_container_id : sh string :=
  content ← read_text false "/proc/self/cgroup";
  mret (rstrip NL (List.last (Str.split SLASH (first_line content)) "")).

(** the paths of the generated configuration and of the node's arguments,
    as the main block chooses them *)
Definition app_config_path (env : gmap string string) : string :=
  match override env with
  | Some root => path_join root "_build/default/rel/oz_panel/etc/autogenerated.config"
  | None => "/etc/oz_panel/autogenerated.config"
  end.

Definition vm_args_path (env : gmap string string) : string :=
  match override env with
  | Some root => path_join root "_build/default/rel/oz_panel/etc/autogenerated.vm.args"
  | None => "/etc/oz_panel/autogenerated.vm.args"
  end.

(** the main block from [upgrade_legacy_vm_args_if_exists()] to
    [set_node_name(vm_args_path)]; the result is [config_file_existed] *)
Definition prepare_files (env : gmap string string) (hostname_f : option string)
  : sh bool :=
  upgrade_legacy_vm_args_if_exists env;;
  config_file_existed ← config_file_initialized (app_config_path env);
  (if negb config_file_existed then generate_config_file env (app_config_path env)
   else mret tt);;
  set_node_name hostname_f (vm_args_path env);;
  mret config_file_existed.

(** *** Terms of the properties of the files *)

(** [c] does not occur in [s] *)
Fixpoint lacks (c : ascii) (s : string) : bool :=
  match s with
  | EmptyString => true
  | String a s' => negb (Ascii.eqb a c) && lacks c s'
  end.

(** [s] is white space only *)
Fixpoint all_spaces (s : string) : bool :=
  match s with
  | EmptyString => true
  | String a s' => Textwrap.isspace a && all_spaces s'
  end.

(** a host name as [hostname] prints it: no blank, no line break and no
    backslash in it *)
Definition plain_hostname (s : string) : bool :=
  lacks " " s && lacks NL s && lacks CR s && lacks "\" s.

(** the node name and the cookie that a file of node arguments holds, as
    the script reads them *)
Definition node_name (path : string) (h : host) : option string :=
  match read_text false path h with
  | (Done content, _) => Re.search_line "-name " content
  | (Failed _, _) => None
  end.

Definition node_cookie (path : string) (h : host) : option string :=
  match read_text false path h with
  | (Done content, _) => Re.search_line "-setcookie " content
  | (Failed _, _) => None
  end.

(** sample data: a host with nothing on it, and an environment that asks
    for a test certificate *)
Definition fresh_host : host := Host ∅ ∅ [].

Definition sample_certificates : gmap string string :=
  {[ "ONEPANEL_GENERATE_TEST_WEB_CERT" := "true";
     "ONEPANEL_GENERATED_CERT_DOMAIN" := "onezone.local" ]}.

(** a host with the node arguments of an earlier start, and the same host
    after [set_node_name] for [zone.example.com] *)
Definition sample_host : host :=
  Host {[ "/etc/oz_panel/autogenerated.vm.args"
          := AUTOGENERATED_VM_ARGS "onepanel@legacy.local" "secret_cookie" ]} ∅ [].

Definition named_host : host :=
  Host {[ "/etc/oz_panel/autogenerated.vm.args"
          := AUTOGENERATED_VM_ARGS "onepanel@zone.example.com" "secret_cookie" ]} ∅ [].

(** a host of an earlier release: the panel's legacy arguments with a name
    and a cookie, and a worker's legacy arguments without a cookie *)
Definition legacy_host : host :=
  Host {[ "/etc/oz_panel/vm.args"
          := "## Name of the node" +:+ LF +:+ "-name onepanel@legacy.local" +:+ LF
             +:+ "-setcookie secret_cookie" +:+ LF +:+ "+K true" +:+ LF;
          "/etc/oz_worker/vm.args" := "-name worker@legacy.local" +:+ LF ]} ∅ [].

(** a host of an earlier release with the panel's legacy arguments only *)
Definition panel_legacy_host : host :=
  Host {[ "/etc/oz_panel/vm.args"
          := "## Name of the node" +:+ LF +:+ "-name onepanel@legacy.local" +:+ LF
             +:+ "-setcookie secret_cookie" +:+ LF +:+ "+K true" +:+ LF ]} ∅ [].

(** a host of an earlier release whose cookie holds the words that mark
    the name of the node *)
Definition odd_cookie_host : host :=
  Host {[ "/etc/oz_panel/vm.args"
          := "-name onepanel@legacy.local" +:+ LF
             +:+ "-setcookie key-name x" +:+ LF ]} ∅ [].

(** a host of an earlier release whose panel has lost its cookie *)
Definition half_legacy_host : host :=
  Host {[ "/etc/cluster_manager/vm.args"
          := "-name cluster_manager@legacy.local" +:+ LF
             +:+ "-setcookie secret_cookie" +:+ LF;
          "/etc/oz_panel/vm.args" := "-name onepanel@legacy.local" +:+ LF ]} ∅ [].

(** hosts with the control groups of a container under Docker, and under a
    unified hierarchy *)
Definition docker_host : host :=
  Host {[ "/proc/self/cgroup"
          := "12:pids:/docker/0123456789abcdef" +:+ LF
             +:+ "11:cpu:/docker/0123456789abcdef" +:+ LF ]} ∅ [].

Definition unified_host : host :=
  Host {[ "/proc/self/cgroup" := "0::/" +:+ LF ]} ∅ [].

(** ** More of the script: the details of the container

    [show_details] prints the address and the published ports of the
    container, from what the Docker daemon tells about it.  The commands it
    runs are parameters: what [hostname -i] prints, and what [curl] gets
    from the daemon's socket for a request, as [json.loads] reads it; a
    command that fails is [None]. *)

(** a value of [outcome] in a run on the host *)
Definition lift {A} (o : outcome A) : sh A :=
  match o with
  | Return a => mret a
  | Raise e => throw (Python e)
  | Blocked | OutOfFuel => throw (Unfollowed "outcome")
  end.

(** [except Exception] *)
Definition is_exception (e : failure) : bool :=
  match e with
  | Unfollowed _ => false
  | _ => true
  end.

(** [try: body except Exception: handler] *)
Definition sh_try {A} (body : sh A) (handler : sh A) : sh A := λ h,
  match body h with
  | (Failed e, h') => if is_exception e then handler h' else (Failed e, h')
  | r => r
  end.

(** an [int] used as an index *)
Definition index_of (x : pyval) : option Z :=
  match x with
  | PyInt n => Some n
  | PyBool b => Some (if b then 1 else 0)
  | _ => None
  end.

(** [l[i]] on a sequence of length [length l] *)
Definition at_index {A} (l : list A) (i : Z) : outcome A :=
  let i := if i <? 0 then i + Z.of_nat (length l) else i in
  if i <? 0 then Raise IndexError
  else match l !! Z.to_nat i with
       | Some x => Return x
       | None => Raise IndexError
       end.

(** [v[x]] *)
Definition subscript (v x : pyval) : outcome pyval :=
  match v with
  | PyDict d =>
      match x with
      | PyStr k => Py.getitem v k
      | PyList _ | PyDict _ => Raise TypeError
      | _ => Raise (KeyError x)
      end
  | PyList l =>
      match index_of x with
      | Some i => at_index l i
      | None => Raise TypeError
      end
  | PyStr s =>
      match index_of x with
      | Some i => at_index (Py.chars s) i
      | None => Raise TypeError
      end
  | _ => Raise TypeError
  end.

(** [b.rstrip(chars)] on [bytes]: the characters to strip are bytes too, or
    [None] for white space; no value of [json] or [str] is accepted *)
Fixpoint rstrip_whitespace (b : string) : string :=
  match b with
  | EmptyString => ""
  | String a b' =>
      match rstrip_whitespace b' with
      | EmptyString => if Textwrap.whitespace a then "" else String a ""
      | rest => String a rest
      end
  end.

Definition bytes_rstrip (b : string) (chars : pyval) : outcome string :=
  match chars with
  | PyNone => Return (rstrip_whitespace b)
  | _ => Raise TypeError
  end.

(** [list(v.items())[0][1]] *)
Definition first_value (v : pyval) : outcome pyval :=
  match v with
  | PyDict ((_, x) :: _) => Return x
  | PyDict [] => Raise IndexError
  | _ => Raise AttributeError
  end.

(** [inspect_container(container_id)] *)
Definition inspect_container (curl : string → option pyval) (container_id : string)
  : sh pyval :=
  mret (default (PyDict []) (curl ("http:/containers/" +:+ container_id +:+ "/json"))).

(** [show_ip_address(json)]; [hostname_i] is what [hostname -i] prints, in
    bytes *)
Definition show_ip_address (hostname_i : option string) (json : pyval) : sh unit :=
  ip ← sh_try
         (out ← check_output "hostname -i" hostname_i;
          _ ← lift (bytes_rstrip out (PyStr LF));
          lift (settings ← Py.getitem json "NetworkSettings";
                networks ← Py.getitem settings "Networks";
                network ← first_value networks;
                Py.getitem network "IPAddress"))
         (mret (PyStr "-"));
  print ("* IP Address: " +:+ PyFmt.str ip).

(** the entry of one binding of a port *)
Definition binding_entry (container_port host_port : pyval) : outcome pyval :=
  host_ip ← Py.getitem host_port "HostIp";
  host_port ← Py.getitem host_port "HostPort";
  Return (PyStr (PyFmt.str host_ip +:+ ":" +:+ PyFmt.str host_port +:+ " -> "
                 +:+ PyFmt.str container_port)).

(** the body of [for container_port in ports]: what it appends *)
Definition port_entries (ports container_port : pyval) : outcome (list pyval) :=
  host ← subscript ports container_port;
  if Py.truthy host then
    bindings ← Py.iter host;
    mapM (binding_entry container_port) bindings
  else Return [container_port].

Definition PORTS_SEPARATOR : string := LF +:+ "         ".

(** [show_ports(json)] *)
Definition show_ports (json : pyval) : sh unit :=
  ports ← lift (settings ← Py.get json "NetworkSettings" (PyDict []);
                Py.get settings "Ports" (PyDict []));
  ports_format ← lift (container_ports ← Py.iter ports;
                       entries ← mapM (port_entries ports) container_ports;
                       Return (concat entries));
  ports_str ← (if negb (Nat.eqb (length ports_format) 0)
               then lift (entries ← strings_of ports_format;
                          Return (Str.join PORTS_SEPARATOR entries))
               else mret "-");
  print ("* Ports: " +:+ ports_str).

(** [show_details()] *)
Definition show_details (curl : string → option pyval) (hostname_i : option string)
  : sh unit :=
  print (LF +:+ "Container details:");;
  container_id ← get_container_id;
  json ← inspect_container curl container_id;
  show_ip_address hostname_i json;;
  show_ports json.

(** *** Terms of the properties of the details *)

(** the published ports of an inspection, where it has them as a mapping:
    an inspection without [NetworkSettings], or settings without [Ports],
    count as having none *)
Definition ports_of (json : pyval) : option (list (string * pyval)) :=
  match json with
  | PyDict d =>
      match default (PyDict []) (Py.lookup "NetworkSettings" d) with
      | PyDict settings =>
          match default (PyDict []) (Py.lookup "Ports" settings) with
          | PyDict ports => Some ports
          | _ => None
          end
      | _ => None
      end
  | _ => None
  end.

(** a binding of a port as the daemon gives it: a mapping with a host
    address and a host port *)
Definition is_binding (v : pyval) : bool :=
  match v with
  | PyDict b => bool_decide (is_Some (Py.lookup "HostIp" b))
                && bool_decide (is_Some (Py.lookup "HostPort" b))
  | _ => false
  end.

(** what a port is bound to: nothing ([null] or an empty list), or a list
    of bindings *)
Definition is_published (host : pyval) : bool :=
  match host with
  | PyNone => true
  | PyList bindings => forallb is_binding bindings
  | _ => false
  end.

Definition binding_text (container_port : string) (v : pyval) : string :=
  match v with
  | PyDict b =>
      PyFmt.str (default PyNone (Py.lookup "HostIp" b)) +:+ ":"
      +:+ PyFmt.str (default PyNone (Py.lookup "HostPort" b)) +:+ " -> " +:+ container_port
  | _ => ""
  end.

(** the entries of one port: one for each binding, or the port alone *)
Definition port_texts (port : string * pyval) : list string :=
  match port.2 with
  | PyList (b :: bindings) => binding_text port.1 <$> (b :: bindings)
  | _ => [port.1]
  end.

(** sample data: an inspection with a port that is bound twice and a port
    that is not published *)
Definition sample_inspection : pyval :=
  PyDict [("Id", PyStr "0123456789abcdef");
          ("NetworkSettings",
           PyDict [("Ports",
                    PyDict [("443/tcp",
                             PyList [PyDict [("HostIp", PyStr "0.0.0.0"); ("HostPort", PyStr "443")];
                                     PyDict [("HostIp", PyStr "::"); ("HostPort", PyStr "443")]]);
                            ("9443/tcp", PyNone)])])].

(** ** More of the script: following the logs

    [print_logs] copies what the services write to their log files to
    standard output, and in its last call keeps doing so once a second.
    The log files belong to other processes, so the model has them change
    while the script sleeps: a [terminal] holds the log files as they are
    now, as they will be found after each later sleep, and what has been
    written to standard output.  A file is known by its inode, which the
    script compares to find out that a log has been rotated.

    Opening and reading can fail, and the script takes every failure the
    same way.  A path can be one that cannot be opened; and what is behind
    an inode is text that can be read, or a file whose reading fails, on
    bytes that do not decode or on an error of the device, after
    [readline] has delivered some lines. *)

Inductive log_text : Type :=
| Readable (stored : string)
| Unreadable (delivered : list string).

Record log_disk : Type := LogDisk {
  inode : gmap string nat;
  content : gmap nat log_text;
  locked : gset string
}.

Record terminal : Type := Terminal {
  disk : log_disk;
  later : list log_disk;
  screen : list string
}.

Definition logio (A : Type) : Type := terminal → outcome A * terminal.

#[global] Instance logio_ret : MRet logio := λ A a t, (Return a, t).
#[global] Instance logio_bind : MBind logio := λ A B f m t,
  match m t with
  | (Return a, t') => f a t'
  | (Raise e, t') => (Raise e, t')
  | (Blocked, t') => (Blocked, t')
  | (OutOfFuel, t') => (OutOfFuel, t')
  end.

(** an open file: the inode it was opened on and how far it has been read *)
Record descriptor : Type := Descriptor {
  opened : nat;
  position : nat
}.

(** [(log_prefix, log_file, log_fd, log_ino)] *)
Record cursor : Type := Cursor {
  log_prefix : string;
  log_file : string;
  log_fd : option descriptor;
  log_ino : option nat
}.

(** [sys.stdout.write(text)] *)
Definition write (text : string) : logio unit := λ t,
  (Return tt, Terminal (disk t) (later t) (screen t ++ [text])).

(** [time.sleep(1)]: the log files are found as the next second leaves
    them; without a next second in the model the run is [Blocked] *)
Definition nap : logio unit := λ t,
  match later t with
  | [] => (Blocked, t)
  | next :: rest => (Return tt, Terminal next rest (screen t))
  end.

Fixpoint skip (n : nat) (s : string) : string :=
  match n, s with
  | O, _ => s
  | S n', String _ s' => skip n' s'
  | S _, EmptyString => ""
  end.

(** the lines that [readline] returns one by one, each with its line feed;
    the last one may be without *)
Fixpoint lines_of (s : string) : list string :=
  match s with
  | EmptyString => []
  | String c s' =>
      if Ascii.eqb c NL then String c "" :: lines_of s'
      else match lines_of s' with
           | [] => [String c ""]
           | line :: lines => String c line :: lines
           end
  end.

(** the body of [for ... in log_cursors], with its [try] and [except]: the
    file is opened anew when its inode is not the one of the cursor, what
    has not been read of it is written out line by line, and the cursor
    moves to the end.  Whatever is raised on the way is caught, and the
    cursor then starts over: when the file is not there ([os.stat]), when it
    cannot be opened, when the cursor has no open file for the inode found,
    and when reading fails, after the lines that were delivered have been
    written. *)
Definition print_new_log (c : cursor) : logio cursor := λ t,
  let start_over := Cursor (log_prefix c) (log_file c) None None in
  let shown lines := (λ line, log_prefix c +:+ " " +:+ line) <$> lines in
  match inode (disk t) !! log_file c with
  | None => (Return start_over, t)
  | Some ino =>
      let anew := bool_decide (Some ino ≠ log_ino c) in
      if anew && bool_decide (log_file c ∈ locked (disk t))
      then (Return start_over, t)
      else
        let log_fd := if anew then Some (Descriptor ino 0) else log_fd c in
        match log_fd with
        | None => (Return start_over, t)
        | Some fd =>
            match default (Readable "") (content (disk t) !! opened fd) with
            | Readable stored =>
                let unread := skip (position fd) stored in
                let lines := lines_of (universal_newlines false unread) in
                (Return (Cursor (log_prefix c) (log_file c)
                           (Some (Descriptor (opened fd)
                                    (position fd + String.length unread)))
                           (Some ino)),
                 Terminal (disk t) (later t) (screen t ++ shown lines))
            | Unreadable delivered =>
                (Return start_over,
                 Terminal (disk t) (later t) (screen t ++ shown delivered))
            end
        end
  end.

(** [print_new_logs(log_cursors)]; [None] cannot be iterated *)
Definition print_new_logs (log_cursors : option (list cursor)) : logio (list cursor) :=
  match log_cursors with
  | None => λ t, (Raise TypeError, t)
  | Some cursors => mapM print_new_log cursors
  end.

Definition LOGS : list (string * string) :=
  [("[oz_panel]", "/var/log/oz_panel");
   ("[cluster_manager]", "/var/log/cluster_manager");
   ("[oz_worker]", "/var/log/oz_worker")].

Definition LOG_LEVELS : list string := ["debug"; "info"; "error"].

(** the cursors that [print_logs] starts with when it is given none *)
Definition first_cursors (log_level : string) : list cursor :=
  (λ log, Cursor log.1 (path_join log.2 (log_level +:+ ".log")) None None) <$> LOGS.

(** [while infinitely] of [print_logs]: every round takes one second of the
    model *)
Fixpoint follow_logs (fuel : nat) (log_cursors : list cursor) : logio (list cursor) :=
  match fuel with
  | O => λ t, (OutOfFuel, t)
  | S fuel' =>
      new_log_cursors ← print_new_logs (Some log_cursors);
      nap;;
      follow_logs fuel' new_log_cursors
  end.

(** [print_logs(log_level, starting_log_cursors, infinitely)] *)
Definition print_logs (log_level : string) (starting_log_cursors : option (list cursor))
    (infinitely : bool) : logio (list cursor) :=
  starting_log_cursors ←
    (if bool_decide (log_level ∈ LOG_LEVELS) then
       write (LF +:+ "Logging on '" +:+ log_level +:+ "' level:" +:+ LF);;
       match starting_log_cursors with
       | None | Some [] => mret (Some (first_cursors log_level))
       | Some _ => mret starting_log_cursors
       end
     else mret starting_log_cursors);
  new_log_cursors ← print_new_logs starting_log_cursors;
  if infinitely then
    seconds ← (λ t, (Return (length (later t)), t));
    follow_logs (S seconds) new_log_cursors
  else mret new_log_cursors.

(** *** Terms of the properties of the logs *)

(** [s] is made of whole lines: it is empty or ends in a line feed *)
Fixpoint whole_lines (s : string) : bool :=
  match s with
  | EmptyString => true
  | String c s' =>
      match s' with
      | EmptyString => Ascii.eqb c NL
      | String _ _ => whole_lines s'
      end
  end.

(** the main block's [current_log_level] *)
Definition current_log_level (env : gmap string string) : string :=
  lowercase (default "info" (env !! "ONEPANEL_LOG_LEVEL")).

(** sample data: the panel's log of one line *)
Definition sample_terminal : terminal :=
  Terminal (LogDisk {[ "/var/log/oz_panel/info.log" := 7%nat ]}
                    {[ 7%nat := Readable ("[info] started" +:+ LF) ]} ∅) [] [].

(** the same log after bytes that do not decode have been added to it: the
    line before them is still delivered *)
Definition damaged_terminal : terminal :=
  Terminal (LogDisk {[ "/var/log/oz_panel/info.log" := 7%nat ]}
                    {[ 7%nat := Unreadable ["[info] started" +:+ LF] ]} ∅) [] [].

(** *** Terms of the properties of the wrapping *)

(** the chunks that [textwrap] places: the runs of white space and of other
    characters of the text *)
Definition chunks_of (text : string) : list string :=
  Textwrap.split (Textwrap.munge_whitespace text).

(** a line of wrapped text is within the width, or it is an indent and a
    single chunk of the text that does not fit beside it *)
Definition within_width (text initial_indent subsequent_indent line : string) : Prop :=
  Str.len line ≤ Textwrap.WRAP_WIDTH
  ∨ ∃ indent chunk,
      (indent = initial_indent ∨ indent = subsequent_indent)
      ∧ chunk ∈ chunks_of text
      ∧ Textwrap.WRAP_WIDTH - Str.len indent < Str.len chunk
      ∧ line = indent +:+ chunk.

(** the length of the chunks of a line together *)
Definition total_len (chunks : list string) : Z :=
  foldr (λ chunk n, Str.len chunk + n) 0 chunks.

(** ** More of the script: the batch configuration as the loader leaves it

    [yaml.safe_load] returns one object for a node that has an anchor and
    for every alias of it, and [get_batch_config] changes the mapping of
    [onepanel] in place.  Where that shows, the configuration is a store of
    objects: a value is a scalar, or a reference to a list or a mapping in
    the store, and two values are the same object when they are the same
    reference.  A store gives every reference an object, and knows a
    reference that is not in use. *)

Inductive yvalue : Type :=
| YNone
| YBool (b : bool)
| YInt (n : Z)
| YStr (s : string)
| YRef (object : nat).

Inductive yobject : Type :=
| YList (items : list yvalue)
| YDict (entries : list (string * yvalue)).

Record store : Type := Store {
  object_at : nat → yobject;
  unused : nat
}.

(** the entry of a key in a mapping, and the mapping after [d[k] = v]: an
    existing key keeps its place *)
Fixpoint entry (k : string) (entries : list (string * yvalue)) : option yvalue :=
  match entries with
  | [] => None
  | (k', v) :: entries' => if String.eqb k k' then Some v else entry k entries'
  end.

Fixpoint set_entry (k : string) (v : yvalue) (entries : list (string * yvalue))
  : list (string * yvalue) :=
  match entries with
  | [] => [(k, v)]
  | (k', v') :: entries' =>
      if String.eqb k k' then (k', v) :: entries' else (k', v') :: set_entry k v entries'
  end.

(** the store with another object at a reference *)
Definition put (at_ : nat) (o : yobject) (σ : store) : store :=
  Store (λ a, if Nat.eqb a at_ then o else object_at σ a) (unused σ).

(** [{}]: a new mapping *)
Definition new_dict (σ : store) : yvalue * store :=
  (YRef (unused σ),
   Store (λ a, if Nat.eqb a (unused σ) then YDict [] else object_at σ a)
         (S (unused σ))).

(** [bool(v)] *)
Definition truthy_loaded (v : yvalue) (σ : store) : bool :=
  match v with
  | YNone => false
  | YBool b => b
  | YInt n => negb (n =? 0)
  | YStr s => negb (String.eqb s "")
  | YRef a =>
      match object_at σ a with
      | YList items => negb (Nat.eqb (length items) 0)
      | YDict entries => negb (Nat.eqb (length entries) 0)
      end
  end.

(** [k in v] for a string [k]: a key of a mapping, an item of a list, a part
    of a string *)
Definition contains_loaded (k : string) (v : yvalue) (σ : store) : outcome bool :=
  match v with
  | YRef a =>
      match object_at σ a with
      | YDict entries => Return (bool_decide (is_Some (entry k entries)))
      | YList items =>
          Return (existsb (λ item, match item with
                                   | YStr s => String.eqb k s
                                   | _ => false
                                   end) items)
      end
  | YStr s => Return (Py.substring k s)
  | _ => Raise TypeError
  end.

(** the entries of the mapping at a reference; a list has none *)
Definition entries_at (σ : store) (a : nat) : list (string * yvalue) :=
  match object_at σ a with
  | YDict entries => entries
  | YList _ => []
  end.

(** [get_batch_config], from its third line on, on the objects that
    [yaml.safe_load] has produced.  The [{}] that is the default of [get]
    is made when it is used; the mapping that the last assignment writes to
    is [batch_config] as the assignment before has left it. *)
Definition get_batch_config_loaded (batch_config : yvalue) (σ : store)
  : outcome yvalue * store :=
  if negb (truthy_loaded batch_config σ) then
    let '(empty, σ) := new_dict σ in (Return empty, σ)
  else
    match batch_config with
    | YRef root =>
        match object_at σ root with
        | YDict entries =>
            let '(onepanel_config, σ) :=
              match entry "onepanel" entries with
              | Some v => (v, σ)
              | None => new_dict σ
              end in
            match contains_loaded "interactiveDeployment" onepanel_config σ with
            | Return false =>
                match onepanel_config with
                | YRef a =>
                    match object_at σ a with
                    | YDict marked =>
                        let σ := put a (YDict (set_entry "interactiveDeployment"
                                                 (YBool false) marked)) σ in
                        (Return batch_config,
                         put root (YDict (set_entry "onepanel" onepanel_config
                                            (entries_at σ root))) σ)
                    | YList _ => (Raise TypeError, σ)
                    end
                | _ => (Raise TypeError, σ)
                end
            | Return true => (Return batch_config, σ)
            | Raise e => (Raise e, σ)
            | Blocked => (Blocked, σ)
            | OutOfFuel => (OutOfFuel, σ)
            end
        | YList _ => (Raise AttributeError, σ)
        end
    | _ => (Raise AttributeError, σ)
    end.

(** *** Terms of the properties of the loaded configuration *)

(** a configuration with an alias: [defaults: &d {debug: true}] and
    [onepanel: *d] are one mapping, at reference 1 *)
Definition aliased_config : store :=
  Store (λ a, match a with
              | O => YDict [("defaults", YRef 1); ("onepanel", YRef 1)]
              | 1%nat => YDict [("debug", YBool true)]
              | _ => YDict []
              end) 2.

(** * Properties *)

(** ** Strings *)

Example split_sample : Str.split ":" "oz_panel:deploy" = ["oz_panel"; "deploy"].
Proof. reflexivity. Qed.
Example split_none : Str.split ":" "nocolon" = ["nocolon"].
Proof. reflexivity. Qed.
Example sorted_sample : Str.sorted ["h2"; "h10"; "h1"] = ["h1"; "h10"; "h2"].
Proof. reflexivity. Qed.
Example repr_sample :
  PyFmt.repr (PyList [PyStr "h1"; PyInt (-3); PyNone; PyDict [("up", PyBool true)]])
  = "['h1', -3, None, {'up': True}]".
Proof. vm_compute. reflexivity. Qed.
Example fill_sample :
  Textwrap.fill "description:   bad  thing" "  " "    " = "  description:   bad  thing".
Proof. vm_compute. reflexivity. Qed.

Lemma append_cons c a b : String c a +:+ b = String c (a +:+ b).
Proof. reflexivity. Qed.

Lemma append_nil_r a : a +:+ "" = a.
Proof. induction a as [|c a IH]; [done|]. by rewrite append_cons, IH. Qed.

Lemma append_assoc a b c : (a +:+ b) +:+ c = a +:+ (b +:+ c).
Proof. induction a as [|x a IH]; [done|]. by rewrite !append_cons, IH. Qed.

Lemma strings_of_strings texts : strings_of (PyStr <$> texts) = Return texts.
Proof.
  induction texts as [|t texts IH]; [done|]. cbn [fmap list_fmap strings_of].
  change (list_fmap _ _ PyStr texts) with (PyStr <$> texts). by rewrite IH.
Qed.

(** ** Running the [io] monad *)

Lemma bind_run {A B} (m : io A) (f : A → io B) (w : world) :
  (m ≫= f) w =
  match m w with
  | (Return a, w') => f a w'
  | (Raise e, w') => (Raise e, w')
  | (Blocked, w') => (Blocked, w')
  | (OutOfFuel, w') => (OutOfFuel, w')
  end.
Proof. reflexivity. Qed.

Lemma pure_bind_run {A B} (o : outcome A) (f : A → io B) (w : world) :
  (pure o ≫= f) w =
  match o with
  | Return a => f a w
  | Raise e => (Raise e, w)
  | Blocked => (Blocked, w)
  | OutOfFuel => (OutOfFuel, w)
  end.
Proof. rewrite bind_run. unfold pure. by destruct o. Qed.

(** ** The credential *)

Lemma get_emergency_passphrase_run (w : world) :
  get_emergency_passphrase w =
  match environ w !! EMERGENCY_PASSPHRASE_VARIABLE with
  | Some p => (Return p, w)
  | None => (Raise (MissingVariableError EMERGENCY_PASSPHRASE_VARIABLE), w)
  end.
Proof.
  unfold get_emergency_passphrase. rewrite bind_run. unfold getenv.
  by destruct (environ w !! EMERGENCY_PASSPHRASE_VARIABLE).
Qed.

Lemma send_run method url auth data env net evs :
  send method url auth data (World env net evs) =
  let sent := evs ++ [Request method url auth data] in
  match net with
  | [] => (Blocked, World env [] sent)
  | Answer r :: net' => (Return r, World env net' sent)
  | NoConnection :: net' => (Raise ConnectionError, World env net' sent)
  end.
Proof. reflexivity. Qed.

Lemma do_auth_request_run method url data env net evs :
  do_auth_request method url data (World env net evs) =
  match env !! EMERGENCY_PASSPHRASE_VARIABLE with
  | None => (Raise (MissingVariableError EMERGENCY_PASSPHRASE_VARIABLE),
             World env net evs)
  | Some p =>
      let sent := evs ++ [Request method url (Some (PASSPHRASE_USERNAME, p)) data] in
      match net with
      | [] => (Blocked, World env [] sent)
      | NoConnection :: net' => (Raise ConnectionError, World env net' sent)
      | Answer r :: net' =>
          if is_auth_status (status_code r)
          then (Raise auth_failure, World env net' sent)
          else (Return r, World env net' sent)
      end
  end.
Proof.
  unfold do_auth_request. rewrite bind_run, get_emergency_passphrase_run.
  cbn [environ]. destruct (env !! EMERGENCY_PASSPHRASE_VARIABLE) as [p|]; [|done].
  rewrite bind_run, send_run. cbn zeta.
  destruct net as [|[r|] net']; [done| |done].
  by destruct (is_auth_status (status_code r)).
Qed.

(** C8: the credential lookup raises the missing-variable error exactly when
    the passphrase variable is absent from the environment; any value that is
    present is returned as it is, and an empty passphrase is returned and
    sent as the Basic-auth password like any other. *)
Theorem passphrase_missing_iff_absent (w : world) :
  ((get_emergency_passphrase w).1
     = Raise (MissingVariableError EMERGENCY_PASSPHRASE_VARIABLE)
   ↔ environ w !! EMERGENCY_PASSPHRASE_VARIABLE = None)
  ∧ (∀ p, environ w !! EMERGENCY_PASSPHRASE_VARIABLE = Some p →
          get_emergency_passphrase w = (Return p, w))
  ∧ (environ w !! EMERGENCY_PASSPHRASE_VARIABLE = Some "" →
     get_emergency_passphrase w = (Return "", w)
     ∧ ∀ method url data,
         events (do_auth_request method url data w).2
         = events w ++ [Request method url (Some (PASSPHRASE_USERNAME, "")) data]).
Proof.
  rewrite get_emergency_passphrase_run. split_and!.
  - destruct (environ w !! EMERGENCY_PASSPHRASE_VARIABLE); naive_solver.
  - by intros p ->.
  - intros Hp. rewrite Hp. split; [done|]. intros method url data.
    destruct w as [env net evs]. cbn [environ] in Hp.
    rewrite do_auth_request_run, Hp. cbn zeta.
    destruct net as [|[r|] net']; [done| |done].
    by destruct (is_auth_status (status_code r)).
Qed.

Lemma passphrase_missing_iff_absent_witness :
  get_emergency_passphrase (World sample_environ [] []) = (Return "", World sample_environ [] [])
  ∧ events (do_auth_request "GET" NAGIOS_URL None (World sample_environ [] [])).2
    = [Request "GET" NAGIOS_URL (Some (PASSPHRASE_USERNAME, "")) None].
Proof.
  destruct (passphrase_missing_iff_absent (World sample_environ [] []))
    as (_ & _ & Hempty).
  destruct Hempty as [Hget Hsend]; [reflexivity|].
  split; [exact Hget | exact (Hsend "GET" NAGIOS_URL None)].
Defined.

(** Without the variable nothing is sent: [configure] raises at once, and a
    health check counts as failed. *)
Lemma configure_missing_passphrase config w :
  environ w !! EMERGENCY_PASSPHRASE_VARIABLE = None →
  configure config w = (Raise (MissingVariableError EMERGENCY_PASSPHRASE_VARIABLE), w).
Proof.
  intros Hp. unfold configure, configure_submit.
  by rewrite !bind_run, get_emergency_passphrase_run, Hp.
Qed.

Lemma nagios_up_missing_passphrase url w :
  environ w !! EMERGENCY_PASSPHRASE_VARIABLE = None →
  nagios_up url false w = (Return false, w).
Proof.
  intros Hp. destruct w as [env net evs]. cbn [environ] in Hp.
  unfold nagios_up. rewrite bind_run. unfold try_except.
  by rewrite bind_run, do_auth_request_run, Hp.
Qed.

(** ** The batch configuration *)

Lemma lookup_store_eq k v d : Py.lookup k (Py.store k v d) = Some v.
Proof.
  induction d as [|[k' v'] d IH]; cbn.
  - by rewrite String.eqb_refl.
  - destruct (String.eqb k k') eqn:E; cbn; rewrite E; [done | exact IH].
Qed.

Lemma lookup_store_ne k k' v d :
  k ≠ k' → Py.lookup k' (Py.store k v d) = Py.lookup k' d.
Proof.
  intros Hne. induction d as [|[k0 v0] d IH]; cbn.
  - destruct (String.eqb k' k) eqn:E; [|done].
    apply String.eqb_eq in E. congruence.
  - destruct (String.eqb k k0) eqn:E; cbn.
    + apply String.eqb_eq in E. subst k0.
      destruct (String.eqb k' k) eqn:E'; [|done].
      apply String.eqb_eq in E'. congruence.
    + by rewrite IH.
Qed.

(** C7, as the code has it: for a blob that is a non-empty mapping whose
    [onepanel] entry is absent or a mapping, the request built from it has
    [onepanel.interactiveDeployment]: the blob's own value when it has one,
    and [False] otherwise. *)
Theorem get_batch_config_marks_interactive (d : list (string * pyval)) :
  d ≠ [] →
  (Py.lookup "onepanel" d = None ∨ ∃ o, Py.lookup "onepanel" d = Some (PyDict o)) →
  ∃ config,
    get_batch_config (PyDict d) = Return config
    ∧ interactive_deployment config
      = Some (default (PyBool false) (interactive_deployment (PyDict d))).
Proof.
  intros Hd Hone.
  assert (Py.truthy (PyDict d) = true) as Htruthy by (by destruct d).
  unfold get_batch_config. rewrite Htruthy.
  cbn [negb Py.get mbind outcome_bind].
  destruct Hone as [Hnone | [o Hsome]].
  - rewrite Hnone.
    cbn [from_option Py.contains Py.lookup bool_decide decide_rel setitem Py.store].
    rewrite bool_decide_eq_false_2 by (by intros [? ?]).
    cbn [negb]. eexists. split; [reflexivity|].
    cbn [interactive_deployment]. rewrite lookup_store_eq, Hnone. reflexivity.
  - rewrite Hsome. cbn [from_option id Py.contains].
    destruct (Py.lookup "interactiveDeployment" o) as [v|] eqn:Hv.
    + rewrite bool_decide_eq_true_2 by eauto. cbn [negb].
      eexists. split; [reflexivity|].
      cbn [interactive_deployment]. by rewrite Hsome, Hv.
    + rewrite bool_decide_eq_false_2 by (intros [? ?]; congruence).
      cbn [negb setitem]. eexists. split; [reflexivity|].
      cbn [interactive_deployment]. rewrite !lookup_store_eq.
      by rewrite Hsome, Hv.
Qed.

Lemma get_batch_config_marks_interactive_witness :
  ∃ config,
    get_batch_config (PyDict [("onezone", PyDict [("name", PyStr "oz")])]) = Return config
    ∧ interactive_deployment config = Some (PyBool false).
Proof.
  apply (get_batch_config_marks_interactive [("onezone", PyDict [("name", PyStr "oz")])]).
  - discriminate.
  - left. reflexivity.
Defined.

(** C7, as stated, fails on the empty mapping: the request built from it is
    the empty mapping, with no [onepanel] entry at all. *)
Lemma get_batch_config_empty_blob_unmarked :
  get_batch_config (PyDict []) = Return (PyDict [])
  ∧ interactive_deployment (PyDict []) = None.
Proof. split; reflexivity. Qed.

(** An unset or empty [ONEZONE_CONFIG] loads as [None] and goes the same way. *)
Lemma get_batch_config_unset : get_batch_config PyNone = Return (PyDict []).
Proof. reflexivity. Qed.

(** ** Error reports *)

(** C2, as the code has it: for the sample error the report has the line
    [  id: X], the hosts in sorted order one per line under a [  nodes:]
    line, and the wrapped description [  description: bad thing]. *)
Theorem format_error_errorOnNodes :
  unwrap_error_with_hosts errorOnNodes_sample
  = Return (PyStr "X", PyStr "bad thing", PyDict [], PyList [PyStr "h1"; PyStr "h2"])
  ∧ format_error (PyDict [("error", errorOnNodes_sample)]) = Return errorOnNodes_report.
Proof. split; vm_compute; reflexivity. Qed.

(** C2, as stated, fails: the report has no [nodes: h1, h2]; the hosts are
    joined by line breaks, not by commas. *)
Lemma format_error_nodes_not_comma_joined :
  ∃ report,
    format_error (PyDict [("error", errorOnNodes_sample)]) = Return report
    ∧ Py.substring "nodes: h1, h2" report = false.
Proof. exists errorOnNodes_report. split; vm_compute; reflexivity. Qed.

(** ** Submitting the configuration *)

Lemma auth_status_not_ok r : is_auth_status (status_code r) = true → ok r = false.
Proof.
  unfold is_auth_status, ok, unauthorized, forbidden.
  intros H. apply orb_true_iff in H. destruct H as [H|H]; apply Z.eqb_eq in H;
    rewrite H; reflexivity.
Qed.

Lemma success_ok r : 200 ≤ status_code r < 300 → ok r = true.
Proof.
  unfold ok. intros H. apply negb_true_iff, andb_false_iff. left.
  apply Z.leb_gt. lia.
Qed.

Lemma success_not_auth r : ok r = true → is_auth_status (status_code r) = false.
Proof.
  intros Hok. destruct (is_auth_status (status_code r)) eqn:E; [|done].
  apply auth_status_not_ok in E. congruence.
Qed.

Lemma set_emergency_passphrase_run p env net evs :
  set_emergency_passphrase p (World env net evs) =
  let sent := evs ++ [PUT_passphrase p] in
  match net with
  | [] => (Blocked, World env [] sent)
  | NoConnection :: net' => (Raise ConnectionError, World env net' sent)
  | Answer r :: net' =>
      if is_auth_status (status_code r) then
        (Raise (AuthenticationError
                  ("Could not set Onepanel emergency passphrase due to "
                   +:+ "authentication error: " +:+ pretty (status_code r)
                   +:+ " " +:+ text r)), World env net' sent)
      else if negb (ok r) then (Raise (passphrase_failure r), World env net' sent)
      else (Return tt, World env net' sent)
  end.
Proof.
  unfold set_emergency_passphrase. rewrite bind_run, send_run. cbn zeta.
  destruct net as [|[r|] net']; [done| |done].
  destruct (is_auth_status (status_code r)); [done|].
  by destruct (ok r).
Qed.

Lemma configure_submit_run config env p net evs :
  env !! EMERGENCY_PASSPHRASE_VARIABLE = Some p →
  configure_submit config (World env net evs) =
  let put := evs ++ [PUT_passphrase p] in
  match net with
  | [] => (Blocked, World env [] put)
  | NoConnection :: net' => (Raise ConnectionError, World env net' put)
  | Answer rput :: net' =>
      if is_auth_status (status_code rput) then (Return None, World env net' put)
      else if negb (ok rput) then (Raise (passphrase_failure rput), World env net' put)
      else
        let post := put ++ [POST_configuration p config] in
        match net' with
        | [] => (Blocked, World env [] post)
        | NoConnection :: net'' => (Raise ConnectionError, World env net'' post)
        | Answer rpost :: net'' => (submitted rpost, World env net'' post)
        end
  end.
Proof.
  intros Hp. unfold configure_submit.
  rewrite bind_run, get_emergency_passphrase_run. cbn [environ]. rewrite Hp.
  rewrite bind_run. unfold try_except at 1.
  rewrite bind_run, set_emergency_passphrase_run. cbn zeta.
  destruct net as [|[rput|] net']; [done| |done].
  destruct (is_auth_status (status_code rput)) eqn:Hauth; [done|].
  destruct (ok rput) eqn:Hok; [|done]. cbn [negb].
  cbn [mret io_ret].
  rewrite bind_run, do_auth_request_run, Hp. cbn zeta.
  destruct net' as [|[rpost|] net'']; [done| |done].
  unfold submitted.
  destruct (is_auth_status (status_code rpost)); [done|].
  destruct (status_code rpost =? conflict); [done|].
  destruct (ok rpost); [|done]. cbn [negb].
  rewrite pure_bind_run.
  by destruct (header "location" (headers rpost)).
Qed.

(** C3, as the code has it.  A 401 or 403 on setting the passphrase gives
    [AlreadyConfigured] with nothing posted; any other status from 400 to 599
    there is fatal, again with nothing posted.  Otherwise the configuration
    request is posted with the passphrase as Basic-auth password: a 401 or
    403 answer is an authentication error, a 409 gives [AlreadyConfigured],
    any other status from 400 to 599 is fatal with the status and the body in
    the message, and a 2xx answer with a [Location] header gives the task
    handle for it, which [configure] goes on to poll. *)
Theorem configure_submit_outcomes config env p rput net evs :
  env !! EMERGENCY_PASSPHRASE_VARIABLE = Some p →
  let w := World env (Answer rput :: net) evs in
  let put := evs ++ [PUT_passphrase p] in
  (is_auth_status (status_code rput) = true →
   configure_submit config w = (Return AlreadyConfigured, World env net put))
  ∧ (is_auth_status (status_code rput) = false → ok rput = false →
     configure_submit config w = (Raise (passphrase_failure rput), World env net put))
  ∧ (ok rput = true → ∀ rpost net', net = Answer rpost :: net' →
     let w' := World env net' (put ++ [POST_configuration p config]) in
     (is_auth_status (status_code rpost) = true →
      configure_submit config w = (Raise auth_failure, w'))
     ∧ (status_code rpost = conflict →
        configure_submit config w = (Return AlreadyConfigured, w'))
     ∧ (ok rpost = false → is_auth_status (status_code rpost) = false →
        status_code rpost ≠ conflict →
        configure_submit config w = (Raise (start_failure rpost), w'))
     ∧ (∀ loc, 200 ≤ status_code rpost < 300 →
        header "location" (headers rpost) = Return loc →
        configure_submit config w = (Return (TaskHandle loc), w')
        ∧ configure config w = configure_poll loc w')).
Proof.
  intros Hp w put. subst w.
  split_and!.
  - intros Hauth. rewrite (configure_submit_run _ _ _ _ _ Hp). cbn zeta.
    by rewrite Hauth.
  - intros Hauth Hok. rewrite (configure_submit_run _ _ _ _ _ Hp). cbn zeta.
    by rewrite Hauth, Hok.
  - intros Hok rpost net' -> w'.
    assert (configure_submit config (World env (Answer rput :: Answer rpost :: net') evs)
            = (submitted rpost, w')) as Hrun.
    { rewrite (configure_submit_run _ _ _ _ _ Hp). cbn zeta.
      by rewrite (success_not_auth _ Hok), Hok. }
    unfold configure. rewrite bind_run, Hrun. unfold submitted.
    split_and!.
    + by intros ->.
    + intros Hc. rewrite Hc. reflexivity.
    + intros Hnok Hauth Hc. rewrite Hauth, Hnok.
      by destruct (Z.eqb_spec (status_code rpost) conflict).
    + intros loc H2xx Hloc. rewrite Hloc.
      pose proof (success_ok _ H2xx) as Hok'.
      rewrite (success_not_auth _ Hok'), Hok'.
      destruct (Z.eqb_spec (status_code rpost) conflict) as [Hc|_];
        [unfold conflict in Hc; lia|].
      done.
Qed.

Lemma configure_submit_outcomes_witness :
  configure_submit (PyDict [])
    (World secret_environ [Answer no_content; Answer (created "/tasks/1")] [])
  = (Return (TaskHandle "/tasks/1"),
     World secret_environ []
       [PUT_passphrase "secret"; POST_configuration "secret" (PyDict [])]).
Proof.
  destruct (configure_submit_outcomes (PyDict []) secret_environ "secret"
              no_content [Answer (created "/tasks/1")] [])
    as (_ & _ & Hposted); [reflexivity|].
  destruct (Hposted eq_refl (created "/tasks/1") [] eq_refl) as (_ & _ & _ & Hhandle).
  destruct (Hhandle "/tasks/1") as [Hrun _].
  - cbn. lia.
  - reflexivity.
  - exact Hrun.
Defined.

(** C3, as stated, fails: a 500 on setting the passphrase is neither 401 nor
    403, and yet no configuration request is issued; the run ends in the
    fatal error of the passphrase call. *)
Lemma configure_submit_not_posted_after_500 :
  is_auth_status (status_code server_error) = false
  ∧ ∃ w',
      configure_submit (PyDict [])
        (World secret_environ [Answer server_error; Answer (created "/tasks/1")] [])
      = (Raise (passphrase_failure server_error), w')
      ∧ existsb is_POST (events w') = false
      ∧ network w' = [Answer (created "/tasks/1")].
Proof.
  split; [reflexivity|]. eexists. split_and!.
  - rewrite (configure_submit_run _ _ "secret"); reflexivity.
  - reflexivity.
  - reflexivity.
Qed.

(** ** Steps *)

Lemma count_cons c a s :
  Str.count c (String a s) = ((if Ascii.eqb a c then 1 else 0) + Str.count c s)%nat.
Proof.
  unfold Str.count. cbn [list_ascii_of_string]. rewrite filter_cons.
  destruct (Ascii.eqb_spec a c) as [->|Hne].
  - by rewrite decide_True.
  - by rewrite decide_False.
Qed.

Lemma split_length c s : length (Str.split c s) = S (Str.count c s).
Proof.
  induction s as [|a s IH]; [done|].
  rewrite count_cons. cbn [Str.split].
  destruct (Ascii.eqb a c).
  - cbn [length]. rewrite IH. lia.
  - destruct (Str.split c s) as [|part parts]; [done|].
    cbn [length] in *. lia.
Qed.

Lemma format_step_well_formed s :
  one_colon s = true →
  ∃ service action,
    Str.split ":" s = [service; action]
    ∧ format_step (PyStr s) = Return (step_line service action).
Proof.
  unfold one_colon. intros H. apply Nat.eqb_eq in H.
  pose proof (split_length ":" s) as Hlen. rewrite H in Hlen.
  unfold format_step.
  destruct (Str.split ":" s) as [|service [|action [|more parts]]]; try done.
  by exists service, action.
Qed.

Lemma format_step_malformed s :
  one_colon s = false → ∃ message, format_step (PyStr s) = Raise (ValueError message).
Proof.
  unfold one_colon. intros H. apply Nat.eqb_neq in H.
  pose proof (split_length ":" s) as Hlen.
  unfold format_step.
  destruct (Str.split ":" s) as [|service [|action [|more parts]]];
    cbn [length] in Hlen; try (by eexists).
  lia.
Qed.

Lemma format_step_inv v line :
  format_step v = Return line →
  well_formed_step v = true
  ∧ ∃ s service action,
      v = PyStr s ∧ Str.split ":" s = [service; action]
      ∧ line = step_line service action.
Proof.
  destruct v as [| | |s| |]; try done. intros H. cbn [well_formed_step].
  destruct (one_colon s) eqn:E.
  - destruct (format_step_well_formed s E) as (service & action & Hsplit & Hfmt).
    rewrite Hfmt in H. injection H as <-. split; [done|]. by exists s, service, action.
  - destruct (format_step_malformed s E) as [message Hfmt]. congruence.
Qed.

Lemma eq_str_true s v : Py.eq (PyStr s) v = true → v = PyStr s.
Proof.
  destruct v; try done. cbn. intros H. apply String.eqb_eq in H. by subst.
Qed.

Lemma eq_str_refl s : Py.eq (PyStr s) (PyStr s) = true.
Proof. cbn. apply String.eqb_refl. Qed.

(** ** Polling *)

Lemma gets_app evs evs' : gets (evs ++ evs') = (gets evs + gets evs')%nat.
Proof. unfold gets. by rewrite List.filter_app, length_app. Qed.

Lemma gets_written lines : gets (written <$> lines) = 0%nat.
Proof. by induction lines. Qed.

Lemma log_run line env net evs :
  log line (World env net evs) = (Return tt, World env net (evs ++ [written line])).
Proof. reflexivity. Qed.

Lemma sleep_run n env net evs :
  sleep n (World env net evs) = (Return tt, World env net (evs ++ [Sleep n])).
Proof. reflexivity. Qed.

(** The steps loop leaves the environment and the service alone and writes
    only renderings of steps. *)
Lemma report_steps_frame new cursor env net evs :
  ∃ o lines,
    report_steps new cursor (World env net evs)
    = (o, World env net (evs ++ (written <$> lines)))
    ∧ Forall rendering lines.
Proof.
  revert cursor evs. induction new as [|step new IH]; intros cursor evs.
  - exists (Return cursor), []. by rewrite app_nil_r.
  - cbn [report_steps]. rewrite pure_bind_run.
    destruct (if Py.truthy cursor then _ else _) as [[|]|e| |].
    + rewrite pure_bind_run. destruct (Py.rest cursor) as [cursor'|e| |];
        try (eexists _, []; by rewrite app_nil_r).
      apply IH.
    + rewrite pure_bind_run. destruct (format_step step) as [line|e| |] eqn:Hfmt;
        try (eexists _, []; by rewrite app_nil_r).
      rewrite bind_run, log_run.
      destruct (IH cursor (evs ++ [written line])) as (o & lines & -> & Hlines).
      exists o, (line :: lines). rewrite <- app_assoc. split; [done|].
      constructor; [|done].
      apply format_step_inv in Hfmt as (_ & s & service & action & _ & Hs & ->).
      by exists s, service, action.
    + eexists _, []; by rewrite app_nil_r.
    + eexists _, []; by rewrite app_nil_r.
    + eexists _, []; by rewrite app_nil_r.
Qed.

(** The steps loop is plain recursion over the reported steps: it neither
    waits for the service nor needs fuel. *)
Lemma report_steps_total new cursor w :
  (report_steps new cursor w).1 ≠ OutOfFuel.
Proof.
  revert cursor w. induction new as [|step new IH]; intros cursor w; [done|].
  cbn [report_steps]. rewrite pure_bind_run.
  destruct (if Py.truthy cursor then _ else _) as [[|]|e| |] eqn:E; try done.
  - rewrite pure_bind_run. destruct (Py.rest cursor) eqn:E'; try done.
    by destruct cursor as [| | |[|]| |].
  - rewrite pure_bind_run.
    destruct (format_step step) as [line|e| |] eqn:Hfmt; try done.
    + rewrite bind_run. destruct w as [env net evs]. rewrite log_run. apply IH.
    + unfold format_step in Hfmt. destruct step; try done.
      by destruct (Str.split ":" s) as [|? [|? [|? ?]]].
  - destruct (Py.truthy cursor); [|done].
    by destruct cursor as [| | |[|]|[|]|].
Qed.

(** One round on an answer that is accepted and carries a JSON object. *)
Lemma poll_once_accepted loc st env p r d new net evs :
  env !! EMERGENCY_PASSPHRASE_VARIABLE = Some p →
  ok r = true →
  json r = Some (PyDict d) →
  Py.iter (steps_of d) = Return new →
  poll_once loc st (World env (Answer r :: net) evs) =
  match report_steps new (steps st) (World env net (evs ++ [GET_task p loc])) with
  | (Return _, w) =>
      (Return (round_state d),
       {| environ := environ w; network := network w;
          events := events w ++ [Sleep 1] |})
  | (Raise e, w) => (Raise e, w)
  | (Blocked, w) => (Blocked, w)
  | (OutOfFuel, w) => (OutOfFuel, w)
  end.
Proof.
  intros Hp Hok Hjson Hnew. unfold poll_once.
  rewrite bind_run, do_auth_request_run, Hp. cbn zeta.
  rewrite (success_not_auth _ Hok), Hok. cbn [negb].
  unfold json_loads. rewrite Hjson. rewrite pure_bind_run.
  cbn [Py.get]. rewrite pure_bind_run.
  cbn [mbind outcome_bind]. fold (steps_of d). rewrite Hnew, pure_bind_run.
  rewrite bind_run.
  destruct (report_steps new (steps st) _) as [[c|e| |] w]; try done.
Qed.

(** A round whose answer has a status from 400 to 599 is fatal at once,
    whatever the task's status was: there is no retry. *)
Lemma poll_once_rejected loc st env p r net evs :
  env !! EMERGENCY_PASSPHRASE_VARIABLE = Some p →
  ok r = false →
  poll_once loc st (World env (Answer r :: net) evs) =
  (Raise (if is_auth_status (status_code r) then auth_failure else poll_failure r),
   World env net (evs ++ [GET_task p loc])).
Proof.
  intros Hp Hok. unfold poll_once.
  rewrite bind_run, do_auth_request_run, Hp. cbn zeta.
  destruct (is_auth_status (status_code r)); [done|]. by rewrite Hok.
Qed.

(** What any round does: at most one GET, only renderings written, and a
    round that returns has taken an accepted JSON object off the service. *)
Lemma poll_once_inv loc st w o w1 :
  poll_once loc st w = (o, w1) →
  environ w1 = environ w
  ∧ ∃ new_events lines,
      events w1 = events w ++ new_events
      ∧ (gets new_events ≤ 1)%nat
      ∧ (∀ data, Stdout data ∈ new_events → ∃ line, data = line +:+ LF ∧ rendering line)
      ∧ (network w = [] → o = Blocked ∨ ∃ e, o = Raise e)
      ∧ (o ≠ OutOfFuel)
      ∧ (∀ st', o = Return st' →
           ∃ r d p,
             network w = Answer r :: network w1
             ∧ environ w !! EMERGENCY_PASSPHRASE_VARIABLE = Some p
             ∧ ok r = true ∧ json r = Some (PyDict d)
             ∧ st' = round_state d
             ∧ new_events = GET_task p loc :: (written <$> lines) ++ [Sleep 1]
             ∧ Forall rendering lines).
Proof.
  destruct w as [env net evs]. intros H. cbn [environ network events].
  assert (∀ e, Stdout e ∈ [] → ∃ line, e = line +:+ LF ∧ rendering line) as Hnil
    by (intros e He; by apply elem_of_nil in He).
  assert (∀ g : event, is_GET g = true → ∀ e, Stdout e ∈ [g] →
            ∃ line, e = line +:+ LF ∧ rendering line) as Hone.
  { intros g Hg e He. apply list_elem_of_singleton in He. by subst g. }
  destruct (env !! EMERGENCY_PASSPHRASE_VARIABLE) as [p|] eqn:Hp.
  2:{ unfold poll_once in H. rewrite bind_run, do_auth_request_run, Hp in H.
      injection H as <- <-. split; [done|]. exists [], [].
      rewrite app_nil_r. split_and!; try done; eauto; try (by apply Hone). }
  destruct net as [|[r|] net].
  - unfold poll_once in H. rewrite bind_run, do_auth_request_run, Hp in H.
    injection H as <- <-. split; [done|]. eexists [_], [].
    split_and!; try done; eauto; try (by apply Hone).
  - destruct (ok r) eqn:Hok.
    2:{ unfold poll_once in H. rewrite bind_run, do_auth_request_run, Hp in H.
        cbn zeta in H.
        destruct (is_auth_status (status_code r)).
        - injection H as <- <-. split; [done|]. eexists [_], [].
          split_and!; try done; eauto; try (by apply Hone).
        - rewrite Hok in H. injection H as <- <-. split; [done|]. eexists [_], [].
          split_and!; try done; eauto; try (by apply Hone). }
    destruct (json r) as [body|] eqn:Hjson.
    2:{ unfold poll_once in H.
        rewrite bind_run, do_auth_request_run, Hp in H; cbn zeta in H.
        rewrite (success_not_auth _ Hok), Hok in H; cbn [negb] in H.
        unfold json_loads in H; rewrite Hjson in H.
        injection H as <- <-; split; [done|]; eexists [_], [].
        split_and!; try done; eauto; try (by apply Hone). }
    destruct (Py.get body "status" (PyStr "error")) as [s|e| |] eqn:Hstatus.
    3-4: by destruct body.
    2:{ unfold poll_once in H.
        rewrite bind_run, do_auth_request_run, Hp in H; cbn zeta in H.
        rewrite (success_not_auth _ Hok), Hok in H; cbn [negb] in H.
        unfold json_loads in H; rewrite Hjson in H.
        rewrite pure_bind_run in H; rewrite pure_bind_run, Hstatus in H.
        injection H as <- <-; split; [done|]; eexists [_], [].
        split_and!; try done; eauto; try (by apply Hone). }
    destruct body as [| | | | |d]; try done. clear s Hstatus.
    destruct (Py.iter (steps_of d)) as [new|e| |] eqn:Hnew.
    3-4: by destruct (steps_of d).
    2:{ unfold poll_once in H.
        rewrite bind_run, do_auth_request_run, Hp in H; cbn zeta in H.
        rewrite (success_not_auth _ Hok), Hok in H; cbn [negb] in H.
        unfold json_loads in H; rewrite Hjson in H.
        rewrite pure_bind_run in H; cbn [Py.get] in H.
        rewrite pure_bind_run in H; cbn [mbind outcome_bind] in H.
        fold (steps_of d) in H; rewrite Hnew in H.
        injection H as <- <-; split; [done|]; eexists [_], [].
        split_and!; try done; eauto; try (by apply Hone). }
    rewrite (poll_once_accepted _ _ _ _ _ _ _ _ _ Hp Hok Hjson Hnew) in H.
    destruct (report_steps_frame new (steps st) env net (evs ++ [GET_task p loc]))
      as (o' & lines & Hrun & Hlines).
    rewrite Hrun in H. cbn [environ network events] in H.
    assert (∀ tl e, (∀ x, x ∈ tl → x = Sleep 1) →
              Stdout e ∈ GET_task p loc :: (written <$> lines) ++ tl →
              ∃ line, e = line +:+ LF ∧ rendering line) as Hout.
    { intros tl e Htl He. apply elem_of_cons in He as [He|He]; [done|].
      apply elem_of_app in He as [He|He].
      - apply list_elem_of_fmap in He as (line & Heq & Hin).
        injection Heq as ->. exists line. split; [done|].
        by eapply Forall_forall in Hlines.
      - apply Htl in He. done. }
    assert (gets (GET_task p loc :: (written <$> lines)) = 1%nat) as Hg1.
    { change (GET_task p loc :: (written <$> lines))
        with ([GET_task p loc] ++ (written <$> lines)).
      by rewrite gets_app, gets_written. }
    assert (gets (GET_task p loc :: (written <$> lines) ++ [Sleep 1]) = 1%nat) as Hg2.
    { change (GET_task p loc :: (written <$> lines) ++ [Sleep 1])
        with ([GET_task p loc] ++ (written <$> lines) ++ [Sleep 1]).
      by rewrite !gets_app, gets_written. }
    assert (∀ e, Stdout e ∈ GET_task p loc :: (written <$> lines) →
              ∃ line, e = line +:+ LF ∧ rendering line) as Hout0.
    { intros e He. apply (Hout [] e); [by intros x Hx; apply elem_of_nil in Hx|].
      by rewrite app_nil_r. }
    destruct o' as [c|e| |].
    4:{ exfalso.
        apply (report_steps_total new (steps st)
                 (World env net (evs ++ [GET_task p loc]))).
        by rewrite Hrun. }
    1-3: injection H as <- <-; (split; [done|]).
    + exists (GET_task p loc :: (written <$> lines) ++ [Sleep 1]), lines.
      split_and!.
      * by rewrite <- !app_assoc.
      * by rewrite Hg2.
      * intros e. apply Hout. intros x Hx. by apply list_elem_of_singleton in Hx.
      * done.
      * done.
      * intros st' [= <-]. by exists r, d, p.
    + exists (GET_task p loc :: (written <$> lines)), lines.
      split_and!; try done; eauto; try (by apply Hone).
      * by rewrite <- app_assoc.
      * by rewrite Hg1.
    + exists (GET_task p loc :: (written <$> lines)), lines.
      split_and!; try done; eauto; try (by apply Hone).
      * by rewrite <- app_assoc.
      * by rewrite Hg1.
  - unfold poll_once in H. rewrite bind_run, do_auth_request_run, Hp in H.
    injection H as <- <-. split; [done|]. eexists [_], [].
    split_and!; try done; eauto; try (by apply Hone).
Qed.

Lemma configure_poll_run loc env net evs :
  configure_poll loc (World env net evs) =
  match poll_loop (S (length net)) loc initial_state
          (World env net (evs ++ [written HEADER])) with
  | (Return st, w) => (conclude st, w)
  | (Raise e, w) => (Raise e, w)
  | (Blocked, w) => (Blocked, w)
  | (OutOfFuel, w) => (OutOfFuel, w)
  end.
Proof.
  unfold configure_poll. rewrite bind_run, log_run, bind_run.
  unfold replies_left at 1. cbn [network]. rewrite bind_run.
  fold initial_state. fold HEADER.
  destruct (poll_loop _ _ _ _) as [[st|e| |] w]; try done.
  unfold conclude. destruct (negb _); [|done].
  rewrite pure_bind_run. by destruct (format_error (resp st)).
Qed.

Lemma poll_loop_stop fuel loc st w :
  Py.eq (status st) (PyStr "running") = false →
  poll_loop fuel loc st w = (Return st, w).
Proof. intros H. destruct fuel; cbn [poll_loop]; by rewrite H. Qed.

Lemma poll_loop_step fuel loc st w :
  Py.eq (status st) (PyStr "running") = true →
  poll_loop (S fuel) loc st w =
  match poll_once loc st w with
  | (Return st', w') => poll_loop fuel loc st' w'
  | (Raise e, w') => (Raise e, w')
  | (Blocked, w') => (Blocked, w')
  | (OutOfFuel, w') => (OutOfFuel, w')
  end.
Proof. intros H. cbn [poll_loop]. rewrite H. by rewrite bind_run. Qed.

(** The loop as a whole: what it writes, when it asks again, and that the
    replies at hand bound its rounds. *)
Lemma poll_loop_inv fuel loc st w o w' :
  poll_loop fuel loc st w = (o, w') →
  environ w' = environ w
  ∧ ∃ new_events,
      events w' = events w ++ new_events
      ∧ (∀ data, Stdout data ∈ new_events → ∃ line, data = line +:+ LF ∧ rendering line)
      ∧ (∀ j, (j + 1 < gets new_events)%nat →
              ∃ rp, network w !! j = Some rp ∧ reports_running rp = true)
      ∧ ((length (network w) < fuel)%nat → o ≠ OutOfFuel)
      ∧ (∀ st', o = Return st' → Py.eq (status st') (PyStr "running") = false).
Proof.
  revert st w. induction fuel as [|fuel IH]; intros st w H.
  - cbn [poll_loop] in H.
    destruct (Py.eq (status st) (PyStr "running")) eqn:Hst; injection H as <- <-.
    + split; [done|]. exists []. rewrite app_nil_r.
      split_and!; try done.
      * intros data Hin. by apply elem_of_nil in Hin.
      * cbn. lia.
      * lia.
    + split; [done|]. exists []. rewrite app_nil_r.
      split_and!; try done.
      * intros data Hin. by apply elem_of_nil in Hin.
      * cbn. lia.
      * by intros st' [= <-].
  - destruct (Py.eq (status st) (PyStr "running")) eqn:Hst.
    2:{ rewrite poll_loop_stop in H by done. injection H as <- <-.
        split; [done|]. exists []. rewrite app_nil_r.
        split_and!; try done.
        - intros data Hin. by apply elem_of_nil in Hin.
        - cbn. lia.
        - by intros st' [= <-]. }
    rewrite poll_loop_step in H by done.
    destruct (poll_once loc st w) as [o1 w1] eqn:Honce.
    apply poll_once_inv in Honce
      as (Henv & ev1 & lines & Hev & Hgets & Hout & Hempty & Hfuel & Hret).
    destruct o1 as [st1|e| |].
    + destruct (Hret st1 eq_refl) as (r & d & p & Hnet & Hp & Hok & Hjson & -> & Hev1 & Hlines).
      assert (gets ev1 = 1%nat) as Hone.
      { rewrite Hev1.
        change (GET_task p loc :: (written <$> lines) ++ [Sleep 1])
          with ([GET_task p loc] ++ (written <$> lines) ++ [Sleep 1]).
        by rewrite !gets_app, gets_written. }
      destruct (Py.eq (status_of d) (PyStr "running")) eqn:Hrun.
      2:{ rewrite poll_loop_stop in H by done. injection H as <- <-.
          split; [done|]. exists ev1. split_and!; try done.
          - intros j Hj. lia.
          - by intros st' [= <-]. }
      apply IH in H as (Henv' & ev2 & Hev' & Hout' & Hgets' & Hfuel' & Hstop).
      split; [congruence|]. exists (ev1 ++ ev2).
      split_and!.
      * by rewrite Hev', Hev, app_assoc.
      * intros data Hin. apply elem_of_app in Hin as [Hin|Hin]; eauto.
      * intros j Hj. rewrite gets_app in Hj.
        rewrite Hnet. destruct j as [|j].
        -- exists (Answer r). split; [done|]. cbn [reports_running].
           by rewrite Hjson.
        -- cbn [lookup list_lookup]. apply Hgets'. lia.
      * intros Hlen. apply Hfuel'. rewrite Hnet in Hlen. cbn [length] in Hlen. lia.
      * done.
    + injection H as <- <-. split; [done|]. exists ev1.
      split_and!; try done. intros j Hj. lia.
    + injection H as <- <-. split; [done|]. exists ev1.
      split_and!; try done. intros j Hj. lia.
    + done.
Qed.

(** induction on a Python value, through its lists and dicts *)
Lemma pyval_nested_ind (P : pyval → Prop) :
  P PyNone → (∀ b, P (PyBool b)) → (∀ n, P (PyInt n)) → (∀ s, P (PyStr s)) →
  (∀ l, Forall P l → P (PyList l)) →
  (∀ d, Forall (λ kv, P kv.2) d → P (PyDict d)) →
  ∀ v, P v.
Proof.
  intros HNone HBool HInt HStr HList HDict.
  fix IH 1. intros [|b|n|s|l|d].
  - exact HNone.
  - exact (HBool b).
  - exact (HInt n).
  - exact (HStr s).
  - apply HList. induction l as [|x l IHl].
    + constructor.
    + constructor; [exact (IH x) | exact IHl].
  - apply HDict. induction d as [|[k x] d IHd].
    + constructor.
    + constructor; [exact (IH x) | exact IHd].
Qed.

Lemma format_dict_total v indent :
  format_dict v indent ≠ OutOfFuel ∧ format_dict v indent ≠ Blocked.
Proof.
  revert indent. induction v as [| | | | |items IH] using pyval_nested_ind;
    intros indent; try done.
  cbn [format_dict]. generalize EmptyString.
  induction items as [|[key value] items IHi]; intros acc; [done|].
  apply Forall_cons in IH as [Hvalue Hitems]. cbn [snd] in Hvalue.
  cbn [format_items].
  destruct value as [| | | | |sub]; try (by apply IHi).
  destruct (Hvalue (indent +:+ "  ")) as [H1 H2].
  destruct (format_dict (PyDict sub) (indent +:+ "  ")) eqn:E; try done.
  cbn [mbind outcome_bind]. by apply IHi.
Qed.

Lemma conclude_total st : conclude st ≠ OutOfFuel ∧ conclude st ≠ Blocked.
Proof.
  pose proof format_dict_total as Hdict.
  assert (∀ k v, Py.getitem v k ≠ OutOfFuel ∧ Py.getitem v k ≠ Blocked) as Hitem.
  { intros k [| | | | |d]; try done. cbn. by destruct (Py.lookup k d). }
  assert (∀ l, strings_of l ≠ OutOfFuel ∧ strings_of l ≠ Blocked) as Hstrs.
  { induction l as [|[| | |s| |] l [IH1 IH2]]; try done.
    cbn. by destruct (strings_of l). }
  assert (∀ v, unwrap_error_with_hosts v ≠ OutOfFuel
               ∧ unwrap_error_with_hosts v ≠ Blocked) as Hunwrap.
  { intros [| | | | |d]; try done. unfold unwrap_error_with_hosts.
    cbn [Py.get mbind outcome_bind].
    destruct (Py.eq _ _); [|done].
    destruct (Py.contains "error" _) as [[|]| | |] eqn:Hc; try done.
    - cbn [mbind outcome_bind].
      destruct (Hitem "error" (default (PyDict []) (Py.lookup "details" d))).
      destruct (Py.getitem _ "error") as [inner| | |]; try done.
      cbn [mbind outcome_bind].
      destruct (Hitem "id" inner).
      destruct (Py.getitem inner "id"); try done. cbn [mbind outcome_bind].
      destruct (Hitem "description" inner).
      destruct (Py.getitem inner "description"); try done. cbn [mbind outcome_bind].
      destruct (Hitem "hostnames" (default (PyDict []) (Py.lookup "details" d))).
      destruct (Py.getitem _ "hostnames"); try done. cbn [mbind outcome_bind].
      by destruct inner.
    - by destruct (default (PyDict []) (Py.lookup "details" d)).
    - by destruct (default (PyDict []) (Py.lookup "details" d)). }
  unfold conclude. destruct (negb _); [|done].
  unfold format_error.
  destruct (Py.contains "error" (resp st)) as [[|]| | |] eqn:Hc;
    try done; try (by destruct (resp st)).
  cbn [mbind outcome_bind negb].
  destruct (Hitem "error" (resp st)).
  destruct (Py.getitem (resp st) "error") as [error_obj| | |]; try done.
  cbn [mbind outcome_bind].
  destruct (Hunwrap error_obj).
  destruct (unwrap_error_with_hosts error_obj) as [[[[error_id descr] details] nodes]| | |];
    try done.
  cbn [mbind outcome_bind].
  destruct (Hdict details "    ").
  destruct (format_dict details "    "); try done.
  cbn [mbind outcome_bind].
  destruct (Py.truthy nodes).
  - destruct (Py.iter nodes) as [l| | |] eqn:Hiter; try done;
      try (by destruct nodes).
    cbn [mbind outcome_bind]. destruct (Hstrs l).
    destruct (strings_of l); try done. cbn [mbind outcome_bind].
    by destruct descr.
  - cbn [mbind outcome_bind]. by destruct descr.
Qed.

(** What a whole poll writes and asks for.  In particular the model's loop
    bound is never what ends the run. *)
Lemma configure_poll_inv loc w :
  environ (configure_poll loc w).2 = environ w
  ∧ (configure_poll loc w).1 ≠ OutOfFuel
  ∧ ∃ new_events,
      events (configure_poll loc w).2 = events w ++ written HEADER :: new_events
      ∧ (∀ data, Stdout data ∈ new_events → ∃ line, data = line +:+ LF ∧ rendering line)
      ∧ (∀ j, (j + 1 < gets new_events)%nat →
              ∃ rp, network w !! j = Some rp ∧ reports_running rp = true).
Proof.
  destruct w as [env net evs]. rewrite configure_poll_run.
  destruct (poll_loop _ _ _ _) as [o w'] eqn:Hloop.
  apply poll_loop_inv in Hloop as (Henv & new_events & Hev & Hout & Hgets & Hfuel & _).
  cbn [environ network events] in *.
  assert (o ≠ OutOfFuel) as Ho by (apply Hfuel; lia).
  assert (events w' = evs ++ written HEADER :: new_events) as Hev'
    by (by rewrite Hev, <- app_assoc).
  destruct o as [st|e| |]; cbn [fst snd]; split_and!; try done; eauto.
  apply conclude_total.
Qed.

(** C5: the GET requests of a poll are issued only while every status seen
    so far is ['running']: if the poll asks a [j+2]-th time, the [j+1]-th
    reply was a JSON object with that status; and once a reply without it has
    come in at position [j], no more than those [j+1] requests are made. *)
Theorem poll_asks_only_while_running loc w :
  ∃ new_events,
    events (configure_poll loc w).2 = events w ++ new_events
    ∧ (∀ j, (j + 1 < gets new_events)%nat →
            ∃ rp, network w !! j = Some rp ∧ reports_running rp = true)
    ∧ (∀ j rp, network w !! j = Some rp → reports_running rp = false →
               (gets new_events ≤ j + 1)%nat).
Proof.
  destruct (configure_poll_inv loc w) as (_ & _ & new_events & Hev & _ & Hgets).
  exists (written HEADER :: new_events).
  assert (gets (written HEADER :: new_events) = gets new_events) as Hsame by done.
  rewrite Hsame. split_and!; [done|done|].
  intros j rp Hrp Hnot.
  destruct (decide (gets new_events ≤ j + 1)%nat) as [|Hmore]; [done|].
  destruct (Hgets j) as (rp' & Hrp' & Hrun); [lia|]. congruence.
Qed.

Lemma poll_asks_only_while_running_witness :
  ∃ new_events,
    events (configure_poll "/tasks/1"
              (World secret_environ [Answer pending; Answer finished; Answer pending] [])).2
    = [] ++ new_events
    ∧ (gets new_events ≤ 2)%nat.
Proof.
  destruct (poll_asks_only_while_running "/tasks/1"
              (World secret_environ [Answer pending; Answer finished; Answer pending] []))
    as (new_events & Hev & _ & Hstop).
  exists new_events. split; [exact Hev|].
  apply (Hstop 1%nat (Answer finished)); reflexivity.
Defined.

(** ** Rounds on well-formed steps *)

Lemma clean_steps_of d :
  clean_steps d = true →
  ∃ new, steps_of d = PyList new ∧ Forall (λ v, well_formed_step v = true) new.
Proof.
  unfold clean_steps, steps_of. destruct (Py.lookup "steps" d) as [[| | | |l|]|]; try done.
  - intros H. exists l. split; [done|]. apply Forall_forall. intros v Hv.
    rewrite forallb_forall in H. apply H. by apply list_elem_of_In.
  - intros _. by exists [].
Qed.

(** Well-formed steps against a recorded list: the loop returns. *)
Lemma report_steps_clean new l env net evs :
  Forall (λ v, well_formed_step v = true) new →
  ∃ cursor' lines,
    report_steps new (PyList l) (World env net evs)
    = (Return cursor', World env net (evs ++ (written <$> lines)))
    ∧ Forall rendering lines.
Proof.
  intros Hnew. revert l evs.
  induction Hnew as [|step new Hstep Hnew IH]; intros l evs.
  - exists (PyList l), []. by rewrite app_nil_r.
  - destruct step as [| | |s| |]; try done. cbn [well_formed_step] in Hstep.
    destruct (format_step_well_formed s Hstep) as (service & action & Hsplit & Hfmt).
    assert (∃ cursor' lines,
              (line ← pure (format_step (PyStr s)); log line;; report_steps new (PyList l))
                (World env net evs)
              = (Return cursor', World env net (evs ++ (written <$> lines)))
              ∧ Forall rendering lines) as Hlogged.
    { rewrite pure_bind_run, Hfmt, bind_run, log_run.
      destruct (IH l (evs ++ [written (step_line service action)]))
        as (cursor' & lines & -> & Hlines).
      exists cursor', (step_line service action :: lines).
      rewrite <- app_assoc. split; [done|]. constructor; [|done].
      by exists s, service, action. }
    cbn [report_steps]. rewrite pure_bind_run.
    destruct l as [|head l]; [exact Hlogged|].
    cbn [Py.truthy length Nat.eqb negb Py.first mbind outcome_bind].
    destruct (Py.eq (PyStr s) head); [|exact Hlogged].
    rewrite pure_bind_run. cbn [Py.rest tail]. apply IH.
Qed.

(** A malformed step against a recorded list of well-formed ones: the loop
    raises the unpacking error. *)
Lemma report_steps_malformed new l env net evs :
  forallb is_str new = true →
  Forall (λ v, well_formed_step v = true) l →
  existsb (λ v, negb (well_formed_step v)) new = true →
  ∃ message lines,
    report_steps new (PyList l) (World env net evs)
    = (Raise (ValueError message), World env net (evs ++ (written <$> lines)))
    ∧ Forall rendering lines.
Proof.
  revert l evs. induction new as [|step new IH]; intros l evs Hstr Hl Hbad; [done|].
  cbn [forallb] in Hstr. apply andb_true_iff in Hstr as [Hs Hstr].
  destruct step as [| | |s| |]; try done. cbn [existsb well_formed_step] in Hbad.
  assert (∀ l, Forall (λ v, well_formed_step v = true) l →
            ∃ message lines,
              (line ← pure (format_step (PyStr s)); log line;; report_steps new (PyList l))
                (World env net evs)
              = (Raise (ValueError message), World env net (evs ++ (written <$> lines)))
              ∧ Forall rendering lines) as Hlogged.
  { intros l0 Hl0. rewrite pure_bind_run. destruct (one_colon s) eqn:Hcolon.
    - destruct (format_step_well_formed s Hcolon) as (service & action & Hsplit & Hfmt).
      rewrite Hfmt, bind_run, log_run. cbn [negb orb] in Hbad.
      destruct (IH l0 (evs ++ [written (step_line service action)]) Hstr Hl0 Hbad)
        as (message & lines & -> & Hlines).
      exists message, (step_line service action :: lines).
      rewrite <- app_assoc. split; [done|]. constructor; [|done].
      by exists s, service, action.
    - destruct (format_step_malformed s Hcolon) as [message Hfmt].
      rewrite Hfmt. exists message, []. by rewrite app_nil_r. }
  cbn [report_steps]. rewrite pure_bind_run.
  destruct l as [|head l]; [by apply Hlogged|].
  cbn [Py.truthy length Nat.eqb negb Py.first mbind outcome_bind].
  destruct (Py.eq (PyStr s) head) eqn:Heq; [|by apply Hlogged].
  apply eq_str_true in Heq. subst head.
  apply Forall_cons in Hl as [Hhead Hl]. cbn [well_formed_step] in Hhead.
  rewrite Hhead in Hbad. cbn [negb orb] in Hbad.
  rewrite pure_bind_run. cbn [Py.rest tail]. by apply IH.
Qed.

(** One round on an accepted reply with well-formed steps. *)
Lemma poll_once_clean loc st l env p r d net evs :
  env !! EMERGENCY_PASSPHRASE_VARIABLE = Some p →
  ok r = true → json r = Some (PyDict d) → clean_steps d = true →
  steps st = PyList l →
  ∃ lines,
    poll_once loc st (World env (Answer r :: net) evs)
    = (Return (round_state d),
       World env net (evs ++ GET_task p loc :: (written <$> lines) ++ [Sleep 1]))
    ∧ Forall rendering lines
    ∧ wf_cursor (steps (round_state d)).
Proof.
  intros Hp Hok Hjson Hclean Hst.
  destruct (clean_steps_of d Hclean) as (new & Hnew & Hwf).
  rewrite (poll_once_accepted loc st env p r d new net evs Hp Hok Hjson)
    by (by rewrite Hnew).
  rewrite Hst.
  destruct (report_steps_clean new l env net (evs ++ [GET_task p loc]) Hwf)
    as (cursor' & lines & -> & Hlines).
  exists lines. cbn [environ network events]. split_and!.
  - by rewrite <- !app_assoc.
  - done.
  - by exists new.
Qed.

(** The loop runs through a prefix of progress replies and is then at the
    loop head again, still running, with well-formed steps recorded. *)
Lemma poll_loop_progress loc env p pre rest :
  env !! EMERGENCY_PASSPHRASE_VARIABLE = Some p →
  forallb progress_reply pre = true →
  ∀ fuel st evs,
    Py.eq (status st) (PyStr "running") = true →
    wf_cursor (steps st) →
    ∃ st' evs',
      poll_loop (length pre + fuel) loc st (World env (pre ++ rest) evs)
      = poll_loop fuel loc st' (World env rest (evs ++ evs'))
      ∧ Py.eq (status st') (PyStr "running") = true
      ∧ wf_cursor (steps st')
      ∧ gets evs' = length pre
      ∧ (∀ data, Stdout data ∈ evs' → ∃ line, data = line +:+ LF ∧ rendering line).
Proof.
  intros Hp. induction pre as [|rp pre IH]; intros Hpre fuel st evs Hrun Hwf.
  - exists st, []. rewrite app_nil_r. split_and!; try done.
    intros data Hin. by apply elem_of_nil in Hin.
  - cbn [forallb] in Hpre. apply andb_true_iff in Hpre as [Hrp Hpre].
    destruct rp as [r|]; [|done]. cbn [progress_reply] in Hrp.
    apply andb_true_iff in Hrp as [Hok Hbody].
    destruct (json r) as [[| | | | |d]|] eqn:Hjson; try done.
    apply andb_true_iff in Hbody as [Hstatus Hclean].
    destruct Hwf as (l & Hl & _).
    destruct (poll_once_clean loc st l env p r d (pre ++ rest) evs Hp Hok Hjson Hclean Hl)
      as (lines & Honce & Hlines & Hwf').
    cbn [length Nat.add app]. rewrite poll_loop_step by done. rewrite Honce.
    destruct (IH Hpre fuel (round_state d)
                (evs ++ GET_task p loc :: (written <$> lines) ++ [Sleep 1])
                Hstatus Hwf')
      as (st' & evs' & Hloop & Hrun' & Hwf'' & Hgets & Hout).
    exists st', ((GET_task p loc :: (written <$> lines) ++ [Sleep 1]) ++ evs').
    rewrite app_assoc. split_and!; try done.
    + change (GET_task p loc :: (written <$> lines) ++ [Sleep 1])
        with ([GET_task p loc] ++ (written <$> lines) ++ [Sleep 1]).
      rewrite !gets_app, gets_written, Hgets. done.
    + intros data Hin. apply elem_of_app in Hin as [Hin|Hin]; [|by apply Hout].
      apply elem_of_cons in Hin as [Hin|Hin]; [done|].
      apply elem_of_app in Hin as [Hin|Hin].
      * apply list_elem_of_fmap in Hin as (line & [= ->] & Hin).
        exists line. split; [done|]. by eapply Forall_forall in Hlines.
      * by apply list_elem_of_singleton in Hin.
Qed.

Lemma initial_state_wf : wf_cursor (steps initial_state).
Proof. exists []. by split. Qed.

(** ** How a poll ends *)

Lemma append_not_empty_l a b : a ≠ "" → a +:+ b ≠ "".
Proof. by destruct a. Qed.

Lemma append_not_empty_r a b : b ≠ "" → a +:+ b ≠ "".
Proof. intros Hb. destruct a as [|c a]; [by destruct b|done]. Qed.

Lemma detail_entries_not_empty nested indent items :
  items ≠ [] → detail_entries nested indent items ≠ "".
Proof.
  destruct items as [|[key value] items]; [done|]. intros _. cbn [detail_entries].
  apply append_not_empty_l.
  destruct value; try (by apply append_not_empty_r).
  by do 2 apply append_not_empty_r.
Qed.

(** [format_dict] on a mapping never fails and gives the detail tree. *)
Lemma format_dict_detail_tree items indent :
  format_dict (PyDict items) indent = Return (detail_tree (PyDict items) indent).
Proof.
  assert (∀ v indent, ∀ items, v = PyDict items →
            format_dict v indent = Return (detail_tree v indent)) as Hall; [|by eapply Hall].
  clear. induction v as [| | | | |items IH] using pyval_nested_ind; try done.
  intros indent ? _. cbn [format_dict detail_tree].
  assert (∀ acc, format_items format_dict indent items acc
                 = Return (acc +:+ detail_entries detail_tree indent items)) as Hacc.
  { induction items as [|[key value] items IHi]; intros acc.
    - cbn [format_items detail_entries]. by rewrite append_nil_r.
    - apply Forall_cons in IH as [Hvalue Hitems]. cbn [snd] in Hvalue.
      cbn [format_items detail_entries].
      destruct value as [| | | | |sub];
        try (rewrite (IHi Hitems); by rewrite !append_assoc).
      rewrite (Hvalue (indent +:+ "  ") sub eq_refl). cbn [mbind outcome_bind].
      rewrite (IHi Hitems). by rewrite !append_assoc. }
  by rewrite Hacc.
Qed.

(** [format_error] on an error of the data model *)
Lemma format_error_report response error_id nodes description details :
  unwrap_error_with_hosts (default PyNone (Py.lookup "error" response))
  = Return (PyStr error_id, PyStr description, PyDict details, PyList (PyStr <$> nodes)) →
  is_Some (Py.lookup "error" response) →
  format_error (PyDict response)
  = Return (error_report error_id nodes description details).
Proof.
  intros Hunwrap [error_obj Herror]. rewrite Herror in Hunwrap.
  cbn [default from_option id] in Hunwrap.
  unfold format_error. cbn [Py.contains mbind outcome_bind Py.getitem].
  rewrite bool_decide_eq_true_2 by (by eexists). cbn [negb].
  rewrite Herror. cbn [mbind outcome_bind]. rewrite Hunwrap. cbn [mbind outcome_bind].
  rewrite format_dict_detail_tree. cbn [mbind outcome_bind].
  assert ((if Py.truthy (PyList (PyStr <$> nodes))
           then names ← Py.iter (PyList (PyStr <$> nodes)) ≫= strings_of;
                Return ("  nodes:" +:+ LF +:+ "    "
                        +:+ Str.join (LF +:+ "    ") (Str.sorted names))
           else Return "")
          = Return match nodes with
                   | [] => ""
                   | _ => "  nodes:" +:+ LF +:+ "    "
                          +:+ Str.join (LF +:+ "    ") (Str.sorted nodes)
                   end) as ->.
  { destruct nodes as [|n nodes]; [done|].
    cbn [Py.truthy length fmap list_fmap Nat.eqb negb Py.iter mbind outcome_bind].
    change (strings_of (PyStr n :: (PyStr <$> nodes)))
      with (strings_of (PyStr <$> n :: nodes)).
    by rewrite strings_of_strings. }
  cbn [mbind outcome_bind PyFmt.str]. unfold error_report. do 2 f_equal.
  destruct details as [|entry details]; [done|].
  pose proof (detail_entries_not_empty detail_tree "    " (entry :: details) ltac:(done)) as Hne.
  cbn [detail_tree] in *.
  destruct (detail_entries detail_tree "    " (entry :: details)); [done|].
  reflexivity.
Qed.

Lemma unwrap_plain e error_id description details :
  plain_error e error_id description details →
  error_id ≠ "errorOnNodes" ∨ Py.lookup "error" details = None →
  unwrap_error_with_hosts (PyDict e)
  = Return (PyStr error_id, PyStr description, PyDict details, PyList []).
Proof.
  intros (Hid & Hdescr & Hdetails) Hplain. unfold unwrap_error_with_hosts.
  cbn [Py.get mbind outcome_bind]. rewrite Hid, Hdescr.
  change (from_option id (PyDict []) ?o) with (default (PyDict []) o). rewrite Hdetails.
  cbn [from_option id Py.eq Py.contains].
  destruct (String.eqb error_id "errorOnNodes") eqn:Heq; [|done].
  apply String.eqb_eq in Heq. destruct Hplain as [|Hnone]; [done|].
  rewrite bool_decide_eq_false_2 by (rewrite Hnone; by intros [? ?]). done.
Qed.

Lemma unwrap_wrapped e wrapper inner error_id description details nodes :
  Py.lookup "id" e = Some (PyStr "errorOnNodes") →
  Py.lookup "details" e = Some (PyDict wrapper) →
  Py.lookup "error" wrapper = Some (PyDict inner) →
  plain_error inner error_id description details →
  Py.lookup "hostnames" wrapper = Some (PyList (PyStr <$> nodes)) →
  unwrap_error_with_hosts (PyDict e)
  = Return (PyStr error_id, PyStr description, PyDict details, PyList (PyStr <$> nodes)).
Proof.
  intros Hid Hwrapper Hinner (Hiid & Hidescr & Hidetails) Hhosts.
  unfold unwrap_error_with_hosts. cbn [Py.get mbind outcome_bind]. rewrite Hid, Hwrapper.
  cbn [from_option id Py.eq Py.contains]. rewrite String.eqb_refl.
  rewrite bool_decide_eq_true_2 by (rewrite Hinner; eauto).
  cbn [mbind outcome_bind Py.getitem]. rewrite Hinner.
  cbn [mbind outcome_bind Py.getitem]. rewrite Hiid.
  cbn [mbind outcome_bind]. rewrite Hidescr.
  cbn [mbind outcome_bind]. rewrite Hhosts. cbn [mbind outcome_bind Py.get].
  change (from_option id (PyDict []) ?o) with (default (PyDict []) o). by rewrite Hidetails.
Qed.

(** C4: when the poll ends on a reply whose status is neither ['running']
    nor ['ok'] (an unknown status, or none at all, included), it raises with
    the report of the error in that reply's body.  For an error of the data
    model, with an id, a description and details that are a mapping if
    there are any, the report is the one the specification describes: of
    the error itself, or, when it is the [errorOnNodes] wrapper of an inner
    error, of the inner error with the wrapper's hosts as the nodes.  When
    the body has no [error] field the report is the generic one.  No
    further reply is taken. *)
Theorem poll_ends_with_error_report loc env p pre r d post evs :
  env !! EMERGENCY_PASSPHRASE_VARIABLE = Some p →
  forallb progress_reply pre = true →
  ok r = true → json r = Some (PyDict d) → clean_steps d = true →
  Py.eq (status_of d) (PyStr "running") = false →
  Py.eq (status_of d) (PyStr "ok") = false →
  let run := configure_poll loc (World env (pre ++ Answer r :: post) evs) in
  (∀ e error_id description details,
     Py.lookup "error" d = Some (PyDict e) →
     plain_error e error_id description details →
     error_id ≠ "errorOnNodes" ∨ Py.lookup "error" details = None →
     run.1 = Raise (RuntimeError (error_report error_id [] description details)))
  ∧ (∀ e wrapper inner error_id description details nodes,
       Py.lookup "error" d = Some (PyDict e) →
       Py.lookup "id" e = Some (PyStr "errorOnNodes") →
       Py.lookup "details" e = Some (PyDict wrapper) →
       Py.lookup "error" wrapper = Some (PyDict inner) →
       plain_error inner error_id description details →
       Py.lookup "hostnames" wrapper = Some (PyList (PyStr <$> nodes)) →
       run.1 = Raise (RuntimeError (error_report error_id nodes description details)))
  ∧ (Py.lookup "error" d = None →
     run.1 = Raise (RuntimeError "Error: unexpected server response"))
  ∧ network run.2 = post.
Proof.
  intros Hp Hpre Hok Hjson Hclean Hrunning Hnotok run.
  assert (run = (conclude (round_state d), run.2) ∧ network run.2 = post) as [Hrun Hnet].
  { subst run. rewrite configure_poll_run.
    replace (S (length (pre ++ Answer r :: post)))
      with (length pre + S (S (length post)))%nat
      by (rewrite length_app; cbn [length]; lia).
    destruct (poll_loop_progress loc env p pre (Answer r :: post) Hp Hpre
                (S (S (length post))) initial_state (evs ++ [written HEADER])
                eq_refl initial_state_wf)
      as (st' & evs' & -> & Hrun' & (l & Hl & _) & _ & _).
    rewrite poll_loop_step by done.
    destruct (poll_once_clean loc st' l env p r d post
                ((evs ++ [written HEADER]) ++ evs') Hp Hok Hjson Hclean Hl)
      as (lines & -> & _ & _).
    by rewrite poll_loop_stop. }
  rewrite Hrun. cbn [fst].
  assert (conclude (round_state d)
          = (message ← format_error (PyDict d); Raise (RuntimeError message))) as ->.
  { unfold conclude. cbn [status resp round_state]. by rewrite Hnotok. }
  split_and!; [| | |done].
  - intros e error_id description details Herror Hplain Hnot.
    rewrite (format_error_report d error_id [] description details); [done| |by eexists].
    rewrite Herror. by apply unwrap_plain.
  - intros e wrapper inner error_id description details nodes
      Herror Hid Hwrapper Hinner Hplain Hhosts.
    rewrite (format_error_report d error_id nodes description details); [done| |by eexists].
    rewrite Herror. by eapply unwrap_wrapped.
  - intros Herror. unfold format_error. cbn [Py.contains]. rewrite Herror.
    rewrite bool_decide_eq_false_2 by (by intros [? ?]). reflexivity.
Qed.

Lemma poll_ends_with_error_report_witness :
  (configure_poll "/tasks/1"
     (World secret_environ [Answer pending; Answer failed] [])).1
  = Raise (RuntimeError errorOnNodes_report).
Proof.
  pose proof (poll_ends_with_error_report "/tasks/1" secret_environ "secret"
                [Answer pending] failed
                [("status", PyStr "error"); ("error", errorOnNodes_sample)] [] []
                eq_refl eq_refl eq_refl eq_refl eq_refl eq_refl eq_refl)
    as (_ & Hwrapped & _ & _).
  refine (eq_trans (Hwrapped _ _ _ "X" "bad thing" [] ["h1"; "h2"]
                      eq_refl eq_refl eq_refl eq_refl _ eq_refl) _).
  - by repeat split.
  - reflexivity.
Defined.

(** A body without an [error] field gives the generic report. *)
Example poll_generic_report :
  (configure_poll "/tasks/1"
     (World secret_environ
        [Answer (Response 200 [] "" (Some (PyDict [("status", PyStr "stopped")])) None)]
        [])).1
  = Raise (RuntimeError "Error: unexpected server response").
Proof. vm_compute. reflexivity. Qed.

(** A wrapped error with nested details: the inner error, the hosts in
    order, and the detail tree, each level two blanks further in. *)
Example poll_detailed_report :
  (configure_poll "/tasks/1"
     (World secret_environ
        [Answer (Response 200 [] "" (Some (PyDict detailed_failure)) None)] [])).1
  = Raise (RuntimeError
             ("Error:" +:+ LF
              +:+ "  id: badValueString" +:+ LF
              +:+ "  nodes:" +:+ LF
              +:+ "    node1.local" +:+ LF
              +:+ "    node2.local" +:+ LF
              +:+ "  description: Bad value: provided domain is not valid." +:+ LF
              +:+ "  details:" +:+ LF
              +:+ "    key: domainName" +:+ LF
              +:+ "    limits:" +:+ LF
              +:+ "      min: 1" +:+ LF
              +:+ "      max: 253" +:+ LF)).
Proof. vm_compute. reflexivity. Qed.

(** Outside the data model there is no report: an error without a
    description makes the formatting itself fail. *)
Example poll_error_without_description :
  (configure_poll "/tasks/1"
     (World secret_environ
        [Answer (Response 200 [] ""
                   (Some (PyDict [("status", PyStr "error");
                                  ("error", PyDict [("id", PyStr "X")])])) None)]
        [])).1
  = Raise TypeError.
Proof. vm_compute. reflexivity. Qed.

(** C9: every line a poll writes after its heading renders a step that
    splits at [':'] into exactly a service and an action; and when a reply
    that the poll gets to lists a step string without exactly one [':'], the
    poll raises the unpacking error ([ValueError]), whatever status the reply
    reports, and takes no further reply. *)
Theorem poll_raises_on_malformed_step :
  (∀ loc w,
     ∃ new_events,
       events (configure_poll loc w).2 = events w ++ written HEADER :: new_events
       ∧ ∀ data, Stdout data ∈ new_events → ∃ line, data = line +:+ LF ∧ rendering line)
  ∧ (∀ loc env p pre r d new post evs,
       env !! EMERGENCY_PASSPHRASE_VARIABLE = Some p →
       forallb progress_reply pre = true →
       ok r = true → json r = Some (PyDict d) →
       Py.lookup "steps" d = Some (PyList new) →
       forallb is_str new = true →
       existsb (λ v, negb (well_formed_step v)) new = true →
       let run := configure_poll loc (World env (pre ++ Answer r :: post) evs) in
       (∃ message, run.1 = Raise (ValueError message)) ∧ network run.2 = post).
Proof.
  split.
  - intros loc w.
    destruct (configure_poll_inv loc w) as (_ & _ & new_events & Hev & Hout & _).
    by exists new_events.
  - intros loc env p pre r d new post evs Hp Hpre Hok Hjson Hsteps Hstr Hbad run.
    subst run. rewrite configure_poll_run.
    replace (S (length (pre ++ Answer r :: post)))
      with (length pre + S (S (length post)))%nat
      by (rewrite length_app; cbn [length]; lia).
    destruct (poll_loop_progress loc env p pre (Answer r :: post) Hp Hpre
                (S (S (length post))) initial_state (evs ++ [written HEADER])
                eq_refl initial_state_wf)
      as (st' & evs' & -> & Hrun' & (l & Hl & Hwf) & _ & _).
    rewrite poll_loop_step by done.
    rewrite (poll_once_accepted loc st' env p r d new post _ Hp Hok Hjson)
      by (unfold steps_of; by rewrite Hsteps).
    rewrite Hl.
    destruct (report_steps_malformed new l env post
                (((evs ++ [written HEADER]) ++ evs') ++ [GET_task p loc])
                Hstr Hwf Hbad)
      as (message & lines & -> & _).
    cbn [fst snd network]. split; [by exists message | done].
Qed.

Lemma poll_raises_on_malformed_step_witness :
  ∃ message,
    (configure_poll "/tasks/1"
       (World secret_environ [Answer pending; Answer garbled; Answer finished] [])).1
    = Raise (ValueError message).
Proof.
  destruct poll_raises_on_malformed_step as [_ Hraise].
  exact (proj1 (Hraise "/tasks/1" secret_environ "secret" [Answer pending] garbled
                  [("status", PyStr "running");
                   ("steps", PyList [PyStr "oz_panel:deploy"; PyStr "oz_worker"])]
                  [PyStr "oz_panel:deploy"; PyStr "oz_worker"]
                  [Answer finished] []
                  eq_refl eq_refl eq_refl eq_refl eq_refl eq_refl eq_refl)).
Defined.

(** the same run, evaluated: the well-formed step is not written again, the
    malformed one is never written, and the last reply stays with the service *)
Example poll_garbled_run :
  configure_poll "/tasks/1"
    (World secret_environ [Answer pending; Answer garbled; Answer finished] [])
  = (Raise (ValueError "not enough values to unpack (expected 2, got 1)"),
     World secret_environ [Answer finished]
       [written HEADER;
        GET_task "secret" "/tasks/1"; written "* oz_panel: deploy"; Sleep 1;
        GET_task "secret" "/tasks/1"]).
Proof. vm_compute. reflexivity. Qed.

(** ** Progress reports *)

Lemma report_first a la env net evs :
  format_step (PyStr a) = Return la →
  report_steps [PyStr a] (PyList []) (World env net evs)
  = (Return (PyList []), World env net (evs ++ [written la])).
Proof.
  intros Ha. cbn [report_steps]. rewrite pure_bind_run.
  cbn [Py.truthy length Nat.eqb negb]. rewrite pure_bind_run, Ha, bind_run, log_run.
  reflexivity.
Qed.

Lemma report_second a b lb env net evs :
  format_step (PyStr b) = Return lb →
  report_steps [PyStr a; PyStr b] (PyList [PyStr a]) (World env net evs)
  = (Return (PyList []), World env net (evs ++ [written lb])).
Proof.
  intros Hb. cbn [report_steps]. rewrite pure_bind_run.
  cbn [Py.truthy length Nat.eqb negb Py.first mbind outcome_bind].
  rewrite eq_str_refl, pure_bind_run. cbn [Py.rest tail].
  rewrite pure_bind_run. cbn [Py.truthy length Nat.eqb negb].
  rewrite pure_bind_run, Hb, bind_run, log_run. reflexivity.
Qed.

Lemma report_nothing a b env net evs :
  report_steps [PyStr a; PyStr b] (PyList [PyStr a; PyStr b]) (World env net evs)
  = (Return (PyList []), World env net evs).
Proof.
  cbn [report_steps]. rewrite pure_bind_run.
  cbn [Py.truthy length Nat.eqb negb Py.first mbind outcome_bind].
  rewrite eq_str_refl, pure_bind_run. cbn [Py.rest tail].
  rewrite pure_bind_run.
  cbn [Py.truthy length Nat.eqb negb Py.first mbind outcome_bind].
  rewrite eq_str_refl, pure_bind_run. reflexivity.
Qed.

(** C1: for a task that reports [running] with steps [[a]], then [running]
    with steps [[a, b]], then [ok] (with no steps or with the same two), the
    poll writes the line for [a] once, then the line for [b] once, sleeps
    one second after each reply, and returns success; [a] and [b] are steps
    of the form [service:action]. *)
Theorem poll_reports_each_step_once loc env p a b r1 r2 r3 d1 d2 d3 net evs :
  env !! EMERGENCY_PASSPHRASE_VARIABLE = Some p →
  one_colon a = true → one_colon b = true →
  ok r1 = true → json r1 = Some (PyDict d1) →
  Py.lookup "status" d1 = Some (PyStr "running") →
  Py.lookup "steps" d1 = Some (PyList [PyStr a]) →
  ok r2 = true → json r2 = Some (PyDict d2) →
  Py.lookup "status" d2 = Some (PyStr "running") →
  Py.lookup "steps" d2 = Some (PyList [PyStr a; PyStr b]) →
  ok r3 = true → json r3 = Some (PyDict d3) →
  Py.lookup "status" d3 = Some (PyStr "ok") →
  (Py.lookup "steps" d3 = None
   ∨ Py.lookup "steps" d3 = Some (PyList [PyStr a; PyStr b])) →
  ∃ line_a line_b,
    format_step (PyStr a) = Return line_a
    ∧ format_step (PyStr b) = Return line_b
    ∧ configure_poll loc (World env (Answer r1 :: Answer r2 :: Answer r3 :: net) evs)
      = (Return true,
         World env net
           (evs ++ [written HEADER;
                    GET_task p loc; written line_a; Sleep 1;
                    GET_task p loc; written line_b; Sleep 1;
                    GET_task p loc; Sleep 1])).
Proof.
  intros Hp Ha Hb Hok1 Hjson1 Hst1 Hsteps1 Hok2 Hjson2 Hst2 Hsteps2
    Hok3 Hjson3 Hst3 Hsteps3.
  destruct (format_step_well_formed a Ha) as (sa & aa & _ & Hfa).
  destruct (format_step_well_formed b Hb) as (sb & ab & _ & Hfb).
  exists (step_line sa aa), (step_line sb ab). split_and!; [done|done|].
  assert (round_state d1
          = {| status := PyStr "running"; steps := PyList [PyStr a]; resp := PyDict d1 |})
    as Hround1 by (unfold round_state, status_of, steps_of; by rewrite Hst1, Hsteps1).
  assert (round_state d2
          = {| status := PyStr "running"; steps := PyList [PyStr a; PyStr b];
               resp := PyDict d2 |})
    as Hround2 by (unfold round_state, status_of, steps_of; by rewrite Hst2, Hsteps2).
  rewrite configure_poll_run. cbn [length].
  (* first reply *)
  rewrite poll_loop_step by done.
  rewrite (poll_once_accepted loc _ env p r1 d1 [PyStr a] _ _ Hp Hok1 Hjson1)
    by (unfold steps_of; by rewrite Hsteps1).
  cbn [steps initial_state]. rewrite (report_first a _ env _ _ Hfa).
  cbn [environ network events]. rewrite Hround1.
  (* second reply *)
  rewrite poll_loop_step by done.
  rewrite (poll_once_accepted loc _ env p r2 d2 [PyStr a; PyStr b] _ _ Hp Hok2 Hjson2)
    by (unfold steps_of; by rewrite Hsteps2).
  cbn [steps]. rewrite (report_second a b _ env _ _ Hfb).
  cbn [environ network events]. rewrite Hround2.
  (* third reply *)
  rewrite poll_loop_step by done.
  assert (status (round_state d3) = PyStr "ok") as Hstatus3
    by (unfold round_state, status_of; cbn [status]; by rewrite Hst3).
  destruct Hsteps3 as [Hsteps3|Hsteps3].
  - rewrite (poll_once_accepted loc _ env p r3 d3 [] _ _ Hp Hok3 Hjson3)
      by (unfold steps_of; by rewrite Hsteps3).
    cbn [report_steps mret io_ret environ network events].
    rewrite poll_loop_stop by (by rewrite Hstatus3).
    unfold conclude. rewrite Hstatus3. cbn [Py.eq String.eqb negb].
    rewrite <- !app_assoc. reflexivity.
  - rewrite (poll_once_accepted loc _ env p r3 d3 [PyStr a; PyStr b] _ _ Hp Hok3 Hjson3)
      by (unfold steps_of; by rewrite Hsteps3).
    cbn [steps]. rewrite report_nothing.
    cbn [environ network events].
    rewrite poll_loop_stop by (by rewrite Hstatus3).
    unfold conclude. rewrite Hstatus3. cbn [Py.eq String.eqb negb].
    rewrite <- !app_assoc. reflexivity.
Qed.

Lemma poll_reports_each_step_once_witness :
  configure_poll "/tasks/1"
    (World secret_environ [Answer pending; Answer deploying; Answer finished] [])
  = (Return true,
     World secret_environ []
       [written HEADER;
        GET_task "secret" "/tasks/1"; written "* oz_panel: deploy"; Sleep 1;
        GET_task "secret" "/tasks/1"; written "* oz_worker: start"; Sleep 1;
        GET_task "secret" "/tasks/1"; Sleep 1]).
Proof.
  destruct (poll_reports_each_step_once "/tasks/1" secret_environ "secret"
              "oz_panel:deploy" "oz_worker:start" pending deploying finished
              [("status", PyStr "running"); ("steps", PyList [PyStr "oz_panel:deploy"])]
              [("status", PyStr "running");
               ("steps", PyList [PyStr "oz_panel:deploy"; PyStr "oz_worker:start"])]
              [("status", PyStr "ok")] [] []
              eq_refl eq_refl eq_refl eq_refl eq_refl eq_refl eq_refl
              eq_refl eq_refl eq_refl eq_refl eq_refl eq_refl eq_refl
              (or_introl eq_refl))
    as (line_a & line_b & Ha & Hb & Hrun).
  injection Ha as <-. injection Hb as <-. exact Hrun.
Defined.

(** ** Waiting for readiness *)

Lemma nagios_up_run log_errors env p rp net evs :
  env !! EMERGENCY_PASSPHRASE_VARIABLE = Some p →
  nagios_up NAGIOS_URL log_errors (World env (rp :: net) evs) =
  match observe rp with
  | Healthy => (Return true, World env net (evs ++ [GET_nagios p]))
  | Unhealthy note =>
      (Return false,
       World env net
         (evs ++ GET_nagios p :: (if log_errors then written <$> note else [])))
  | Broken e => (Raise e, World env net (evs ++ [GET_nagios p]))
  end.
Proof.
  intros Hp. unfold nagios_up. rewrite bind_run. unfold try_except.
  rewrite bind_run, do_auth_request_run, Hp. cbn zeta. unfold observe.
  fold (GET_nagios p).
  destruct rp as [r|].
  - destruct (is_auth_status (status_code r)).
    + cbn [any_exception]. destruct log_errors; cbn [when].
      * rewrite bind_run, log_run. cbn [mret io_ret fmap list_fmap].
        by rewrite <- app_assoc.
      * cbn [mbind io_bind mret io_ret]. reflexivity.
    + destruct (ok r); cbn [negb].
      * cbn [mret io_ret]. rewrite pure_bind_run. unfold xml_fromstring.
        destruct (xml_attrib r) as [a|]; [|done].
        rewrite pure_bind_run. unfold attrib.
        destruct (attrib_get "status" a) as [s|]; [|done].
        cbn [mret io_ret]. destruct (String.eqb s "ok"); [done|].
        by destruct log_errors.
      * destruct log_errors; cbn [when].
        -- rewrite bind_run, log_run. cbn [mret io_ret fmap list_fmap].
           by rewrite <- app_assoc.
        -- cbn [mbind io_bind mret io_ret]. reflexivity.
  - cbn [any_exception]. destruct log_errors; cbn [when].
    + rewrite bind_run, log_run. cbn [mret io_ret fmap list_fmap].
      by rewrite <- app_assoc.
    + cbn [mbind io_bind mret io_ret]. reflexivity.
Qed.

Lemma wait_loop_unfold fuel retries :
  wait_loop fuel retries =
  (up ← nagios_up NAGIOS_URL (retries mod 10 =? 9);
   if up : bool then mret tt
   else
     sleep 1;;
     if retries + 1 =? 120 then raise TIMEOUT
     else match fuel with
          | O => pure OutOfFuel
          | S fuel' => wait_loop fuel' (retries + 1)
          end).
Proof. by destruct fuel. Qed.

Lemma pace_app evs evs' : pace (evs ++ evs') = pace evs ++ pace evs'.
Proof. apply List.filter_app. Qed.

Lemma pace_written lines : pace (written <$> lines) = [].
Proof. by induction lines. Qed.

(** One failed observation: the request, perhaps a log line, one second of
    sleep; then the budget is checked. *)
Lemma wait_loop_not_ready fuel retries env p rp net evs :
  env !! EMERGENCY_PASSPHRASE_VARIABLE = Some p →
  not_ready rp = true →
  ∃ new_events,
    pace new_events = [GET_nagios p; Sleep 1]
    ∧ wait_loop fuel retries (World env (rp :: net) evs) =
      if retries + 1 =? 120 then (Raise TIMEOUT, World env net (evs ++ new_events))
      else match fuel with
           | O => (OutOfFuel, World env net (evs ++ new_events))
           | S fuel' => wait_loop fuel' (retries + 1) (World env net (evs ++ new_events))
           end.
Proof.
  intros Hp Hrp. unfold not_ready in Hrp.
  rewrite wait_loop_unfold, bind_run, (nagios_up_run _ _ _ _ _ _ Hp).
  destruct (observe rp) as [|note|e]; try done.
  exists (GET_nagios p :: (if retries mod 10 =? 9 then written <$> note else []) ++ [Sleep 1]).
  split.
  - change (GET_nagios p :: (if retries mod 10 =? 9 then written <$> note else []) ++ [Sleep 1])
      with ([GET_nagios p] ++ (if retries mod 10 =? 9 then written <$> note else []) ++ [Sleep 1]).
    rewrite !pace_app. destruct (retries mod 10 =? 9); [|done].
    by rewrite pace_written.
  - rewrite bind_run, sleep_run.
    replace ((evs ++ GET_nagios p :: (if retries mod 10 =? 9 then written <$> note else []))
             ++ [Sleep 1])
      with (evs ++ GET_nagios p
                :: (if retries mod 10 =? 9 then written <$> note else []) ++ [Sleep 1])
      by (by rewrite <- app_assoc).
    destruct (retries + 1 =? 120); [done|]. by destruct fuel.
Qed.

Lemma wait_loop_timeout env p rest downs :
  env !! EMERGENCY_PASSPHRASE_VARIABLE = Some p →
  forallb not_ready downs = true →
  ∀ fuel retries evs,
    downs ≠ [] →
    retries + Z.of_nat (length downs) = 120 →
    (length downs ≤ S fuel)%nat →
    ∃ new_events,
      wait_loop fuel retries (World env (downs ++ rest) evs)
      = (Raise TIMEOUT, World env rest (evs ++ new_events))
      ∧ pace new_events = attempts p (length downs).
Proof.
  intros Hp. induction downs as [|rp downs IH]; intros Hdowns fuel retries evs Hne Hretries Hfuel;
    [done|].
  cbn [forallb] in Hdowns. apply andb_true_iff in Hdowns as [Hrp Hdowns].
  destruct (wait_loop_not_ready fuel retries env p rp (downs ++ rest) evs Hp Hrp)
    as (ev1 & Hpace & Hstep).
  cbn [app]. rewrite Hstep. cbn [length] in *.
  destruct downs as [|rp' downs].
  - cbn [length] in Hretries.
    destruct (Z.eqb_spec (retries + 1) 120) as [_|Hne']; [|lia].
    exists ev1. by rewrite Hpace.
  - destruct (Z.eqb_spec (retries + 1) 120) as [Heq|_]; [cbn [length] in Hretries; lia|].
    destruct fuel as [|fuel]; [cbn [length] in Hfuel; lia|].
    destruct (IH Hdowns fuel (retries + 1) (evs ++ ev1)) as (ev2 & Hrun & Hpace2).
    + done.
    + cbn [length] in *. lia.
    + cbn [length] in *. lia.
    + exists (ev1 ++ ev2). rewrite app_assoc. split; [done|].
      rewrite pace_app, Hpace, Hpace2. reflexivity.
Qed.

Lemma wait_loop_ready env p rest rp downs :
  env !! EMERGENCY_PASSPHRASE_VARIABLE = Some p →
  forallb not_ready downs = true →
  ready rp = true →
  ∀ fuel retries evs,
    retries + Z.of_nat (length downs) < 120 →
    (length downs ≤ fuel)%nat →
    ∃ new_events,
      wait_loop fuel retries (World env (downs ++ rp :: rest) evs)
      = (Return tt, World env rest (evs ++ new_events))
      ∧ pace new_events = attempts p (length downs) ++ [GET_nagios p].
Proof.
  intros Hp Hdowns Hready.
  induction downs as [|rp' downs IH]; intros fuel retries evs Hretries Hfuel.
  - cbn [app length attempts]. unfold ready in Hready.
    rewrite wait_loop_unfold, bind_run, (nagios_up_run _ _ _ _ _ _ Hp).
    destruct (observe rp); try done. by exists [GET_nagios p].
  - cbn [forallb] in Hdowns. apply andb_true_iff in Hdowns as [Hrp Hdowns].
    destruct (wait_loop_not_ready fuel retries env p rp' (downs ++ rp :: rest) evs Hp Hrp)
      as (ev1 & Hpace & Hstep).
    cbn [app]. rewrite Hstep. cbn [length] in *.
    destruct (Z.eqb_spec (retries + 1) 120) as [Heq|_]; [lia|].
    destruct fuel as [|fuel]; [lia|].
    destruct (IH Hdowns fuel (retries + 1) (evs ++ ev1)) as (ev2 & Hrun & Hpace2);
      [lia|lia|].
    exists (ev1 ++ ev2). rewrite app_assoc. split; [done|].
    rewrite pace_app, Hpace, Hpace2. reflexivity.
Qed.

(** C6: with the passphrase set, [wait_for_workers] times out after exactly
    120 observations that are not ok in a row: it has then made 120 health
    requests, each followed by a sleep of one second, and takes no further
    reply.  An observation that reports ok before that ends the wait at
    once, with no sleep after it. *)
Theorem wait_for_workers_budget env p evs :
  env !! EMERGENCY_PASSPHRASE_VARIABLE = Some p →
  (∀ downs rest,
     length downs = 120%nat → forallb not_ready downs = true →
     ∃ new_events,
       wait_for_workers (World env (downs ++ rest) evs)
       = (Raise TIMEOUT, World env rest (evs ++ new_events))
       ∧ pace new_events = attempts p 120)
  ∧ (∀ downs rp rest,
       (length downs < 120)%nat → forallb not_ready downs = true → ready rp = true →
       ∃ new_events,
         wait_for_workers (World env (downs ++ rp :: rest) evs)
         = (Return tt, World env rest (evs ++ new_events))
         ∧ pace new_events = attempts p (length downs) ++ [GET_nagios p]).
Proof.
  intros Hp. split.
  - intros downs rest Hlen Hdowns. unfold wait_for_workers.
    destruct (wait_loop_timeout env p rest downs Hp Hdowns 120 0 evs)
      as (new_events & Hrun & Hpace).
    + intros ->. done.
    + lia.
    + lia.
    + exists new_events. by rewrite Hrun, Hpace, Hlen.
  - intros downs rp rest Hlen Hdowns Hready. unfold wait_for_workers.
    apply (wait_loop_ready env p rest rp downs Hp Hdowns Hready); lia.
Qed.

Lemma wait_for_workers_budget_witness :
  (∃ new_events,
     wait_for_workers (World secret_environ (replicate 120 NoConnection ++ []) [])
     = (Raise TIMEOUT, World secret_environ [] ([] ++ new_events))
     ∧ pace new_events = attempts "secret" 120)
  ∧ (∃ new_events,
       wait_for_workers
         (World secret_environ ([NoConnection; Answer unavailable] ++ Answer healthy :: []) [])
       = (Return tt, World secret_environ [] ([] ++ new_events))
       ∧ pace new_events = attempts "secret" 2 ++ [GET_nagios "secret"]).
Proof.
  destruct (wait_for_workers_budget secret_environ "secret" [] eq_refl)
    as [Htimeout Hready].
  split.
  - apply (Htimeout (replicate 120 NoConnection) []); reflexivity.
  - apply (Hready [NoConnection; Answer unavailable] (Answer healthy) []).
    + cbn. lia.
    + reflexivity.
    + reflexivity.
Defined.

(** What counts as not ready: no connection, a 401 or 403, any other status
    from 400 to 599, or a health document whose [status] is not ['ok']. *)
Lemma not_ready_cases rp :
  not_ready rp = true ↔
  rp = NoConnection
  ∨ ∃ r, rp = Answer r
         ∧ (ok r = false
            ∨ ∃ a s, xml_attrib r = Some a ∧ attrib_get "status" a = Some s ∧ s ≠ "ok").
Proof.
  unfold not_ready, observe. destruct rp as [r|]; [|by split; [left|]].
  assert (∀ P : Prop,
            ((ok r = false
              ∨ ∃ a s, xml_attrib r = Some a ∧ attrib_get "status" a = Some s ∧ s ≠ "ok")
             ↔ P) →
            (Answer r = NoConnection
             ∨ ∃ r0, Answer r = Answer r0
                     ∧ (ok r0 = false
                        ∨ ∃ a s, xml_attrib r0 = Some a
                                 ∧ attrib_get "status" a = Some s ∧ s ≠ "ok"))
            ↔ P) as Hsame.
  { intros P HP. rewrite <- HP. split.
    - intros [?|(r0 & [= <-] & H)]; [done|exact H].
    - intros H. right. by exists r. }
  symmetry. apply Hsame. clear Hsame.
  destruct (is_auth_status (status_code r)) eqn:Hauth.
  { apply auth_status_not_ok in Hauth. split; [done|]. by left. }
  destruct (ok r) eqn:Hok; cbn [negb]; [|by split; [|left]].
  destruct (xml_attrib r) as [a|].
  2:{ split; [|done]. by intros [?|(a & s & ? & _)]. }
  destruct (attrib_get "status" a) as [s|] eqn:Hs.
  2:{ split; [|done]. intros [?|(a' & s & [= <-] & ? & _)]; [done|congruence]. }
  destruct (String.eqb_spec s "ok") as [->|Hne].
  - split; [|done]. intros [?|(a' & s & [= <-] & ? & ?)]; [done|congruence].
  - split; [done|]. intros _. right. by exists a, s.
Qed.

(** C10, as the code has it: a failed connection, a status from 400 to 599
    and a well-formed health document whose [status] is not ['ok'] all count
    as not ready, and the wait goes on.  A response outside 400 to 599 whose
    body is not well-formed XML, or whose root has no [status] attribute,
    raises out of [nagios_up] and out of the wait loop: it is not counted as
    a failed attempt. *)
Theorem nagios_up_observations log_errors env p rp net evs :
  env !! EMERGENCY_PASSPHRASE_VARIABLE = Some p →
  let w := World env (rp :: net) evs in
  (rp = NoConnection → (nagios_up NAGIOS_URL log_errors w).1 = Return false)
  ∧ (∀ r, rp = Answer r → ok r = false →
          (nagios_up NAGIOS_URL log_errors w).1 = Return false)
  ∧ (∀ r a s, rp = Answer r → ok r = true → xml_attrib r = Some a →
              attrib_get "status" a = Some s →
              (nagios_up NAGIOS_URL log_errors w).1 = Return (String.eqb s "ok"))
  ∧ (∀ r, rp = Answer r → ok r = true → xml_attrib r = None →
          (nagios_up NAGIOS_URL log_errors w).1 = Raise ParseError
          ∧ ∀ fuel retries,
              wait_loop fuel retries w
              = (Raise ParseError, World env net (evs ++ [GET_nagios p])))
  ∧ (∀ r a, rp = Answer r → ok r = true → xml_attrib r = Some a →
            attrib_get "status" a = None →
            (nagios_up NAGIOS_URL log_errors w).1 = Raise (KeyError (PyStr "status"))
            ∧ ∀ fuel retries,
                wait_loop fuel retries w
                = (Raise (KeyError (PyStr "status")),
                   World env net (evs ++ [GET_nagios p]))).
Proof.
  intros Hp w. subst w.
  assert (∀ fuel retries e,
            observe rp = Broken e →
            wait_loop fuel retries (World env (rp :: net) evs)
            = (Raise e, World env net (evs ++ [GET_nagios p]))) as Hloop.
  { intros fuel retries e He.
    by rewrite wait_loop_unfold, bind_run, (nagios_up_run _ _ _ _ _ _ Hp), He. }
  rewrite (nagios_up_run _ _ _ _ _ _ Hp).
  split_and!.
  - by intros ->.
  - intros r -> Hok. unfold observe. rewrite Hok.
    by destruct (is_auth_status (status_code r)).
  - intros r a s -> Hok Hxml Hstatus. unfold observe.
    rewrite (success_not_auth _ Hok), Hok, Hxml, Hstatus. cbn [negb].
    by destruct (String.eqb s "ok").
  - intros r -> Hok Hxml.
    assert (observe (Answer r) = Broken ParseError) as Hobs.
    { unfold observe. by rewrite (success_not_auth _ Hok), Hok, Hxml. }
    split; [by rewrite Hobs|]. intros fuel retries. by apply Hloop.
  - intros r a -> Hok Hxml Hstatus.
    assert (observe (Answer r) = Broken (KeyError (PyStr "status"))) as Hobs.
    { unfold observe. by rewrite (success_not_auth _ Hok), Hok, Hxml, Hstatus. }
    split; [by rewrite Hobs|]. intros fuel retries. by apply Hloop.
Qed.

Lemma nagios_up_observations_witness :
  wait_for_workers (World secret_environ [Answer not_xml; Answer healthy] [])
  = (Raise ParseError, World secret_environ [Answer healthy] [GET_nagios "secret"]).
Proof.
  destruct (nagios_up_observations false secret_environ "secret"
              (Answer not_xml) [Answer healthy] [] eq_refl)
    as (_ & _ & _ & Hbroken & _).
  destruct (Hbroken not_xml eq_refl eq_refl eq_refl) as [_ Hloop].
  exact (Hloop 120%nat 0).
Defined.

(** C10, as stated, fails: a 200 response with a well-formed health document
    whose [status] is ['error'] is neither a transport failure nor a
    non-success status, and it is counted as a failed attempt all the same:
    the wait sleeps and asks again. *)
Lemma wait_retries_on_unhealthy_document :
  ok degraded = true
  ∧ nagios_up NAGIOS_URL false (World secret_environ [Answer degraded; Answer healthy] [])
    = (Return false, World secret_environ [Answer healthy] [GET_nagios "secret"])
  ∧ wait_for_workers (World secret_environ [Answer degraded; Answer healthy] [])
    = (Return tt,
       World secret_environ [] [GET_nagios "secret"; Sleep 1; GET_nagios "secret"]).
Proof. split_and!; vm_compute; reflexivity. Qed.

(** ** The loop bounds of the model are never what ends a run *)

Lemma nagios_up_total url log_errors w :
  (nagios_up url log_errors w).1 ≠ OutOfFuel.
Proof.
  destruct w as [env net evs]. unfold nagios_up. rewrite bind_run. unfold try_except.
  rewrite bind_run, do_auth_request_run.
  destruct (env !! EMERGENCY_PASSPHRASE_VARIABLE) as [p|].
  2:{ cbn [any_exception]. destruct log_errors; cbn [when]; [|done].
      by rewrite bind_run, log_run. }
  cbn zeta. destruct net as [|[r|] net]; [done| |].
  - destruct (is_auth_status (status_code r)).
    + cbn [any_exception]. destruct log_errors; cbn [when]; [|done].
      by rewrite bind_run, log_run.
    + destruct (ok r); cbn [negb].
      * cbn [mret io_ret]. rewrite pure_bind_run. unfold xml_fromstring.
        destruct (xml_attrib r) as [a|]; [|done].
        rewrite pure_bind_run. unfold attrib.
        by destruct (attrib_get "status" a).
      * destruct log_errors; cbn [when]; [|done].
        by rewrite bind_run, log_run.
  - cbn [any_exception]. destruct log_errors; cbn [when]; [|done].
    by rewrite bind_run, log_run.
Qed.

Lemma wait_loop_total fuel retries w :
  0 ≤ retries < 120 → 119 ≤ retries + Z.of_nat fuel →
  (wait_loop fuel retries w).1 ≠ OutOfFuel.
Proof.
  revert retries w. induction fuel as [|fuel IH]; intros retries w Hretries Hfuel;
    rewrite wait_loop_unfold, bind_run;
    pose proof (nagios_up_total NAGIOS_URL (retries mod 10 =? 9) w) as Hup;
    destruct (nagios_up NAGIOS_URL (retries mod 10 =? 9) w) as [[[|]|e| |] [env net evs]];
    try done; rewrite bind_run, sleep_run;
    destruct (Z.eqb_spec (retries + 1) 120) as [Heq|Hne]; try done.
  - lia.
  - apply IH; lia.
Qed.

(** [wait_for_workers] always comes to an end of its own: it returns, raises,
    or waits for the service. *)
Lemma wait_for_workers_total w : (wait_for_workers w).1 ≠ OutOfFuel.
Proof. apply wait_loop_total; cbn; lia. Qed.

(** Every round of [_wrap_chunks] takes at least one chunk, so as many
    rounds as there are chunks are enough. *)
Lemma take_fitting_length width cur_len chunks :
  (length (Textwrap.take_fitting width cur_len chunks).2 ≤ length chunks)%nat
  ∧ ((Textwrap.take_fitting width cur_len chunks).1 = [] →
     (Textwrap.take_fitting width cur_len chunks).2 = chunks).
Proof.
  revert cur_len. induction chunks as [|c cs IH]; intros cur_len; [done|].
  cbn [Textwrap.take_fitting].
  destruct (cur_len + Str.len c <=? width); [|done].
  destruct (IH (cur_len + Str.len c)) as [Hlen _].
  destruct (Textwrap.take_fitting width (cur_len + Str.len c) cs) as [line rest].
  cbn [fst snd length] in *. split; [lia|done].
Qed.

Lemma wrap_round_consumes initial_indent subsequent_indent lines chunks :
  chunks ≠ [] →
  (length (Textwrap.wrap_round initial_indent subsequent_indent lines chunks).2
   < length chunks)%nat.
Proof.
  intros Hne. unfold Textwrap.wrap_round.
  set (width := Textwrap.WRAP_WIDTH - _).
  set (chunks' := match chunks with [] => _ | _ => _ end).
  assert (length chunks' ≤ length chunks)%nat as Hle.
  { subst chunks'. destruct chunks as [|c cs]; [done|]. destruct lines; [done|].
    destruct (Textwrap.blank c); cbn [length]; lia. }
  destruct (take_fitting_length width 0 chunks') as [Hlen Hnone].
  destruct (Textwrap.take_fitting width 0 chunks') as [cur_line rest] eqn:Htake.
  cbn [fst snd] in *.
  assert (∀ (cur_line rest : list string),
            (length rest < length chunks)%nat →
            (length (match Textwrap.drop_last_blank cur_line with
                     | [] => (lines, rest)
                     | _ :: _ =>
                         (lines ++ [match lines with
                                    | [] => initial_indent
                                    | _ :: _ => subsequent_indent
                                    end +:+ Str.join "" (Textwrap.drop_last_blank cur_line)],
                          rest)
                     end).2 < length chunks)%nat) as Hfinish.
  { intros cl rs Hrs. by destruct (Textwrap.drop_last_blank cl). }
  destruct rest as [|c cs].
  - apply Hfinish. destruct chunks; [done|]. cbn [length]. lia.
  - destruct cur_line as [|x cur_line].
    + specialize (Hnone eq_refl).
      destruct (width <? Str.len c) eqn:Hlong.
      * apply Hfinish. cbn [length] in *. lia.
      * (* the chunk fits an empty line, so it was taken *)
        exfalso. subst chunks'. rewrite <- Hnone in Htake.
        cbn [Textwrap.take_fitting] in Htake.
        replace (0 + Str.len c) with (Str.len c) in Htake by lia.
        apply Z.ltb_ge in Hlong. apply Z.leb_le in Hlong. rewrite Hlong in Htake.
        by destruct (Textwrap.take_fitting width (Str.len c) cs).
    + apply Hfinish.
      assert (length (c :: cs) < length chunks')%nat; [|lia].
      clear -Htake. revert Htake. generalize 0.
      induction chunks' as [|c' cs' IH]; intros n; [done|].
      cbn [Textwrap.take_fitting].
      destruct (n + Str.len c' <=? width); [|done].
      destruct (Textwrap.take_fitting width (n + Str.len c') cs') as [l r] eqn:E.
      intros [= <- <- ->].
      pose proof (take_fitting_length width (n + Str.len c') cs') as [Hl _].
      rewrite E in Hl. cbn [snd length] in *. lia.
Qed.

Lemma wrap_chunks_fuel initial_indent subsequent_indent fuel lines chunks :
  (length chunks ≤ fuel)%nat →
  Textwrap.wrap_chunks fuel initial_indent subsequent_indent lines chunks
  = Textwrap.wrap_chunks (length chunks) initial_indent subsequent_indent lines chunks.
Proof.
  remember (length chunks) as n eqn:Hn. revert fuel lines chunks Hn.
  induction n as [n IH] using lt_wf_ind. intros fuel lines chunks -> Hfuel.
  destruct chunks as [|c cs]; [by destruct fuel|].
  destruct fuel as [|fuel]; [cbn [length] in Hfuel; lia|].
  cbn [length Textwrap.wrap_chunks].
  pose proof (wrap_round_consumes initial_indent subsequent_indent lines (c :: cs)) as Hlt.
  destruct (Textwrap.wrap_round initial_indent subsequent_indent lines (c :: cs))
    as [lines' chunks'].
  cbn [snd length] in Hlt, IH, Hfuel. specialize (Hlt ltac:(done)).
  rewrite (IH (length chunks') ltac:(lia) fuel lines' chunks' eq_refl) by lia.
  rewrite (IH (length chunks') ltac:(lia) (length cs) lines' chunks' eq_refl) by lia.
  reflexivity.
Qed.

(** ** The wrapper of node errors *)

(** X4: one level of [errorOnNodes] is taken off, and only one: the id and
    the description are the inner error's, whatever they are (an inner
    [errorOnNodes] stays), the nodes are the wrapper's [hostnames], and the
    details are the inner error's, if it has any. *)
Lemma unwrap_error_on_nodes outer details inner error_id description hosts :
  Py.lookup "id" outer = Some (PyStr "errorOnNodes") →
  Py.lookup "details" outer = Some (PyDict details) →
  Py.lookup "error" details = Some (PyDict inner) →
  Py.lookup "id" inner = Some error_id →
  Py.lookup "description" inner = Some description →
  Py.lookup "hostnames" details = Some hosts →
  unwrap_error_with_hosts (PyDict outer)
  = Return (error_id, description,
            default (PyDict []) (Py.lookup "details" inner), hosts).
Proof.
  intros Hid Hdetails Herror Hinner Hdescr Hhosts. unfold unwrap_error_with_hosts.
  cbn [Py.get mbind outcome_bind]. rewrite Hid, Hdetails.
  cbn [from_option id Py.eq Py.contains]. rewrite String.eqb_refl.
  rewrite bool_decide_eq_true_2 by (rewrite Herror; eauto).
  cbn [mbind outcome_bind Py.getitem]. rewrite Herror.
  cbn [mbind outcome_bind Py.getitem]. rewrite Hinner.
  cbn [mbind outcome_bind]. rewrite Hdescr.
  cbn [mbind outcome_bind]. rewrite Hhosts. reflexivity.
Qed.

(** Any other error is left as it is. *)
Lemma unwrap_plain_error outer :
  Py.lookup "id" outer ≠ Some (PyStr "errorOnNodes") →
  unwrap_error_with_hosts (PyDict outer)
  = Return (default PyNone (Py.lookup "id" outer),
            default PyNone (Py.lookup "description" outer),
            default (PyDict []) (Py.lookup "details" outer), PyList []).
Proof.
  intros Hid. unfold unwrap_error_with_hosts. cbn [Py.get mbind outcome_bind].
  destruct (Py.eq _ (PyStr "errorOnNodes")) eqn:Heq; [|done].
  exfalso. apply Hid. destruct (Py.lookup "id" outer) as [[| | |s| |]|]; try done.
  cbn in Heq. apply String.eqb_eq in Heq. by subst.
Qed.

(** * Further properties of the script *)

(** ** [get_batch_config] beyond the mark *)

Lemma store_not_nil k v d : Py.store k v d ≠ [].
Proof. destruct d as [|[k' v'] d]; cbn; [done|]. by destruct (String.eqb k k'). Qed.

Lemma truthy_dict d : d ≠ [] → Py.truthy (PyDict d) = true.
Proof. by destruct d. Qed.

(** what [get_batch_config] does with a mapping, by the shape of its
    [onepanel] entry *)
Lemma get_batch_config_dict d :
  d ≠ [] →
  get_batch_config (PyDict d) =
  match default (PyDict []) (Py.lookup "onepanel" d) with
  | PyDict o =>
      if bool_decide (is_Some (Py.lookup "interactiveDeployment" o))
      then Return (PyDict d)
      else Return (PyDict (Py.store "onepanel"
                             (PyDict (Py.store "interactiveDeployment" (PyBool false) o)) d))
  | PyStr s =>
      if Py.substring "interactiveDeployment" s then Return (PyDict d)
      else Raise TypeError
  | PyList l =>
      if existsb (Py.eq (PyStr "interactiveDeployment")) l then Return (PyDict d)
      else Raise TypeError
  | _ => Raise TypeError
  end.
Proof.
  intros Hd. unfold get_batch_config. rewrite (truthy_dict d Hd).
  cbn [negb Py.get mbind outcome_bind].
  destruct (default (PyDict []) (Py.lookup "onepanel" d)) as [| | |s|l|o];
    cbn [Py.contains mbind outcome_bind]; try done.
  - by destruct (Py.substring _ s).
  - by destruct (existsb _ l).
  - by destruct (bool_decide _).
Qed.

(** X1: [get_batch_config] is idempotent: run on a configuration it has
    returned, it returns that configuration unchanged. *)
Theorem get_batch_config_idempotent blob config :
  get_batch_config blob = Return config →
  get_batch_config config = Return config.
Proof.
  intros H. destruct (Py.truthy blob) eqn:Htruthy.
  2:{ unfold get_batch_config in H. rewrite Htruthy in H. by injection H as <-. }
  destruct blob as [| | | | |d]; try (unfold get_batch_config in H; by rewrite Htruthy in H).
  assert (d ≠ []) as Hd by (by destruct d).
  rewrite (get_batch_config_dict d Hd) in H.
  destruct (default (PyDict []) (Py.lookup "onepanel" d)) as [| | |s|l|o] eqn:Hone;
    try done.
  - destruct (Py.substring _ s) eqn:Hs; [|done]. injection H as <-.
    by rewrite (get_batch_config_dict d Hd), Hone, Hs.
  - destruct (existsb _ l) eqn:Hl; [|done]. injection H as <-.
    by rewrite (get_batch_config_dict d Hd), Hone, Hl.
  - destruct (bool_decide _) eqn:Ho; injection H as <-.
    + by rewrite (get_batch_config_dict d Hd), Hone, Ho.
    + rewrite get_batch_config_dict by apply store_not_nil.
      rewrite lookup_store_eq. cbn [default from_option id].
      rewrite lookup_store_eq. by rewrite bool_decide_eq_true_2 by eauto.
Qed.

Lemma get_batch_config_idempotent_witness :
  get_batch_config
    (PyDict [("onezone", PyNone); ("onepanel", PyDict [("interactiveDeployment", PyBool false)])])
  = Return
      (PyDict [("onezone", PyNone); ("onepanel", PyDict [("interactiveDeployment", PyBool false)])]).
Proof.
  apply (get_batch_config_idempotent (PyDict [("onezone", PyNone)])). reflexivity.
Defined.

(** *** The configuration as the loader leaves it *)

Lemma entry_set_eq k v entries : entry k (set_entry k v entries) = Some v.
Proof.
  induction entries as [|[k' v'] entries IH]; cbn [set_entry entry].
  - by rewrite String.eqb_refl.
  - destruct (String.eqb k k') eqn:Heq; cbn [entry]; by rewrite Heq.
Qed.

Lemma entry_set_ne k k' v entries :
  k' ≠ k → entry k' (set_entry k v entries) = entry k' entries.
Proof.
  intros Hne. induction entries as [|[k'' v'] entries IH]; cbn [set_entry entry].
  - by rewrite (proj2 (String.eqb_neq _ _) Hne).
  - destruct (String.eqb k k'') eqn:Heq; cbn [entry]; [|by rewrite IH].
    apply String.eqb_eq in Heq as <-. by rewrite (proj2 (String.eqb_neq _ _) Hne).
Qed.

Lemma set_entry_keys k v entries :
  (set_entry k v entries).*1
  = if bool_decide (is_Some (entry k entries)) then entries.*1 else entries.*1 ++ [k].
Proof.
  induction entries as [|[k' v'] entries IH]; [done|]. cbn [set_entry entry].
  destruct (String.eqb k k') eqn:Heq.
  - by rewrite bool_decide_eq_true_2 by eauto.
  - cbn [fmap list_fmap fst]. change (list_fmap _ _ fst ?l) with (l.*1).
    rewrite IH. by destruct (bool_decide _).
Qed.

Lemma set_entry_same k v entries :
  entry k entries = Some v → set_entry k v entries = entries.
Proof.
  induction entries as [|[k' v'] entries IH]; [done|]. cbn [set_entry entry].
  destruct (String.eqb k k'); [by intros [= ->]|]. intros H. by rewrite IH.
Qed.

(** the store when nothing is written *)
Ltac unchanged_store :=
  split_and!; [done | by left | done | by intros ? <- | done | done].

(** X2: [get_batch_config] changes nothing but the mark, on the objects
    that the loader has produced, where an anchor and its aliases are one
    object.  Take a configuration that is a mapping in use in the store,
    with at least one entry, and that is not its own [onepanel] entry.
    When [get_batch_config] returns, it returns that same mapping, with its
    keys in their order and [onepanel] added at the end when it was not
    there; its entries other than [onepanel] hold the values they held, and
    [onepanel] the object it held; the mapping of [onepanel] keeps every
    entry other than the mark; and every object of the store other than the
    configuration and its [onepanel] entry is as it was.  So an entry that
    is the same object as [onepanel], by an alias, shows the mark too, and
    nothing else changes. *)
Theorem get_batch_config_changes_one_object root σ config σ' :
  (root < unused σ)%nat →
  entries_at σ root ≠ [] →
  entry "onepanel" (entries_at σ root) ≠ Some (YRef root) →
  get_batch_config_loaded (YRef root) σ = (Return config, σ') →
  config = YRef root
  ∧ ((entries_at σ' root).*1 = (entries_at σ root).*1
     ∨ (entries_at σ' root).*1 = (entries_at σ root).*1 ++ ["onepanel"])
  ∧ (∀ k, k ≠ "onepanel" →
          entry k (entries_at σ' root) = entry k (entries_at σ root))
  ∧ (∀ v, entry "onepanel" (entries_at σ root) = Some v →
          entry "onepanel" (entries_at σ' root) = Some v)
  ∧ (∀ a k, entry "onepanel" (entries_at σ root) = Some (YRef a) →
            k ≠ "interactiveDeployment" →
            entry k (entries_at σ' a) = entry k (entries_at σ a))
  ∧ (∀ a, a ≠ root →
          entry "onepanel" (entries_at σ' root) ≠ Some (YRef a) →
          object_at σ' a = object_at σ a).
Proof.
  intros Hroot Hentries Hself Hrun. unfold get_batch_config_loaded in Hrun.
  unfold entries_at in Hentries. cbn [truthy_loaded] in Hrun.
  destruct (object_at σ root) as [items|entries] eqn:Hobject; [done|].
  assert (Nat.eqb (length entries) 0 = false) as Hlen by (by destruct entries).
  rewrite Hlen in Hrun. cbn [negb] in Hrun.
  assert (entries_at σ root = entries) as Hat by (unfold entries_at; by rewrite Hobject).
  rewrite Hat in *.
  destruct (entry "onepanel" entries) as [onepanel_config|] eqn:Honepanel.
  - (* the key is there *)
    destruct onepanel_config as [| | |s|a]; try done.
    + cbn [contains_loaded] in Hrun. destruct (Py.substring _ s); [|done].
      injection Hrun as <- <-. rewrite Hat. unchanged_store.
    + cbn [contains_loaded] in Hrun.
      destruct (object_at σ a) as [items|marked] eqn:Ha.
      * destruct (existsb _ items); [|done].
        injection Hrun as <- <-. rewrite Hat. unchanged_store.
      * destruct (bool_decide (is_Some (entry "interactiveDeployment" marked))) eqn:Hmark.
        { injection Hrun as <- <-. rewrite Hat. unchanged_store. }
        injection Hrun as <- <-.
        assert (Nat.eqb root a = false) as Hra
          by (apply Nat.eqb_neq; by intros ->).
        assert (Nat.eqb a root = false) as Har
          by (apply Nat.eqb_neq; by intros ->).
        assert (entries_at σ a = marked) as Hat' by (unfold entries_at; by rewrite Ha).
        assert (∀ b, entries_at
                       (put root
                          (YDict (set_entry "onepanel" (YRef a)
                                    (entries_at
                                       (put a (YDict (set_entry "interactiveDeployment"
                                                        (YBool false) marked)) σ) root)))
                          (put a (YDict (set_entry "interactiveDeployment"
                                           (YBool false) marked)) σ)) b
                     = if Nat.eqb b root then entries
                       else if Nat.eqb b a
                            then set_entry "interactiveDeployment" (YBool false) marked
                            else entries_at σ b) as Hafter.
        { intros b. unfold entries_at, put. cbn [object_at].
          destruct (Nat.eqb b root) eqn:Hb.
          - rewrite Hra, Hobject. by apply set_entry_same.
          - by destruct (Nat.eqb b a). }
        split; [done|]. rewrite (Hafter root), Nat.eqb_refl.
        split_and!; [by left | done | by intros ? <- | |].
        -- intros b k [= <-] Hk. rewrite (Hafter a), Har, Nat.eqb_refl, Hat'.
           by rewrite entry_set_ne.
        -- intros b Hb Hnot. unfold put. cbn [object_at].
          rewrite (proj2 (Nat.eqb_neq _ _) Hb).
          destruct (Nat.eqb b a) eqn:Hba; [|done]. by apply Nat.eqb_eq in Hba as ->.
  - (* the key is not there: a new mapping is marked and entered *)
    cbn [new_dict contains_loaded object_at] in Hrun. rewrite !Nat.eqb_refl in Hrun.
    cbn [entry] in Hrun. rewrite bool_decide_eq_false_2 in Hrun by (by intros [? ?]).
    injection Hrun as <- <-.
    assert (Nat.eqb root (unused σ) = false) as Hfresh by (apply Nat.eqb_neq; lia).
    assert (Nat.eqb (unused σ) root = false) as Hfresh' by (apply Nat.eqb_neq; lia).
    split; [done|].
    match goal with
    | |- ((entries_at ?s root).*1 = _ ∨ _) ∧ _ => set (final := s)
    end.
    assert (entries_at final root = set_entry "onepanel" (YRef (unused σ)) entries)
      as Hafter.
    { unfold final, entries_at, put. cbn [object_at]. rewrite Nat.eqb_refl, !Hfresh.
      by rewrite Hobject. }
    rewrite Hafter. split_and!.
    + right. rewrite set_entry_keys, Honepanel.
      by rewrite bool_decide_eq_false_2 by (by intros [? ?]).
    + intros k Hk. by rewrite entry_set_ne.
    + done.
    + done.
    + intros b Hb Hnot. rewrite entry_set_eq in Hnot. unfold final, put. cbn [object_at].
      rewrite (proj2 (Nat.eqb_neq _ _) Hb).
      destruct (Nat.eqb b (unused σ)) eqn:Hbu; [|done].
      apply Nat.eqb_eq in Hbu as ->. done.
Qed.

Lemma get_batch_config_changes_one_object_witness :
  ∃ σ',
    get_batch_config_loaded (YRef 0) aliased_config = (Return (YRef 0), σ')
    ∧ entry "defaults" (entries_at σ' 0) = Some (YRef 1)
    ∧ entry "onepanel" (entries_at σ' 0) = Some (YRef 1)
    ∧ entries_at σ' 1 = [("debug", YBool true); ("interactiveDeployment", YBool false)].
Proof.
  destruct (get_batch_config_loaded (YRef 0) aliased_config) as [config σ'] eqn:Hrun.
  assert (config = Return (YRef 0)) as -> by (by vm_compute in Hrun; injection Hrun as <- _).
  destruct (get_batch_config_changes_one_object 0 aliased_config (YRef 0) σ')
    as (_ & _ & Hrest & Honepanel & _ & _); [vm_compute; lia | done | done | exact Hrun |].
  exists σ'. split; [done|]. split; [by rewrite Hrest|]. split; [by apply Honepanel|].
  vm_compute in Hrun. by injection Hrun as <-.
Defined.

(** X3: an [onepanel] entry that is not a mapping is never given the mark:
    for a null, a number or a boolean, and for a string or a list without
    the key's name in it, [get_batch_config] raises [TypeError]; a string or
    a list that happens to hold the name is passed through as it is. *)
Theorem get_batch_config_onepanel_not_mapping d v :
  Py.lookup "onepanel" d = Some v →
  (∀ o, v ≠ PyDict o) →
  get_batch_config (PyDict d) = Raise TypeError
  ∨ (get_batch_config (PyDict d) = Return (PyDict d)
     ∧ Py.contains "interactiveDeployment" v = Return true).
Proof.
  intros Hv Hnot. assert (d ≠ []) as Hd by (by destruct d).
  rewrite (get_batch_config_dict d Hd), Hv. cbn [default from_option id].
  destruct v as [| | |s|l|o]; try (by left).
  - cbn [Py.contains]. destruct (Py.substring _ s); [by right | by left].
  - cbn [Py.contains]. destruct (existsb _ l); [by right | by left].
  - by destruct (Hnot o).
Qed.

Lemma get_batch_config_onepanel_not_mapping_witness :
  get_batch_config (PyDict [("onepanel", PyNone)]) = Raise TypeError.
Proof.
  destruct (get_batch_config_onepanel_not_mapping [("onepanel", PyNone)] PyNone)
    as [Hraise | [_ Hin]].
  - reflexivity.
  - discriminate.
  - exact Hraise.
  - discriminate Hin.
Defined.

(** ** Wrappers and steps *)

Lemma unwrap_error_on_nodes_witness :
  unwrap_error_with_hosts
    (PyDict [("id", PyStr "errorOnNodes");
             ("details",
              PyDict [("error", PyDict [("id", PyStr "errorOnNodes");
                                        ("description", PyStr "inner");
                                        ("details", errorOnNodes_sample)]);
                      ("hostnames", PyList [PyStr "h3"])])])
  = Return (PyStr "errorOnNodes", PyStr "inner", errorOnNodes_sample, PyList [PyStr "h3"]).
Proof.
  apply (unwrap_error_on_nodes _
           [("error", PyDict [("id", PyStr "errorOnNodes");
                              ("description", PyStr "inner");
                              ("details", errorOnNodes_sample)]);
            ("hostnames", PyList [PyStr "h3"])]
           [("id", PyStr "errorOnNodes"); ("description", PyStr "inner");
            ("details", errorOnNodes_sample)]);
    reflexivity.
Defined.

(** X5: a wrapper that is not complete makes the formatting itself fail: with
    [details.error] there but its [id], its [description] or the wrapper's
    [hostnames] missing, [unwrap_error_with_hosts] raises [KeyError] for the
    first of them that is missing, and so does [format_error]. *)
Theorem unwrap_incomplete_wrapper outer details inner :
  Py.lookup "id" outer = Some (PyStr "errorOnNodes") →
  Py.lookup "details" outer = Some (PyDict details) →
  Py.lookup "error" details = Some (PyDict inner) →
  let missing :=
    if bool_decide (Py.lookup "id" inner = None) then Some "id"
    else if bool_decide (Py.lookup "description" inner = None) then Some "description"
    else if bool_decide (Py.lookup "hostnames" details = None) then Some "hostnames"
    else None in
  ∀ key, missing = Some key →
    unwrap_error_with_hosts (PyDict outer) = Raise (KeyError (PyStr key))
    ∧ format_error (PyDict [("error", PyDict outer)]) = Raise (KeyError (PyStr key)).
Proof.
  intros Hid Hdetails Herror missing key Hkey.
  assert (unwrap_error_with_hosts (PyDict outer) = Raise (KeyError (PyStr key))) as Hunwrap.
  { unfold unwrap_error_with_hosts.
    cbn [Py.get mbind outcome_bind]. rewrite Hid, Hdetails.
    cbn [from_option id Py.eq Py.contains]. rewrite String.eqb_refl.
    rewrite bool_decide_eq_true_2 by (rewrite Herror; eauto).
    cbn [mbind outcome_bind Py.getitem]. rewrite Herror.
    cbn [mbind outcome_bind Py.getitem]. subst missing.
    destruct (Py.lookup "id" inner) as [i|].
    2:{ rewrite bool_decide_eq_true_2 in Hkey by done. by injection Hkey as <-. }
    rewrite bool_decide_eq_false_2 in Hkey by done. cbn [mbind outcome_bind].
    destruct (Py.lookup "description" inner) as [dsc|].
    2:{ rewrite bool_decide_eq_true_2 in Hkey by done. by injection Hkey as <-. }
    rewrite bool_decide_eq_false_2 in Hkey by done. cbn [mbind outcome_bind].
    destruct (Py.lookup "hostnames" details) as [hosts|].
    2:{ rewrite bool_decide_eq_true_2 in Hkey by done. by injection Hkey as <-. }
    by rewrite bool_decide_eq_false_2 in Hkey by done. }
  split; [done|]. unfold format_error. cbn [Py.contains Py.lookup].
  change (String.eqb "error" "error") with true. cbv iota.
  rewrite bool_decide_eq_true_2 by eauto.
  cbn [negb mbind outcome_bind Py.getitem Py.lookup].
  change (String.eqb "error" "error") with true. cbv iota.
  cbn [mbind outcome_bind]. by rewrite Hunwrap.
Qed.

Lemma unwrap_incomplete_wrapper_witness :
  format_error
    (PyDict [("error",
              PyDict [("id", PyStr "errorOnNodes");
                      ("details",
                       PyDict [("error", PyDict [("id", PyStr "X");
                                                 ("description", PyStr "bad thing")])])])])
  = Raise (KeyError (PyStr "hostnames")).
Proof.
  exact (proj2 (unwrap_incomplete_wrapper
                  [("id", PyStr "errorOnNodes");
                   ("details",
                    PyDict [("error", PyDict [("id", PyStr "X");
                                              ("description", PyStr "bad thing")])])]
                  [("error", PyDict [("id", PyStr "X"); ("description", PyStr "bad thing")])]
                  [("id", PyStr "X"); ("description", PyStr "bad thing")]
                  eq_refl eq_refl eq_refl "hostnames" eq_refl)).
Defined.

Lemma split_no_separator c s : Str.count c s = 0%nat → Str.split c s = [s].
Proof.
  induction s as [|a s IH]; [done|]. rewrite count_cons. cbn [Str.split].
  destruct (Ascii.eqb a c); [done|]. intros H. by rewrite IH.
Qed.

Lemma split_at_separator c a b :
  Str.count c a = 0%nat → Str.split c (a +:+ String c b) = a :: Str.split c b.
Proof.
  induction a as [|x a IH].
  - intros _. change ("" +:+ String c b) with (String c b).
    cbn [Str.split]. by rewrite Ascii.eqb_refl.
  - rewrite count_cons.
    change (String x a +:+ String c b) with (String x (a +:+ String c b)).
    cbn [Str.split].
    destruct (Ascii.eqb x c); [done|]. intros H. by rewrite IH.
Qed.

(** X6: [format_step] renders [service:action] as [* service: action] when
    neither part has a [':'], and these are the only strings it renders: it
    returns exactly for the strings with one [':'], and raises the unpacking
    [ValueError] for all others. *)
Theorem format_step_renders :
  (∀ service action,
     Str.count ":" service = 0%nat → Str.count ":" action = 0%nat →
     format_step (PyStr (service +:+ ":" +:+ action))
     = Return ("* " +:+ service +:+ ": " +:+ action))
  ∧ (∀ s, (∃ line, format_step (PyStr s) = Return line) ↔ Str.count ":" s = 1%nat)
  ∧ (∀ s, Str.count ":" s ≠ 1%nat → ∃ message, format_step (PyStr s) = Raise (ValueError message)).
Proof.
  split_and!.
  - intros service action Hs Ha. unfold format_step.
    change (":" +:+ action) with (String ":" action).
    by rewrite (split_at_separator ":" service action Hs), (split_no_separator ":" action Ha).
  - intros s. split.
    + intros [line Hline]. apply format_step_inv in Hline as [Hwf _].
      by apply Nat.eqb_eq in Hwf.
    + intros Hs. destruct (format_step_well_formed s) as (service & action & _ & Hline).
      * by apply Nat.eqb_eq.
      * eauto.
  - intros s Hs. apply format_step_malformed. by apply Nat.eqb_neq.
Qed.

Lemma format_step_renders_witness :
  format_step (PyStr "oz_worker:configure") = Return "* oz_worker: configure"
  ∧ ∃ message, format_step (PyStr "a:b:c") = Raise (ValueError message).
Proof.
  destruct format_step_renders as (Hrender & _ & Hreject). split.
  - apply (Hrender "oz_worker" "configure"); reflexivity.
  - apply (Hreject "a:b:c"). discriminate.
Defined.

(** ** What the wait logs *)

Lemma output_app evs evs' : output (evs ++ evs') = output evs ++ output evs'.
Proof. unfold output. apply flat_map_app. Qed.

Lemma output_written lines : output (written <$> lines) = (λ l, l +:+ LF) <$> lines.
Proof. induction lines as [|l lines IH]; [done|]. cbn. by f_equal. Qed.

Lemma tenth_notes_cons k rp downs :
  tenth_notes k (rp :: downs)
  = (if ((k mod 10) =? 9)%nat then note_of rp else []) ++ tenth_notes (S k) downs.
Proof.
  unfold tenth_notes. rewrite imap_cons. cbn [concat]. rewrite Nat.add_0_r. f_equal.
  f_equal. apply imap_ext. intros i x _. cbn. by rewrite Nat.add_succ_r.
Qed.

Lemma tenth_retry k : (Z.of_nat k mod 10 =? 9) = ((k mod 10) =? 9)%nat.
Proof.
  change 10 with (Z.of_nat 10). rewrite <- Nat2Z.inj_mod.
  change 9 with (Z.of_nat 9).
  destruct (Nat.eqb_spec (k mod 10) 9) as [->|Hne]; [done|].
  apply Z.eqb_neq. lia.
Qed.

(** One failed observation at retry [k], with everything it writes. *)
Lemma wait_loop_not_ready_trace fuel k env p rp net evs :
  env !! EMERGENCY_PASSPHRASE_VARIABLE = Some p →
  not_ready rp = true →
  let new_events :=
    GET_nagios p
    :: (written <$> (if ((k mod 10) =? 9)%nat then note_of rp else [])) ++ [Sleep 1] in
  wait_loop fuel (Z.of_nat k) (World env (rp :: net) evs) =
  if Z.of_nat k + 1 =? 120 then (Raise TIMEOUT, World env net (evs ++ new_events))
  else match fuel with
       | O => (OutOfFuel, World env net (evs ++ new_events))
       | S fuel' =>
           wait_loop fuel' (Z.of_nat (S k)) (World env net (evs ++ new_events))
       end.
Proof.
  intros Hp Hrp new_events. subst new_events. unfold not_ready in Hrp. unfold note_of.
  rewrite wait_loop_unfold, bind_run, (nagios_up_run _ _ _ _ _ _ Hp).
  destruct (observe rp) as [|note|e]; try done.
  rewrite bind_run, sleep_run, tenth_retry.
  replace (Z.of_nat (S k)) with (Z.of_nat k + 1) by lia.
  replace ((evs ++ GET_nagios p :: (if (k mod 10 =? 9)%nat then written <$> note else []))
           ++ [Sleep 1])
    with (evs ++ GET_nagios p
              :: (written <$> (if (k mod 10 =? 9)%nat then note else [])) ++ [Sleep 1]).
  2:{ rewrite <- app_assoc. by destruct (k mod 10 =? 9)%nat. }
  destruct (Z.of_nat k + 1 =? 120); [done|]. by destruct fuel.
Qed.

Lemma wait_loop_timeout_trace env p rest downs :
  env !! EMERGENCY_PASSPHRASE_VARIABLE = Some p →
  forallb not_ready downs = true →
  ∀ fuel k evs,
    downs ≠ [] →
    (k + length downs = 120)%nat →
    (length downs ≤ S fuel)%nat →
    ∃ new_events,
      wait_loop fuel (Z.of_nat k) (World env (downs ++ rest) evs)
      = (Raise TIMEOUT, World env rest (evs ++ new_events))
      ∧ output new_events = (λ l, l +:+ LF) <$> tenth_notes k downs.
Proof.
  intros Hp. induction downs as [|rp downs IH]; intros Hdowns fuel k evs Hne Hk Hfuel;
    [done|].
  cbn [forallb] in Hdowns. apply andb_true_iff in Hdowns as [Hrp Hdowns].
  cbn [app]. rewrite (wait_loop_not_ready_trace _ _ _ _ _ _ _ Hp Hrp). cbn zeta.
  cbn [length] in *. rewrite tenth_notes_cons.
  set (ev1 := GET_nagios p :: _ ++ [Sleep 1]).
  assert (output ev1 = (λ l, l +:+ LF) <$> (if (k mod 10 =? 9)%nat then note_of rp else []))
    as Hout.
  { subst ev1.
    change (GET_nagios p :: ?l ++ [Sleep 1]) with ([GET_nagios p] ++ l ++ [Sleep 1]).
    rewrite !output_app, output_written.
    change (output [GET_nagios p]) with (@nil string).
    change (output [Sleep 1]) with (@nil string).
    cbn [app]. by rewrite app_nil_r. }
  destruct downs as [|rp' downs].
  - destruct (Z.eqb_spec (Z.of_nat k + 1) 120) as [_|Hne']; [|cbn [length] in Hk; lia].
    exists ev1. split; [done|]. rewrite Hout. unfold tenth_notes. cbn. by rewrite app_nil_r.
  - destruct (Z.eqb_spec (Z.of_nat k + 1) 120) as [Heq|_]; [cbn [length] in Hk; lia|].
    destruct fuel as [|fuel]; [cbn [length] in Hfuel; lia|].
    destruct (IH Hdowns fuel (S k) (evs ++ ev1)) as (ev2 & Hrun & Hout2).
    + done.
    + cbn [length] in *. lia.
    + cbn [length] in *. lia.
    + exists (ev1 ++ ev2). rewrite app_assoc. split; [done|].
      by rewrite output_app, Hout, Hout2, fmap_app.
Qed.

Lemma note_of_length rp : (length (note_of rp) ≤ 1)%nat.
Proof.
  unfold note_of, observe. destruct rp as [r|]; [|done].
  destruct (is_auth_status (status_code r)); [done|].
  destruct (negb (ok r)); [done|].
  destruct (xml_attrib r) as [a|]; [|cbn; lia].
  destruct (attrib_get "status" a) as [s|]; [|cbn; lia].
  destruct (String.eqb s "ok"); cbn; lia.
Qed.

Lemma tenth_notes_length k downs :
  (length (tenth_notes k downs) ≤ (k + length downs) / 10 - k / 10)%nat.
Proof.
  revert k. induction downs as [|rp downs IH]; intros k.
  - unfold tenth_notes. cbn. lia.
  - pose proof (note_of_length rp) as Hshort. specialize (IH (S k)).
    rewrite tenth_notes_cons, length_app. cbn [length].
    replace (k + S (length downs))%nat with (S k + length downs)%nat by lia.
    assert (length (if (k mod 10 =? 9)%nat then note_of rp else [])
            ≤ S k / 10 - k / 10)%nat; [|
      assert (k / 10 ≤ S k / 10)%nat by (apply Nat.Div0.div_le_mono; lia);
      assert (S k / 10 ≤ (S k + length downs) / 10)%nat
        by (apply Nat.Div0.div_le_mono; lia);
      lia].
    destruct (Nat.eqb_spec (k mod 10) 9) as [Hnine|_]; [|cbn; lia].
    assert (S k / 10 = S (k / 10))%nat; [|lia].
    pose proof (Nat.div_mod_eq k 10) as Hk.
    replace (S k) with ((S (k / 10)) * 10 + 0)%nat at 1 by lia.
    rewrite Nat.div_add_l by done. cbn. lia.
Qed.

(** X7: a wait that times out logs at most twelve lines: of its 120 failed
    observations only the tenth, twentieth, ... write their notice, and
    those that failed on the health document's [status] write none at all. *)
Theorem wait_logs_every_tenth_failure env p downs rest evs :
  env !! EMERGENCY_PASSPHRASE_VARIABLE = Some p →
  length downs = 120%nat →
  forallb not_ready downs = true →
  ∃ new_events,
    wait_for_workers (World env (downs ++ rest) evs)
    = (Raise TIMEOUT, World env rest (evs ++ new_events))
    ∧ output new_events = (λ l, l +:+ LF) <$> tenth_notes 0 downs
    ∧ (length (output new_events) ≤ 12)%nat.
Proof.
  intros Hp Hlen Hdowns. unfold wait_for_workers.
  destruct (wait_loop_timeout_trace env p rest downs Hp Hdowns 120 0%nat evs)
    as (new_events & Hrun & Hout).
  - intros ->. done.
  - lia.
  - lia.
  - exists new_events. split_and!; [done|done|].
    rewrite Hout, length_fmap.
    pose proof (tenth_notes_length 0 downs) as Hbound. rewrite Hlen in Hbound.
    change ((0 + 120) / 10 - 0 / 10)%nat with 12%nat in Hbound. done.
Qed.

Lemma wait_logs_every_tenth_failure_witness :
  ∃ new_events,
    wait_for_workers (World secret_environ (replicate 120 NoConnection ++ []) [])
    = (Raise TIMEOUT, World secret_environ [] ([] ++ new_events))
    ∧ output new_events = replicate 12 (NOT_REACHABLE +:+ LF).
Proof.
  destruct (wait_logs_every_tenth_failure secret_environ "secret"
              (replicate 120 NoConnection) [] [] eq_refl eq_refl eq_refl)
    as (new_events & Hrun & Hout & _).
  exists new_events. split; [exact Hrun|].
  refine (eq_trans Hout _). vm_compute. reflexivity.
Defined.

(** ** What the result of [configure] tells *)

Lemma eq_true_str v s : Py.eq v (PyStr s) = true → v = PyStr s.
Proof.
  destruct v; try done. cbn. intros H. apply String.eqb_eq in H. by subst.
Qed.

(** The state a poll loop returns is the one it started in, or the one made
    from the last reply it took. *)
Lemma poll_loop_last fuel loc st w st' w' :
  poll_loop fuel loc st w = (Return st', w') →
  (st' = st ∧ w' = w)
  ∨ ∃ consumed r d,
      network w = consumed ++ Answer r :: network w'
      ∧ json r = Some (PyDict d) ∧ st' = round_state d.
Proof.
  revert st w. induction fuel as [|fuel IH]; intros st w H.
  - cbn [poll_loop] in H. destruct (Py.eq (status st) (PyStr "running")); [done|].
    injection H as <- <-. by left.
  - destruct (Py.eq (status st) (PyStr "running")) eqn:Hst.
    2:{ rewrite poll_loop_stop in H by done. injection H as <- <-. by left. }
    rewrite poll_loop_step in H by done.
    destruct (poll_once loc st w) as [[st1|e| |] w1] eqn:Honce; try done.
    apply poll_once_inv in Honce as (_ & ev1 & lines & _ & _ & _ & _ & _ & Hret).
    destruct (Hret st1 eq_refl) as (r & d & p & Hnet & _ & _ & Hjson & -> & _).
    right. apply IH in H as [[-> ->] | (consumed & r' & d' & Hnet' & Hjson' & ->)].
    + by exists [], r, d.
    + exists (Answer r :: consumed), r', d'. split_and!; [|done|done].
      by rewrite Hnet, Hnet'.
Qed.

(** What the submission takes from the service and asks of it: a prefix of
    the replies, and no GET. *)
Lemma configure_submit_inv config w o w1 :
  configure_submit config w = (o, w1) →
  ∃ taken new_events,
    network w = taken ++ network w1
    ∧ events w1 = events w ++ new_events
    ∧ gets new_events = 0%nat.
Proof.
  destruct w as [env net evs]. cbn [network events].
  destruct (env !! EMERGENCY_PASSPHRASE_VARIABLE) as [p|] eqn:Hp.
  2:{ unfold configure_submit.
      rewrite bind_run, get_emergency_passphrase_run. cbn [environ]. rewrite Hp.
      intros [= <- <-]. exists [], []. by rewrite app_nil_r. }
  rewrite (configure_submit_run _ _ _ _ _ Hp). cbn zeta.
  destruct net as [|[rput|] net].
  - intros [= <- <-]. by exists [], [PUT_passphrase p].
  - destruct (is_auth_status (status_code rput)).
    { intros [= <- <-]. by exists [Answer rput], [PUT_passphrase p]. }
    destruct (negb (ok rput)).
    { intros [= <- <-]. by exists [Answer rput], [PUT_passphrase p]. }
    destruct net as [|[rpost|] net].
    + intros [= <- <-].
      exists [Answer rput], [PUT_passphrase p; POST_configuration p config].
      by rewrite <- app_assoc.
    + intros [= <- <-].
      exists [Answer rput; Answer rpost], [PUT_passphrase p; POST_configuration p config].
      by rewrite <- app_assoc.
    + intros [= <- <-].
      exists [Answer rput; NoConnection], [PUT_passphrase p; POST_configuration p config].
      by rewrite <- app_assoc.
  - intros [= <- <-]. by exists [NoConnection], [PUT_passphrase p].
Qed.

(** X8: [configure] returns [True] only when the last reply it took was a
    JSON object whose [status] is ['ok'], and it returns [False] only
    without having polled at all. *)
Theorem configure_result_meaning config w w' :
  (configure config w = (Return true, w') →
   ∃ taken r d,
     network w = taken ++ Answer r :: network w'
     ∧ json r = Some (PyDict d)
     ∧ Py.lookup "status" d = Some (PyStr "ok"))
  ∧ (configure config w = (Return false, w') →
     ∃ new_events, events w' = events w ++ new_events ∧ gets new_events = 0%nat).
Proof.
  unfold configure. rewrite bind_run.
  destruct (configure_submit config w) as [o w1] eqn:Hsubmit.
  apply configure_submit_inv in Hsubmit as (taken & ev1 & Hnet & Hev & Hgets).
  destruct o as [[loc|]|e| |]; try (by split).
  - destruct w1 as [env1 net1 evs1]. cbn [network events] in *.
    rewrite configure_poll_run.
    destruct (poll_loop _ _ _ _) as [[st|e| |] w2] eqn:Hloop; try (by split).
    split.
    + intros [= Hconclude <-].
      assert (Py.eq (status st) (PyStr "ok") = true) as Hok.
      { unfold conclude in Hconclude.
        destruct (Py.eq (status st) (PyStr "ok")); [done|]. cbn [negb] in Hconclude.
        by destruct (format_error (resp st)). }
      apply poll_loop_last in Hloop as [[-> _] | (consumed & r & d & Hnet' & Hjson & ->)];
        [done|].
      cbn [network] in Hnet'. exists (taken ++ consumed), r, d. split_and!.
      * by rewrite Hnet, Hnet', app_assoc.
      * done.
      * apply eq_true_str in Hok. cbn [status round_state] in Hok.
        unfold status_of in Hok.
        destruct (Py.lookup "status" d) as [v|]; cbn in Hok; [by subst|done].
    + intros [= Hconclude <-]. exfalso. unfold conclude in Hconclude.
      destruct (negb _); [|done]. by destruct (format_error (resp st)).
  - split; [done|]. intros [= <-]. by exists ev1.
Qed.

Lemma configure_result_meaning_witness :
  ∃ taken r d,
    [Answer no_content; Answer (created "/tasks/1"); Answer pending; Answer finished]
    = taken ++ Answer r :: []
    ∧ json r = Some (PyDict d)
    ∧ Py.lookup "status" d = Some (PyStr "ok").
Proof.
  apply (proj1 (configure_result_meaning (PyDict [])
                  (World secret_environ
                     [Answer no_content; Answer (created "/tasks/1");
                      Answer pending; Answer finished] [])
                  (World secret_environ []
                     [PUT_passphrase "secret"; POST_configuration "secret" (PyDict []);
                      written HEADER;
                      GET_task "secret" "/tasks/1"; written "* oz_panel: deploy"; Sleep 1;
                      GET_task "secret" "/tasks/1"; Sleep 1]))).
  vm_compute. reflexivity.
Defined.

(** ** Waiting for the listener *)

Lemma listener_round_refused fuel first env net evs :
  listener_loop (S fuel) first false (World env (NoConnection :: net) evs)
  = listener_loop fuel false false
      (World env net
         (evs ++ GET_listener :: (if first then [written WAITING_NOTICE] else [])
              ++ [Sleep 1])).
Proof.
  cbn [listener_loop negb]. rewrite bind_run. unfold try_except.
  rewrite bind_run, send_run. cbn zeta. cbn [is_ConnectionError].
  fold GET_listener. destruct first; cbn [when].
  - rewrite bind_run, log_run, bind_run, sleep_run. cbn [mret io_ret fst snd].
    by rewrite <- !app_assoc.
  - rewrite bind_run. cbn [mret io_ret]. rewrite bind_run, sleep_run.
    cbn [mret io_ret fst snd]. by rewrite <- !app_assoc.
Qed.

Lemma listener_round_answered fuel first env r net evs :
  listener_loop (S fuel) first false (World env (Answer r :: net) evs)
  = (Return tt, World env net (evs ++ [GET_listener])).
Proof.
  cbn [listener_loop negb]. rewrite bind_run. unfold try_except.
  rewrite bind_run, send_run. cbn zeta. cbn [mret io_ret fst snd].
  by destruct fuel.
Qed.

Lemma listener_loop_retries n r rest :
  ∀ fuel env evs,
    (n < fuel)%nat →
    listener_loop fuel false false
      (World env (replicate n NoConnection ++ Answer r :: rest) evs)
    = (Return tt, World env rest (evs ++ GET_listener :: listener_retries n)).
Proof.
  induction n as [|n IH]; intros fuel env evs Hfuel;
    (destruct fuel as [|fuel]; [lia|]).
  - cbn [replicate app]. apply listener_round_answered.
  - cbn [replicate app]. rewrite listener_round_refused, IH by lia.
    cbn [listener_retries app]. by rewrite <- !app_assoc.
Qed.

(** X9: [wait_for_rest_listener] returns on the first request that is
    answered at all, whatever the status of the answer; until then it sleeps
    one second after every refused connection, and it prints its notice
    once, after the first refusal. *)
Theorem wait_for_rest_listener_first_answer env n r rest evs :
  wait_for_rest_listener (World env (replicate n NoConnection ++ Answer r :: rest) evs)
  = (Return tt, World env rest (evs ++ listener_trace n))
  ∧ output (listener_trace n) = (if n is O then [] else [WAITING_NOTICE +:+ LF])
  ∧ pace (listener_trace n) = GET_listener :: listener_retries n.
Proof.
  assert (∀ m, output (listener_retries m) = [] ∧ pace (listener_retries m) = listener_retries m)
    as Hretries.
  { induction m as [|m [IH1 IH2]]; [done|]. split; [exact IH1|].
    cbn [listener_retries]. unfold pace in *. cbn [List.filter is_Stdout negb].
    change (is_Stdout GET_listener) with false. cbn [negb]. by rewrite IH2. }
  split_and!.
  - unfold wait_for_rest_listener. rewrite bind_run. unfold replies_left at 1.
    cbn [network]. rewrite length_app, length_replicate. cbn [length].
    destruct n as [|n].
    + cbn [replicate app]. apply listener_round_answered.
    + cbn [replicate app Nat.add]. rewrite listener_round_refused.
      rewrite listener_loop_retries by lia.
      cbn [listener_trace listener_retries app]. by rewrite <- !app_assoc.
  - destruct n as [|n]; [done|]. cbn [listener_trace].
    change (output (GET_listener :: written WAITING_NOTICE :: listener_retries (S n)))
      with ((WAITING_NOTICE +:+ LF) :: output (listener_retries (S n))).
    by rewrite (proj1 (Hretries (S n))).
  - destruct n as [|n]; [done|]. cbn [listener_trace].
    change (pace (GET_listener :: written WAITING_NOTICE :: listener_retries (S n)))
      with (GET_listener :: pace (listener_retries (S n))).
    by rewrite (proj2 (Hretries (S n))).
Qed.

Example wait_for_rest_listener_sample :
  wait_for_rest_listener
    (World ∅ [NoConnection; NoConnection; Answer server_error; Answer no_content] [])
  = (Return tt,
     World ∅ [Answer no_content]
       [GET_listener; written WAITING_NOTICE; Sleep 1;
        GET_listener; Sleep 1; GET_listener]).
Proof. vm_compute. reflexivity. Qed.

(** ** The batch deployment *)

Lemma batch_deployment_on existed document config w mode :
  environ w !! "ONEPANEL_BATCH_MODE" = Some mode →
  lowercase mode = "true" →
  get_batch_config document = Return config →
  batch_deployment existed document w =
  match (started ← configure config;
         if started : bool then log CONGRATULATIONS
         else log WAITING_FOR_CLUSTER;; wait_for_workers;; log RESUMED) w with
  | (Raise (AuthenticationError _), w') => log NO_ACCESS w'
  | (Raise (MissingVariableError variable_name), w') =>
      if negb (String.eqb variable_name EMERGENCY_PASSPHRASE_VARIABLE)
      then (Raise (MissingVariableError variable_name), w')
      else if existed then log MISSING_ON_EXISTING w' else log MISSING_ON_NEW w'
  | other => other
  end.
Proof.
  intros Hmode Hlower Hconfig. unfold batch_deployment.
  rewrite bind_run. unfold getenv at 1. rewrite Hmode. cbn [default from_option id].
  rewrite Hlower. change (String.eqb "true" "true") with true. cbv iota.
  rewrite pure_bind_run, Hconfig. unfold try_except.
  destruct ((configure config ≫= _) w) as [[[]|e| |] w']; try done.
  destruct e; try done.
  cbn [deployment_handled]. destruct (negb _); [done|]. by destruct existed.
Qed.

Lemma rejecting_not_ready rp :
  rejecting rp = true → not_ready rp = true ∧ note_of rp = [NOT_REACHABLE].
Proof.
  destruct rp as [r|]; [|done]. cbn [rejecting]. intros H.
  unfold not_ready, note_of, observe. by rewrite H.
Qed.

Lemma tenth_notes_Forall (P : string → Prop) k downs :
  Forall (λ rp, Forall P (note_of rp)) downs → Forall P (tenth_notes k downs).
Proof.
  intros H. revert k. induction H as [|rp downs Hrp _ IH]; intros k.
  - constructor.
  - rewrite tenth_notes_cons. apply Forall_app. split; [|apply IH].
    destruct (k mod 10 =? 9)%nat; [done | constructor].
Qed.

(** X10: when the passphrase is rejected everywhere, the batch deployment
    does not end in the guidance about credentials.  The rejected attempt to
    set the passphrase is taken for an existing deployment, each of the 120
    rejected health requests counts as a service that is not reachable, and
    the run fails with the readiness timeout, having written only the
    waiting line and twelve notices that the service is not reachable. *)
Theorem rejected_passphrase_ends_in_timeout existed document config env p mode
    rput downs rest evs :
  env !! EMERGENCY_PASSPHRASE_VARIABLE = Some p →
  env !! "ONEPANEL_BATCH_MODE" = Some mode →
  lowercase mode = "true" →
  get_batch_config document = Return config →
  is_auth_status (status_code rput) = true →
  length downs = 120%nat →
  forallb rejecting downs = true →
  ∃ new_events,
    batch_deployment existed document (World env (Answer rput :: downs ++ rest) evs)
    = (Raise TIMEOUT, World env rest (evs ++ new_events))
    ∧ output new_events
      = (WAITING_FOR_CLUSTER +:+ LF) :: ((λ l, l +:+ LF) <$> tenth_notes 0 downs)
    ∧ Forall (λ l, l = NOT_REACHABLE) (tenth_notes 0 downs).
Proof.
  intros Hp Hmode Hlower Hconfig Hput Hlen Hdowns.
  assert (forallb not_ready downs = true
          ∧ Forall (λ rp, Forall (λ l, l = NOT_REACHABLE) (note_of rp)) downs)
    as [Hnot Hnotes].
  { clear Hlen. induction downs as [|rp downs IH]; [by split|].
    cbn [forallb] in Hdowns. apply andb_true_iff in Hdowns as [Hrp Hdowns].
    destruct (rejecting_not_ready rp Hrp) as [Hn Hnote]. destruct (IH Hdowns) as [IH1 IH2].
    split; [cbn [forallb]; by rewrite Hn, IH1|].
    constructor; [|done]. rewrite Hnote. constructor; [done|constructor]. }
  destruct (wait_loop_timeout_trace env p rest downs Hp Hnot 120 0%nat
              ((evs ++ [PUT_passphrase p]) ++ [written WAITING_FOR_CLUSTER]))
    as (ev & Hwait & Hout); [by intros ->|lia|lia|].
  exists ([PUT_passphrase p; written WAITING_FOR_CLUSTER] ++ ev).
  split_and!.
  - rewrite (batch_deployment_on _ _ config _ mode) by done.
    rewrite bind_run. unfold configure.
    rewrite bind_run, (configure_submit_run _ _ _ _ _ Hp). cbn zeta.
    rewrite Hput. cbn [mret io_ret].
    rewrite bind_run, log_run, bind_run. unfold wait_for_workers.
    change 0 with (Z.of_nat 0). rewrite Hwait.
    by rewrite <- !app_assoc.
  - rewrite output_app, Hout. reflexivity.
  - by apply tenth_notes_Forall.
Qed.

Lemma rejected_passphrase_ends_in_timeout_witness :
  ∃ new_events,
    batch_deployment true sample_document
      (World batch_environ (Answer denied :: replicate 120 (Answer denied) ++ []) [])
    = (Raise TIMEOUT, World batch_environ [] ([] ++ new_events))
    ∧ output new_events
      = (WAITING_FOR_CLUSTER +:+ LF) :: replicate 12 (NOT_REACHABLE +:+ LF).
Proof.
  destruct (rejected_passphrase_ends_in_timeout true sample_document sample_config
              batch_environ "wrong" "True" denied (replicate 120 (Answer denied)) [] []
              eq_refl eq_refl eq_refl eq_refl eq_refl eq_refl eq_refl)
    as (new_events & Hrun & Hout & _).
  exists new_events. split; [exact Hrun|].
  refine (eq_trans Hout _). vm_compute. reflexivity.
Defined.

(** X11: without the passphrase variable the batch deployment sends nothing
    and does not fail: it writes one of two explanations, by whether the
    configuration file was there before, and returns. *)
Theorem batch_deployment_without_passphrase existed document config w mode :
  environ w !! "ONEPANEL_BATCH_MODE" = Some mode →
  lowercase mode = "true" →
  get_batch_config document = Return config →
  environ w !! EMERGENCY_PASSPHRASE_VARIABLE = None →
  batch_deployment existed document w
  = (Return tt,
     World (environ w) (network w)
       (events w ++ [written (if existed then MISSING_ON_EXISTING else MISSING_ON_NEW)])).
Proof.
  intros Hmode Hlower Hconfig Hp.
  rewrite (batch_deployment_on _ _ config _ mode) by done.
  rewrite bind_run, (configure_missing_passphrase _ _ Hp).
  change (String.eqb EMERGENCY_PASSPHRASE_VARIABLE EMERGENCY_PASSPHRASE_VARIABLE) with true.
  cbn [negb]. destruct w as [env net evs]. by destruct existed.
Qed.

Lemma batch_deployment_without_passphrase_witness :
  batch_deployment false sample_document (World bare_environ [Answer no_content] [])
  = (Return tt, World bare_environ [Answer no_content] [written MISSING_ON_NEW]).
Proof.
  apply (batch_deployment_without_passphrase false sample_document sample_config
           (World bare_environ [Answer no_content] []) "true");
    reflexivity.
Defined.

(** X12: an authentication error out of [configure], from the configuration
    request or from any request of the poll, does not fail the batch
    deployment: the guidance about the passphrase is written and the
    deployment part returns. *)
Theorem batch_deployment_authentication_error existed document config w mode message w' :
  environ w !! "ONEPANEL_BATCH_MODE" = Some mode →
  lowercase mode = "true" →
  get_batch_config document = Return config →
  configure config w = (Raise (AuthenticationError message), w') →
  batch_deployment existed document w
  = (Return tt, World (environ w') (network w') (events w' ++ [written NO_ACCESS])).
Proof.
  intros Hmode Hlower Hconfig Hconfigure.
  rewrite (batch_deployment_on _ _ config _ mode) by done.
  rewrite bind_run, Hconfigure. by destruct w'.
Qed.

Lemma batch_deployment_authentication_error_witness :
  batch_deployment true sample_document
    (World batch_environ
       [Answer no_content; Answer (created "/tasks/1"); Answer pending; Answer denied;
        Answer finished] [])
  = (Return tt,
     World batch_environ [Answer finished]
       [PUT_passphrase "wrong"; POST_configuration "wrong" sample_config;
        written HEADER;
        GET_task "wrong" "/tasks/1"; written "* oz_panel: deploy"; Sleep 1;
        GET_task "wrong" "/tasks/1"; written NO_ACCESS]).
Proof.
  refine (batch_deployment_authentication_error true sample_document sample_config
            (World batch_environ
               [Answer no_content; Answer (created "/tasks/1"); Answer pending;
                Answer denied; Answer finished] [])
            "True"
            ("Authentication error." +:+ LF
             +:+ "Please ensure that valid emergency passphrase is present" +:+ LF
             +:+ "in the " +:+ EMERGENCY_PASSPHRASE_VARIABLE +:+ " environment variable")
            (World batch_environ [Answer finished]
               [PUT_passphrase "wrong"; POST_configuration "wrong" sample_config;
                written HEADER;
                GET_task "wrong" "/tasks/1"; written "* oz_panel: deploy"; Sleep 1;
                GET_task "wrong" "/tasks/1"])
            eq_refl eq_refl eq_refl _).
  vm_compute. reflexivity.
Defined.

Lemma wait_loop_ready_trace env p rest rp downs :
  env !! EMERGENCY_PASSPHRASE_VARIABLE = Some p →
  forallb not_ready downs = true →
  ready rp = true →
  ∀ fuel k evs,
    (k + length downs < 120)%nat →
    (length downs ≤ fuel)%nat →
    ∃ new_events,
      wait_loop fuel (Z.of_nat k) (World env (downs ++ rp :: rest) evs)
      = (Return tt, World env rest (evs ++ new_events))
      ∧ output new_events = (λ l, l +:+ LF) <$> tenth_notes k downs
      ∧ pace new_events = attempts p (length downs) ++ [GET_nagios p].
Proof.
  intros Hp Hdowns Hready.
  induction downs as [|rp' downs IH]; intros fuel k evs Hk Hfuel.
  - cbn [app length attempts]. unfold ready in Hready.
    rewrite wait_loop_unfold, bind_run, (nagios_up_run _ _ _ _ _ _ Hp).
    destruct (observe rp); try done. by exists [GET_nagios p].
  - cbn [forallb] in Hdowns. apply andb_true_iff in Hdowns as [Hrp Hdowns].
    cbn [app]. rewrite (wait_loop_not_ready_trace _ _ _ _ _ _ _ Hp Hrp). cbn zeta.
    cbn [length] in *. rewrite tenth_notes_cons.
    set (ev1 := GET_nagios p :: _ ++ [Sleep 1]).
    assert (output ev1 = (λ l, l +:+ LF) <$> (if (k mod 10 =? 9)%nat then note_of rp' else [])
            ∧ pace ev1 = [GET_nagios p; Sleep 1]) as [Hout Hpace].
    { subst ev1.
      change (GET_nagios p :: ?l ++ [Sleep 1]) with ([GET_nagios p] ++ l ++ [Sleep 1]).
      rewrite !output_app, output_written, !pace_app, pace_written.
      change (output [GET_nagios p]) with (@nil string).
      change (output [Sleep 1]) with (@nil string).
      cbn [app]. by rewrite app_nil_r. }
    destruct (Z.eqb_spec (Z.of_nat k + 1) 120) as [Heq|_]; [lia|].
    destruct fuel as [|fuel]; [lia|].
    destruct (IH Hdowns fuel (S k) (evs ++ ev1)) as (ev2 & Hrun & Hout2 & Hpace2);
      [lia|lia|].
    exists (ev1 ++ ev2). rewrite app_assoc. split_and!; [done| |].
    + by rewrite output_app, Hout, Hout2, fmap_app.
    + rewrite pace_app, Hpace, Hpace2. reflexivity.
Qed.

(** X13: a deployment that is already there is waited for.  When setting
    the passphrase is rejected, or the configuration request is answered
    with 409, nothing is polled; the health of the service is asked for
    instead, and the first observation that is ok, after fewer than 120
    that are not, ends the batch deployment with the line that the existing
    deployment has resumed. *)
Theorem batch_deployment_existing existed document config env p mode
    submitted_to downs rp rest evs :
  env !! EMERGENCY_PASSPHRASE_VARIABLE = Some p →
  env !! "ONEPANEL_BATCH_MODE" = Some mode →
  lowercase mode = "true" →
  get_batch_config document = Return config →
  (∃ rput, submitted_to = [Answer rput] ∧ is_auth_status (status_code rput) = true)
  ∨ (∃ rput rpost, submitted_to = [Answer rput; Answer rpost]
                   ∧ ok rput = true ∧ status_code rpost = conflict) →
  (length downs < 120)%nat →
  forallb not_ready downs = true →
  ready rp = true →
  ∃ new_events,
    batch_deployment existed document
      (World env (submitted_to ++ downs ++ rp :: rest) evs)
    = (Return tt, World env rest (evs ++ new_events))
    ∧ output new_events
      = (WAITING_FOR_CLUSTER +:+ LF)
        :: ((λ l, l +:+ LF) <$> tenth_notes 0 downs) ++ [RESUMED +:+ LF]
    ∧ pace new_events
      = (if submitted_to is [_] then [PUT_passphrase p]
         else [PUT_passphrase p; POST_configuration p config])
        ++ attempts p (length downs) ++ [GET_nagios p].
Proof.
  intros Hp Hmode Hlower Hconfig Hsubmitted Hlen Hdowns Hready.
  set (asked := if submitted_to is [_] then [PUT_passphrase p]
                else [PUT_passphrase p; POST_configuration p config]).
  assert (configure config (World env (submitted_to ++ downs ++ rp :: rest) evs)
          = (Return false, World env (downs ++ rp :: rest) (evs ++ asked))) as Hconfigure.
  { unfold configure. rewrite bind_run.
    destruct Hsubmitted as [(rput & -> & Hput) | (rput & rpost & -> & Hput & Hpost)].
    - cbn [app]. rewrite (configure_submit_run _ _ _ _ _ Hp). cbn zeta. by rewrite Hput.
    - cbn [app]. rewrite (configure_submit_run _ _ _ _ _ Hp). cbn zeta.
      rewrite (success_not_auth _ Hput), Hput. cbn [negb]. unfold submitted.
      rewrite Hpost. change (is_auth_status conflict) with false.
      change (conflict =? conflict) with true. cbv iota. cbn [mret io_ret].
      by rewrite <- app_assoc. }
  destruct (wait_loop_ready_trace env p rest rp downs Hp Hdowns Hready 120 0%nat
              ((evs ++ asked) ++ [written WAITING_FOR_CLUSTER]))
    as (ev & Hwait & Hout & Hpace); [lia|lia|].
  exists (asked ++ [written WAITING_FOR_CLUSTER] ++ ev ++ [written RESUMED]).
  split_and!.
  - rewrite (batch_deployment_on _ _ config _ mode) by done.
    rewrite bind_run, Hconfigure.
    rewrite bind_run, log_run, bind_run. unfold wait_for_workers.
    change 0 with (Z.of_nat 0). rewrite Hwait, log_run.
    by rewrite <- !app_assoc.
  - rewrite !output_app, Hout.
    assert (output asked = []) as ->.
    { subst asked. by destruct submitted_to as [|? [|? ?]]. }
    reflexivity.
  - rewrite !pace_app, Hpace.
    assert (pace asked = asked) as ->.
    { subst asked. by destruct submitted_to as [|? [|? ?]]. }
    change (pace [written WAITING_FOR_CLUSTER]) with (@nil event).
    change (pace [written RESUMED]) with (@nil event).
    cbn [app]. by rewrite app_nil_r.
Qed.

Lemma batch_deployment_existing_witness :
  ∃ new_events,
    batch_deployment true sample_document
      (World batch_environ
         ([Answer no_content; Answer (Response 409 [] "" None None)]
          ++ [NoConnection; Answer unavailable] ++ Answer healthy :: []) [])
    = (Return tt, World batch_environ [] ([] ++ new_events))
    ∧ output new_events = [WAITING_FOR_CLUSTER +:+ LF; RESUMED +:+ LF].
Proof.
  destruct (batch_deployment_existing true sample_document sample_config
              batch_environ "wrong" "True"
              [Answer no_content; Answer (Response 409 [] "" None None)]
              [NoConnection; Answer unavailable] (Answer healthy) [] []
              eq_refl eq_refl eq_refl eq_refl)
    as (new_events & Hrun & Hout & _).
  - right. by exists no_content, (Response 409 [] "" None None).
  - cbn. lia.
  - reflexivity.
  - reflexivity.
  - exists new_events. split; [exact Hrun|]. refine (eq_trans Hout _). reflexivity.
Defined.

(** ** The files of the container *)

Lemma sh_bind_run {A B} (m : sh A) (f : A → sh B) h :
  (m ≫= f) h = match m h with
               | (Done a, h') => f a h'
               | (Failed e, h') => (Failed e, h')
               end.
Proof. reflexivity. Qed.

Lemma lacks_app c a b : lacks c (a +:+ b) = lacks c a && lacks c b.
Proof.
  induction a as [|x a IH]; [done|].
  rewrite append_cons. cbn [lacks]. by rewrite IH, andb_assoc.
Qed.

(** *** Universal newlines *)

Lemma universal_newlines_lacks_cr b s : lacks CR (universal_newlines b s) = true.
Proof.
  revert b. induction s as [|c s IH]; intros b; [done|]. cbn [universal_newlines].
  destruct (Ascii.eqb c CR) eqn:Hc.
  - cbn [lacks]. by rewrite IH.
  - destruct (b && Ascii.eqb c NL); [apply IH|].
    cbn [lacks]. by rewrite Hc, IH.
Qed.

Lemma universal_newlines_plain s :
  lacks CR s = true → universal_newlines false s = s.
Proof.
  induction s as [|c s IH]; [done|]. cbn [lacks universal_newlines].
  intros [Hc Hs]%andb_true_iff. apply negb_true_iff in Hc. rewrite Hc.
  cbn [andb]. by rewrite IH.
Qed.

(** *** Prefixes and lines *)

Lemma prefix_app p r : Py.prefix p (p +:+ r) = true.
Proof.
  induction p as [|c p IH]; [done|]. rewrite append_cons. cbn [Py.prefix].
  by rewrite Ascii.eqb_refl, IH.
Qed.

Lemma prefix_inv p s : Py.prefix p s = true → ∃ r, s = p +:+ r.
Proof.
  revert s. induction p as [|c p IH]; intros s H; [by exists s|].
  destruct s as [|x s]; [done|]. cbn [Py.prefix] in H.
  apply andb_true_iff in H as [Hc Hp]. apply Ascii.eqb_eq in Hc as ->.
  destruct (IH s Hp) as [r ->]. by exists r.
Qed.

Lemma drop_prefix_prefix p s :
  Re.drop_prefix p s = if Py.prefix p s then Re.drop_prefix p s else None.
Proof.
  revert s. induction p as [|c p IH]; intros s; [done|].
  destruct s as [|x s]; [done|]. cbn [Re.drop_prefix Py.prefix].
  destruct (Ascii.eqb c x); [apply IH|done].
Qed.

Lemma drop_prefix_app p r : Re.drop_prefix p (p +:+ r) = Some r.
Proof.
  induction p as [|c p IH]; [done|]. rewrite append_cons. cbn [Re.drop_prefix].
  by rewrite Ascii.eqb_refl.
Qed.

Lemma drop_prefix_inv p s r : Re.drop_prefix p s = Some r → s = p +:+ r.
Proof.
  revert s. induction p as [|c p IH]; intros s H.
  - cbn in H. by injection H as ->.
  - destruct s as [|x s]; [done|]. cbn [Re.drop_prefix] in H.
    destruct (Ascii.eqb c x) eqn:Hc; [|done]. apply Ascii.eqb_eq in Hc as ->.
    by rewrite (IH s H).
Qed.

Lemma drop_prefix_None p s : Py.prefix p s = false → Re.drop_prefix p s = None.
Proof. intros H. rewrite drop_prefix_prefix. by rewrite H. Qed.

Lemma line_head_lacks_nl s : lacks NL (Re.line_head s) = true.
Proof.
  induction s as [|c s IH]; [done|]. cbn [Re.line_head].
  destruct (Ascii.eqb c NL) eqn:Hc; [done|]. cbn [lacks]. by rewrite Hc, IH.
Qed.

Lemma line_head_lacks c s : lacks c s = true → lacks c (Re.line_head s) = true.
Proof.
  induction s as [|x s IH]; [done|]. cbn [Re.line_head lacks].
  intros [Hx Hs]%andb_true_iff. destruct (Ascii.eqb x NL); [done|].
  cbn [lacks]. by rewrite Hx, IH.
Qed.

Lemma line_head_app a b :
  lacks NL a = true → Re.line_head (a +:+ String NL b) = a.
Proof.
  induction a as [|x a IH]; [done|]. rewrite append_cons. cbn [lacks Re.line_head].
  intros [Hx Ha]%andb_true_iff. apply negb_true_iff in Hx. rewrite Hx. by rewrite IH.
Qed.

Lemma line_head_plain a : lacks NL a = true → Re.line_head a = a.
Proof.
  induction a as [|x a IH]; [done|]. cbn [lacks Re.line_head].
  intros [Hx Ha]%andb_true_iff. apply negb_true_iff in Hx. rewrite Hx. by rewrite IH.
Qed.

Lemma search_line_here key r : Re.search_line key (key +:+ r) = Some (Re.line_head r).
Proof.
  destruct key as [|c key]; [by destruct r|].
  rewrite append_cons. cbn [Re.search_line]. rewrite <- append_cons.
  by rewrite drop_prefix_app.
Qed.

Lemma search_line_unfold key s :
  Re.search_line key s
  = match Re.drop_prefix key s with
    | Some rest => Some (Re.line_head rest)
    | None => match s with
              | EmptyString => None
              | String _ s' => Re.search_line key s'
              end
    end.
Proof. by destruct s. Qed.

Lemma search_line_lacks c key s g :
  lacks c s = true → Re.search_line key s = Some g → lacks c g = true.
Proof.
  induction s as [|x s IH]; intros Hs; rewrite search_line_unfold.
  - destruct (Re.drop_prefix key "") as [r|] eqn:Hr; [|done].
    intros [= <-]. apply drop_prefix_inv in Hr.
    destruct key; [|done]. change ("" = r) in Hr. by subst r.
  - destruct (Re.drop_prefix key (String x s)) as [r|] eqn:Hr.
    + intros [= <-]. apply drop_prefix_inv in Hr. rewrite Hr, lacks_app in Hs.
      apply andb_true_iff in Hs as [_ Hs]. by apply line_head_lacks.
    + cbn [lacks] in Hs. apply andb_true_iff in Hs as [_ Hs]. by apply IH.
Qed.

Lemma search_line_lacks_nl key s g :
  Re.search_line key s = Some g → lacks NL g = true.
Proof.
  induction s as [|x s IH]; rewrite search_line_unfold.
  - destruct (Re.drop_prefix key ""); [|done]. intros [= <-]. apply line_head_lacks_nl.
  - destruct (Re.drop_prefix key (String x s)); [|done].
    intros [= <-]. apply line_head_lacks_nl.
Qed.

(** *** The generated configuration *)

Lemma universal_newlines_app a b :
  lacks CR a = true →
  universal_newlines false (a +:+ b) = a +:+ universal_newlines false b.
Proof.
  induction a as [|c a IH]; [done|]. rewrite !append_cons.
  cbn [lacks universal_newlines]. intros [Hc Ha]%andb_true_iff.
  apply negb_true_iff in Hc. rewrite Hc. cbn [andb]. by rewrite IH.
Qed.

Lemma skip_spaces_split s :
  ∃ gap, s = gap +:+ Re.skip_spaces s ∧ all_spaces gap = true.
Proof.
  induction s as [|c s (gap & Hs & Hgap)]; [by exists ""|]. cbn [Re.skip_spaces].
  destruct (Textwrap.isspace c) eqn:Hc.
  - exists (String c gap). rewrite append_cons, <- Hs. cbn [all_spaces].
    by rewrite Hc, Hgap.
  - by exists "".
Qed.

Lemma skip_spaces_gap gap r :
  all_spaces gap = true → Re.skip_spaces r = r → Re.skip_spaces (gap +:+ r) = r.
Proof.
  intros Hgap Hr. induction gap as [|c gap IH]; [done|]. rewrite append_cons.
  cbn [all_spaces] in Hgap. apply andb_true_iff in Hgap as [Hc Hgap].
  cbn [Re.skip_spaces]. rewrite Hc. by apply IH.
Qed.

Lemma search_initialized_unfold s :
  Re.search_initialized s
  = if Re.initialized_at s then true
    else match s with
         | EmptyString => false
         | String _ s' => Re.search_initialized s'
         end.
Proof. by destruct s. Qed.

(** The search for the mark succeeds exactly on the texts that hold
    [{config_initialized,], any white space and [true}] in a row. *)
Lemma search_initialized_iff s :
  Re.search_initialized s = true
  ↔ ∃ before gap after,
      s = before +:+ ("{config_initialized," +:+ (gap +:+ ("true}" +:+ after)))
      ∧ all_spaces gap = true.
Proof.
  split.
  - induction s as [|c s IH]; rewrite search_initialized_unfold.
    + by vm_compute.
    + destruct (Re.initialized_at (String c s)) eqn:Hat.
      * intros _. unfold Re.initialized_at in Hat.
        destruct (Re.drop_prefix _ (String c s)) as [rest|] eqn:Hrest; [|done].
        apply drop_prefix_inv in Hrest. apply prefix_inv in Hat as [after Hafter].
        destruct (skip_spaces_split rest) as (gap & Hgap & Hspaces).
        exists "", gap, after. split; [|done]. rewrite Hrest, Hgap at 1.
        by rewrite Hafter.
      * intros (before & gap & after & -> & Hgap)%IH.
        by exists (String c before), gap, after.
  - intros (before & gap & after & -> & Hgap).
    induction before as [|c before IH].
    + rewrite search_initialized_unfold. unfold Re.initialized_at.
      change ("" +:+ ?x) with x. rewrite drop_prefix_app.
      rewrite skip_spaces_gap by done. by rewrite prefix_app.
    + rewrite append_cons, search_initialized_unfold.
      by destruct (Re.initialized_at _).
Qed.

Lemma config_content_head env : ∃ tail, config_content env = CONFIG_HEAD +:+ tail.
Proof.
  unfold config_content. cbv zeta.
  destruct (negb (String.eqb (default "" (env !! "ONEPANEL_GENERATE_TEST_WEB_CERT")) ""));
    destruct (negb (String.eqb (default "" (env !! "ONEPANEL_TRUST_TEST_CA")) ""));
    rewrite ?append_assoc; eauto.
Qed.

Lemma config_content_initialized env :
  Re.search_initialized (universal_newlines false (config_content env)) = true.
Proof.
  destruct (config_content_head env) as [tail ->].
  rewrite universal_newlines_app by reflexivity.
  apply search_initialized_iff.
  exists ("% MACHINE GENERATED FILE. DO NOT MODIFY." +:+ LF
          +:+ "% Use overlay.config for custom configuration." +:+ LF +:+ LF
          +:+ "[{onepanel, ["), " ", (universal_newlines false tail).
  split; reflexivity.
Qed.

(** X14: a configuration file that [generate_config_file] has written is
    one that [config_file_initialized] recognises, whatever the environment
    puts into it; the write changes no other file and prints nothing. *)
Theorem generated_config_is_initialized env path h :
  path ∉ readonly h →
  ∃ h',
    generate_config_file env path h = (Done tt, h')
    ∧ config_file_initialized path h' = (Done true, h')
    ∧ files h' = <[path := config_content env]> (files h)
    ∧ readonly h' = readonly h
    ∧ printed h' = printed h.
Proof.
  intros Hpath. eexists. split.
  { unfold generate_config_file, write_text. by rewrite bool_decide_eq_false_2. }
  split; [|done]. unfold config_file_initialized, read_text. cbn [files].
  rewrite lookup_insert_eq. cbn [andb]. by rewrite config_content_initialized.
Qed.

Lemma generated_config_is_initialized_witness :
  ∃ h',
    generate_config_file sample_certificates "/etc/oz_panel/autogenerated.config" fresh_host
    = (Done tt, h')
    ∧ config_file_initialized "/etc/oz_panel/autogenerated.config" h' = (Done true, h')
    ∧ files h' = <["/etc/oz_panel/autogenerated.config" := config_content sample_certificates]>
                   (files fresh_host)
    ∧ readonly h' = readonly fresh_host
    ∧ printed h' = printed fresh_host.
Proof.
  apply (generated_config_is_initialized sample_certificates
           "/etc/oz_panel/autogenerated.config" fresh_host).
  vm_compute. set_solver.
Defined.

(** X15: [config_file_initialized] never fails and changes nothing.  It
    answers [True] exactly when the file can be read and its text holds
    [{config_initialized,] and [true}] with nothing but white space, of any
    kind and length, between them; a file that is missing counts as not
    initialised. *)
Theorem config_file_initialized_meaning path h :
  ∃ b,
    config_file_initialized path h = (Done b, h)
    ∧ (b = true
       ↔ ∃ stored before gap after,
           files h !! path = Some stored
           ∧ universal_newlines false stored
             = before +:+ ("{config_initialized," +:+ (gap +:+ ("true}" +:+ after)))
           ∧ all_spaces gap = true).
Proof.
  unfold config_file_initialized, read_text. cbn [andb].
  destruct (files h !! path) as [stored|] eqn:Hstored.
  - eexists. split; [done|]. rewrite search_initialized_iff. split.
    + intros (before & gap & after & ? & ?). by exists stored, before, gap, after.
    + intros (stored' & before & gap & after & [= <-] & ? & ?).
      by exists before, gap, after.
  - exists false. split; [done|]. split; [done|].
    by intros (? & ? & ? & ? & ? & _).
Qed.

(** X16: only the exact value [true] turns a flag of the generated
    configuration on: any other value that is not empty, such as [True] or
    [1], writes the same file as [false]. *)
Theorem only_true_turns_a_flag_on env name value :
  name = "ONEPANEL_GENERATE_TEST_WEB_CERT" ∨ name = "ONEPANEL_TRUST_TEST_CA" →
  value ≠ "" → value ≠ "true" →
  config_content (<[name := value]> env) = config_content (<[name := "false"]> env).
Proof.
  intros Hname Hempty Htrue.
  assert (String.eqb value "" = false) as He by by apply String.eqb_neq.
  assert (flag_of value = "false") as Hflag.
  { unfold flag_of. by rewrite (proj2 (String.eqb_neq _ _) Htrue). }
  unfold config_content. cbv zeta. destruct Hname as [-> | ->].
  - rewrite !lookup_insert_eq, !(lookup_insert_ne _ "ONEPANEL_GENERATE_TEST_WEB_CERT") by done.
    cbn [default from_option id]. by rewrite He, Hflag.
  - rewrite !lookup_insert_eq, !(lookup_insert_ne _ "ONEPANEL_TRUST_TEST_CA") by done.
    cbn [default from_option id]. by rewrite He, Hflag.
Qed.

Lemma only_true_turns_a_flag_on_witness :
  config_content (<["ONEPANEL_TRUST_TEST_CA" := "True"]> sample_certificates)
  = config_content (<["ONEPANEL_TRUST_TEST_CA" := "false"]> sample_certificates).
Proof.
  apply (only_true_turns_a_flag_on sample_certificates "ONEPANEL_TRUST_TEST_CA" "True");
    [by right | done | done].
Defined.

(** *** The name of the node *)

Lemma sub_line_unfold key repl b s :
  Re.sub_line key repl b s
  = match s with
    | EmptyString => ""
    | String c s' =>
        if b then
          if Ascii.eqb c NL then String c (Re.sub_line key repl false s')
          else Re.sub_line key repl true s'
        else if Py.prefix key s then repl +:+ Re.sub_line key repl true s'
        else String c (Re.sub_line key repl false s')
    end.
Proof. by destruct s. Qed.

(** after a match, the text up to the end of the line is gone *)
Lemma sub_line_rest_head key repl s :
  Re.line_head (Re.sub_line key repl true s) = "".
Proof.
  induction s as [|c s IH]; [done|]. cbn [Re.sub_line].
  destruct (Ascii.eqb c NL) eqn:Hc; [|done]. cbn [Re.line_head]. by rewrite Hc.
Qed.

Lemma sub_line_skip key repl a s :
  lacks NL a = true →
  Re.sub_line key repl true (a +:+ s) = Re.sub_line key repl true s.
Proof.
  induction a as [|c a IH]; [done|]. rewrite append_cons. cbn [lacks Re.sub_line].
  intros [Hc Ha]%andb_true_iff. apply negb_true_iff in Hc. by rewrite Hc, IH.
Qed.

Lemma line_head_app_l a b :
  lacks NL a = true → Re.line_head (a +:+ b) = a +:+ Re.line_head b.
Proof.
  induction a as [|c a IH]; [done|]. rewrite !append_cons. cbn [lacks Re.line_head].
  intros [Hc Ha]%andb_true_iff. apply negb_true_iff in Hc. by rewrite Hc, IH.
Qed.

Lemma prefix_cons a p b s :
  Py.prefix (String a p) (String b s) = Ascii.eqb a b && Py.prefix p s.
Proof. reflexivity. Qed.

Section node_name.

Variable name : string.
Let repl : string := "-name " +:+ name.
Let sub : bool → string → string := Re.sub_line "-name " repl.

(** A replacement starts with the dash of the key, so the text that comes
    before a match reads the same after the substitution. *)
Lemma sub_line_prefix q s :
  lacks "-" q = true → Py.prefix q (sub false s) = Py.prefix q s.
Proof.
  revert q. induction s as [|c s IH]; intros q Hq; [done|].
  unfold sub. rewrite sub_line_unfold. fold sub.
  destruct (Py.prefix "-name " (String c s)) eqn:Hat.
  - destruct q as [|a q]; [done|]. cbn [lacks] in Hq.
    apply andb_true_iff in Hq as [Ha _]. apply negb_true_iff in Ha.
    rewrite prefix_cons in Hat. apply andb_true_iff in Hat as [Hc _].
    apply Ascii.eqb_eq in Hc as <-.
    unfold repl. rewrite !append_cons, !prefix_cons. by rewrite Ha.
  - destruct q as [|a q]; [done|]. cbn [lacks] in Hq.
    apply andb_true_iff in Hq as [_ Hq]. rewrite !prefix_cons. by rewrite IH.
Qed.

Lemma sub_line_no_new_match c s :
  Py.prefix "-name " (String c (sub false s)) = Py.prefix "-name " (String c s).
Proof. rewrite !prefix_cons. by rewrite (sub_line_prefix "name " s). Qed.

Hypothesis name_line : lacks NL name = true.

Lemma sub_line_repl t : sub false (repl +:+ t) = repl +:+ sub true t.
Proof.
  assert (repl +:+ t = String "-" ("name " +:+ (name +:+ t))) as ->
    by (unfold repl; by rewrite append_assoc).
  unfold sub. rewrite sub_line_unfold.
  assert (Py.prefix "-name " (String "-" ("name " +:+ (name +:+ t))) = true) as ->
    by apply (prefix_app "-name ").
  f_equal. rewrite (sub_line_skip _ _ "name ") by done. by rewrite sub_line_skip.
Qed.

Lemma sub_line_idempotent s :
  sub false (sub false s) = sub false s ∧ sub true (sub true s) = sub true s.
Proof.
  induction s as [|c s [IHf IHt]]; [done|]. split.
  - unfold sub at 2 3. rewrite sub_line_unfold. fold sub.
    destruct (Py.prefix "-name " (String c s)) eqn:Hat.
    + by rewrite sub_line_repl, IHt.
    + unfold sub at 1. rewrite sub_line_unfold. fold sub.
      rewrite sub_line_no_new_match, Hat. by rewrite IHf.
  - unfold sub at 2 3. rewrite sub_line_unfold. fold sub.
    destruct (Ascii.eqb c NL) eqn:Hc; [|apply IHt].
    unfold sub at 1. rewrite sub_line_unfold. fold sub. by rewrite Hc, IHf.
Qed.

Lemma sub_line_search s :
  Re.search_line "-name " (sub false s)
  = (λ _, name) <$> Re.search_line "-name " s.
Proof.
  induction s as [|c s IH]; [done|].
  unfold sub. rewrite sub_line_unfold. fold sub.
  rewrite (search_line_unfold _ (String c s)).
  destruct (Py.prefix "-name " (String c s)) eqn:Hat.
  - destruct (prefix_inv _ _ Hat) as [r Hr]. rewrite Hr at 1.
    rewrite drop_prefix_app. unfold repl. rewrite append_assoc, search_line_here.
    rewrite line_head_app_l by done. unfold sub. rewrite sub_line_rest_head.
    by rewrite append_nil_r.
  - rewrite (drop_prefix_None _ _ Hat). rewrite search_line_unfold.
    rewrite drop_prefix_None by (by rewrite sub_line_no_new_match). apply IH.
Qed.

Lemma sub_line_no_match s :
  Re.search_line "-name " s = None → sub false s = s.
Proof.
  induction s as [|c s IH]; [done|]. rewrite search_line_unfold.
  unfold sub. rewrite sub_line_unfold. fold sub.
  destruct (Py.prefix "-name " (String c s)) eqn:Hat.
  - destruct (prefix_inv _ _ Hat) as [r Hr]. rewrite Hr at 1.
    by rewrite drop_prefix_app.
  - rewrite (drop_prefix_None _ _ Hat). intros Hs. by rewrite IH.
Qed.

Lemma sub_line_lacks c b s :
  lacks c name = true → lacks c "-name " = true →
  lacks c s = true → lacks c (sub b s) = true.
Proof.
  intros Hname Hkey. revert b. induction s as [|x s IH]; intros b; [done|].
  cbn [lacks]. intros [Hx Hs]%andb_true_iff.
  unfold sub. rewrite sub_line_unfold. fold sub. destruct b.
  - destruct (Ascii.eqb x NL); [|by apply IH]. cbn [lacks]. by rewrite Hx, IH.
  - destruct (Py.prefix "-name " (String x s)).
    + unfold repl. by rewrite !lacks_app, Hname, Hkey, IH.
    + cbn [lacks]. by rewrite Hx, IH.
Qed.

End node_name.

Lemma substring_char c s : Py.substring (String c "") s = negb (lacks c s).
Proof.
  induction s as [|x s IH]; [done|]. cbn [Py.substring Py.prefix lacks].
  rewrite IH, andb_true_r, negb_andb, negb_involutive. by rewrite Ascii.eqb_sym.
Qed.

Lemma plain_hostname_inv s :
  plain_hostname s = true →
  lacks " " s = true ∧ lacks NL s = true ∧ lacks CR s = true ∧ lacks "\" s = true.
Proof. unfold plain_hostname. rewrite !andb_true_iff. tauto. Qed.

(** what [set_node_name] does to a file that is there and can be written *)
Lemma set_node_name_run out path h stored :
  files h !! path = Some stored →
  path ∉ readonly h →
  lacks "\" (rstrip NL out) = true →
  set_node_name (Some out) path h
  = (Done tt,
     Host (<[path := Re.sub_line "-name " ("-name onepanel@" +:+ rstrip NL out) false
                       (universal_newlines false stored)]> (files h))
          (readonly h) (printed h)).
Proof.
  intros Hstored Hpath Hplain. unfold set_node_name, check_output, replace.
  rewrite sh_bind_run. cbn [mret sh_ret]. rewrite sh_bind_run. unfold read_text at 1.
  rewrite Hstored, bool_decide_eq_false_2 by done. cbn [andb].
  rewrite sh_bind_run. rewrite substring_char, lacks_app, Hplain.
  change (lacks "\" "-name onepanel@") with true. cbn [andb negb mret sh_ret].
  unfold write_text. by rewrite bool_decide_eq_false_2.
Qed.

(** X17: [set_node_name] makes the node name [onepanel@] and the host name.
    Every [-name] entry of the file is rewritten, so the name that is read
    back is the new one; a file without such an entry does not get one: it
    is written back as it was read.  No other file is touched. *)
Theorem set_node_name_sets_name out path h stored :
  files h !! path = Some stored →
  path ∉ readonly h →
  plain_hostname (rstrip NL out) = true →
  ∃ h',
    set_node_name (Some out) path h = (Done tt, h')
    ∧ node_name path h' = (λ _, "onepanel@" +:+ rstrip NL out) <$> node_name path h
    ∧ (node_name path h = None
       → files h' !! path = Some (universal_newlines false stored))
    ∧ (∀ other, other ≠ path → files h' !! other = files h !! other)
    ∧ printed h' = printed h.
Proof.
  intros Hstored Hpath (Hblank & Hnl & Hcr & Hbs)%plain_hostname_inv.
  eexists. split; [by apply set_node_name_run|].
  assert (lacks NL ("onepanel@" +:+ rstrip NL out) = true) as Hline
    by by rewrite lacks_app, Hnl.
  assert (lacks CR ("onepanel@" +:+ rstrip NL out) = true) as Hret
    by by rewrite lacks_app, Hcr.
  unfold node_name, read_text. cbn [files andb]. rewrite lookup_insert_eq, Hstored.
  change ("-name onepanel@" +:+ rstrip NL out)
    with ("-name " +:+ ("onepanel@" +:+ rstrip NL out)).
  rewrite universal_newlines_plain
    by (apply sub_line_lacks; [done..|apply universal_newlines_lacks_cr]).
  split; [by apply sub_line_search|]. split; [|split; [|done]].
  - intros Hnone. by rewrite sub_line_no_match.
  - intros other Hother. by rewrite lookup_insert_ne.
Qed.

Lemma set_node_name_sets_name_witness :
  ∃ h',
    set_node_name (Some ("zone.example.com" +:+ LF)) "/etc/oz_panel/autogenerated.vm.args"
      sample_host
    = (Done tt, h')
    ∧ node_name "/etc/oz_panel/autogenerated.vm.args" h' = Some "onepanel@zone.example.com".
Proof.
  destruct (set_node_name_sets_name ("zone.example.com" +:+ LF)
              "/etc/oz_panel/autogenerated.vm.args" sample_host
              (AUTOGENERATED_VM_ARGS "onepanel@legacy.local" "secret_cookie")
              eq_refl ltac:(vm_compute; set_solver) eq_refl)
    as (h' & Hrun & Hname & _).
  exists h'. split; [exact Hrun|]. exact Hname.
Defined.

(** X18: [set_node_name] is idempotent: run again with the same host name,
    it leaves every file as the first run left it. *)
Theorem set_node_name_idempotent out path h h' :
  plain_hostname (rstrip NL out) = true →
  set_node_name (Some out) path h = (Done tt, h') →
  set_node_name (Some out) path h' = (Done tt, h').
Proof.
  intros (Hblank & Hnl & Hcr & Hbs)%plain_hostname_inv Hrun.
  assert (lacks NL ("onepanel@" +:+ rstrip NL out) = true) as Hline
    by by rewrite lacks_app, Hnl.
  assert (lacks CR ("onepanel@" +:+ rstrip NL out) = true) as Hret
    by by rewrite lacks_app, Hcr.
  destruct (files h !! path) as [stored|] eqn:Hstored.
  2:{ unfold set_node_name, check_output, replace in Hrun.
      rewrite !sh_bind_run in Hrun. cbn [mret sh_ret] in Hrun.
      rewrite sh_bind_run in Hrun. unfold read_text in Hrun.
      by rewrite Hstored in Hrun. }
  destruct (decide (path ∈ readonly h)) as [Hro|Hro].
  { unfold set_node_name, check_output, replace in Hrun.
    rewrite !sh_bind_run in Hrun. cbn [mret sh_ret] in Hrun.
    rewrite sh_bind_run in Hrun. unfold read_text in Hrun.
    by rewrite Hstored, bool_decide_eq_true_2 in Hrun. }
  rewrite (set_node_name_run _ _ _ _ Hstored Hro Hbs) in Hrun.
  injection Hrun as <-.
  rewrite (set_node_name_run out path _ _ (lookup_insert_eq _ _ _)) by done.
  cbn [files readonly printed]. rewrite insert_insert_eq.
  change ("-name onepanel@" +:+ rstrip NL out)
    with ("-name " +:+ ("onepanel@" +:+ rstrip NL out)).
  rewrite universal_newlines_plain
    by (apply sub_line_lacks; [done..|apply universal_newlines_lacks_cr]).
  by rewrite (proj1 (sub_line_idempotent _ Hline _)).
Qed.

Lemma set_node_name_idempotent_witness :
  set_node_name (Some ("zone.example.com" +:+ LF)) "/etc/oz_panel/autogenerated.vm.args"
    named_host
  = (Done tt, named_host).
Proof.
  apply (set_node_name_idempotent _ _ sample_host); reflexivity.
Defined.

(** *** The upgrade of the legacy node arguments *)

Lemma search_line_skip k key a s :
  lacks k a = true →
  Re.search_line (String k key) (a +:+ s) = Re.search_line (String k key) s.
Proof.
  induction a as [|x a IH]; [done|]. rewrite append_cons. cbn [lacks].
  intros [Hx Ha]%andb_true_iff. apply negb_true_iff in Hx.
  rewrite search_line_unfold. cbn [Re.drop_prefix].
  rewrite Ascii.eqb_sym, Hx. by apply IH.
Qed.

(** a key without a line feed does not match across the end of a line *)
Lemma prefix_before_nl key k a b :
  lacks NL (String k key) = true →
  Py.prefix (String k key) (a +:+ String NL b) = Py.prefix (String k key) a.
Proof.
  revert k a. induction key as [|k' key IH]; intros k a Hkey.
  - cbn [lacks] in Hkey. apply andb_true_iff in Hkey as [Hk _].
    apply negb_true_iff in Hk. destruct a as [|x a].
    + change ("" +:+ String NL b) with (String NL b). rewrite prefix_cons.
      by rewrite Hk.
    + by rewrite append_cons, !prefix_cons.
  - pose proof Hkey as Hkey'. cbn [lacks] in Hkey.
    apply andb_true_iff in Hkey as [Hk Hrest]. apply negb_true_iff in Hk.
    destruct a as [|x a].
    + change ("" +:+ String NL b) with (String NL b). rewrite prefix_cons.
      by rewrite Hk.
    + rewrite append_cons, !prefix_cons. by rewrite IH.
Qed.

Lemma search_line_past key k a b :
  lacks NL (String k key) = true →
  Py.substring (String k key) a = false →
  Re.search_line (String k key) (a +:+ String NL b)
  = Re.search_line (String k key) (String NL b).
Proof.
  intros Hkey. induction a as [|x a IH]; [done|]. intros Ha.
  cbn [Py.substring] in Ha. apply orb_false_iff in Ha as [Hat Ha].
  rewrite append_cons, search_line_unfold. rewrite <- append_cons.
  rewrite drop_prefix_None by (by rewrite prefix_before_nl). by apply IH.
Qed.

Lemma node_name_inv path h node :
  node_name path h = Some node →
  ∃ stored, files h !! path = Some stored
            ∧ Re.search_line "-name " (universal_newlines false stored) = Some node.
Proof.
  unfold node_name, read_text. destruct (files h !! path) as [stored|]; [|done].
  cbn [andb]. eauto.
Qed.

Lemma node_cookie_inv path h cookie :
  node_cookie path h = Some cookie →
  ∃ stored, files h !! path = Some stored
            ∧ Re.search_line "-setcookie " (universal_newlines false stored) = Some cookie.
Proof.
  unfold node_cookie, read_text. destruct (files h !! path) as [stored|]; [|done].
  cbn [andb]. eauto.
Qed.

(** what is read back from the generated arguments *)
Lemma autogenerated_vm_args_read node cookie :
  lacks NL node = true → lacks NL cookie = true →
  lacks CR node = true → lacks CR cookie = true →
  universal_newlines false (AUTOGENERATED_VM_ARGS node cookie)
  = AUTOGENERATED_VM_ARGS node cookie
  ∧ Re.search_line "-name " (AUTOGENERATED_VM_ARGS node cookie) = Some node
  ∧ (Py.substring "-setcookie " node = false →
     Re.search_line "-setcookie " (AUTOGENERATED_VM_ARGS node cookie) = Some cookie).
Proof.
  intros Hn Hc Hnr Hcr.
  set (head := "# MACHINE GENERATED FILE. DO NOT MODIFY." +:+ LF +:+ LF
               +:+ "## Name of the node" +:+ LF).
  set (middle := LF +:+ "## Cookie for distributed erlang" +:+ LF).
  assert (AUTOGENERATED_VM_ARGS node cookie
          = head +:+ ("-name " +:+ (node +:+ String NL
              (middle +:+ ("-setcookie " +:+ (cookie +:+ String NL ""))))))
    as -> by reflexivity.
  split; [|split].
  - apply universal_newlines_plain.
    rewrite !lacks_app. cbn [lacks]. rewrite !lacks_app. cbn [lacks].
    by rewrite Hnr, Hcr.
  - rewrite search_line_skip by reflexivity. rewrite search_line_here.
    by rewrite line_head_app.
  - intros Hnode. rewrite search_line_skip by reflexivity.
    rewrite <- append_assoc. rewrite search_line_past; [|reflexivity|exact Hnode].
    rewrite <- (append_cons NL middle).
    rewrite (search_line_skip "-" _ (String NL middle)) by reflexivity.
    rewrite search_line_here. by rewrite line_head_app.
Qed.

(** what [upgrade_legacy_vm_args] does to a legacy file with a name and a
    cookie *)
Lemma upgrade_legacy_vm_args_run legacy h stored node cookie :
  files h !! legacy = Some stored →
  Re.search_line "-name " (universal_newlines false stored) = Some node →
  Re.search_line "-setcookie " (universal_newlines false stored) = Some cookie →
  let autogenerated := path_join (dirname legacy) "autogenerated.vm.args" in
  legacy ∉ readonly h →
  autogenerated ∉ readonly h →
  autogenerated ≠ legacy →
  upgrade_legacy_vm_args legacy h
  = (Done tt,
     Host (delete legacy (<[autogenerated := AUTOGENERATED_VM_ARGS node cookie]> (files h)))
          (readonly h)
          (printed h ++ [("Upgraded legacy vm.args: " +:+ legacy +:+ " -> "
                          +:+ autogenerated) +:+ LF])).
Proof.
  intros Hstored Hnode Hcookie autogenerated Hlegacy Hnew Hdiff.
  unfold upgrade_legacy_vm_args. rewrite sh_bind_run. unfold read_text at 1.
  rewrite Hstored, bool_decide_eq_false_2 by done. cbn [andb].
  rewrite Hnode, Hcookie. cbn [group]. rewrite !sh_bind_run. cbn [mret sh_ret].
  rewrite !sh_bind_run. cbn [mret sh_ret]. fold autogenerated.
  rewrite sh_bind_run. unfold write_text at 1. rewrite bool_decide_eq_false_2 by done.
  rewrite sh_bind_run. unfold os_remove at 1. cbn [files].
  rewrite lookup_insert_ne, Hstored by done. reflexivity.
Qed.

Lemma search_line_plain key s g :
  Re.search_line key (universal_newlines false s) = Some g →
  lacks NL g = true ∧ lacks CR g = true.
Proof.
  intros H. split; [by eapply search_line_lacks_nl|].
  eapply search_line_lacks; [apply universal_newlines_lacks_cr|done].
Qed.

(** X19: the upgrade keeps the node name and the cookie.  From a legacy
    file that holds both, [upgrade_legacy_vm_args] writes
    [autogenerated.vm.args] beside it, from which the same name and the same
    cookie are read back, removes the legacy file, touches no other file and
    prints one line. *)
Theorem upgrade_keeps_node_and_cookie legacy h node cookie :
  node_name legacy h = Some node →
  node_cookie legacy h = Some cookie →
  Py.substring "-setcookie " node = false →
  let autogenerated := path_join (dirname legacy) "autogenerated.vm.args" in
  legacy ∉ readonly h →
  autogenerated ∉ readonly h →
  autogenerated ≠ legacy →
  ∃ h',
    upgrade_legacy_vm_args legacy h = (Done tt, h')
    ∧ files h' !! legacy = None
    ∧ node_name autogenerated h' = Some node
    ∧ node_cookie autogenerated h' = Some cookie
    ∧ (∀ other, other ≠ legacy → other ≠ autogenerated
                → files h' !! other = files h !! other)
    ∧ printed h'
      = printed h ++ ["Upgraded legacy vm.args: " +:+ legacy +:+ " -> "
                      +:+ autogenerated +:+ LF].
Proof.
  intros (stored & Hstored & Hnode)%node_name_inv (? & Hstored' & Hcookie)%node_cookie_inv
    Hfree autogenerated Hlegacy Hnew Hdiff.
  rewrite Hstored in Hstored'. injection Hstored' as <-.
  destruct (search_line_plain _ _ _ Hnode) as [Hn Hnr].
  destruct (search_line_plain _ _ _ Hcookie) as [Hc Hcr].
  destruct (autogenerated_vm_args_read node cookie Hn Hc Hnr Hcr) as (Hread & Hname & Hcook).
  eexists. split; [by eapply upgrade_legacy_vm_args_run|].
  cbn [files printed]. split; [by rewrite lookup_delete_eq|].
  unfold node_name, node_cookie, read_text. cbn [files andb].
  rewrite lookup_delete_ne, lookup_insert_eq by done. rewrite Hread.
  split; [done|]. split; [by apply Hcook|]. split; [|by rewrite !append_assoc].
  intros other Ho Ho'. by rewrite lookup_delete_ne, lookup_insert_ne.
Qed.

Lemma upgrade_keeps_node_and_cookie_witness :
  ∃ h',
    upgrade_legacy_vm_args "/etc/oz_panel/vm.args" legacy_host = (Done tt, h')
    ∧ files h' !! "/etc/oz_panel/vm.args" = None
    ∧ node_name "/etc/oz_panel/autogenerated.vm.args" h' = Some "onepanel@legacy.local"
    ∧ node_cookie "/etc/oz_panel/autogenerated.vm.args" h' = Some "secret_cookie".
Proof.
  destruct (upgrade_keeps_node_and_cookie "/etc/oz_panel/vm.args" legacy_host
              "onepanel@legacy.local" "secret_cookie" eq_refl eq_refl eq_refl
              ltac:(vm_compute; set_solver) ltac:(vm_compute; set_solver)
              ltac:(vm_compute; discriminate))
    as (h' & Hrun & Hgone & Hname & Hcookie & _).
  by exists h'.
Defined.

(** X20: a legacy file without a name or without a cookie is not upgraded:
    [upgrade_legacy_vm_args] raises [AttributeError] and leaves the legacy
    file, and everything else, as it was. *)
Theorem upgrade_needs_name_and_cookie legacy h :
  is_Some (files h !! legacy) →
  legacy ∉ readonly h →
  node_name legacy h = None ∨ node_cookie legacy h = None →
  upgrade_legacy_vm_args legacy h = (Failed (Python AttributeError), h).
Proof.
  intros [stored Hstored] Hlegacy Hmissing.
  unfold node_name, node_cookie, read_text in Hmissing. rewrite Hstored in Hmissing.
  cbn [andb] in Hmissing.
  unfold upgrade_legacy_vm_args. rewrite sh_bind_run. unfold read_text at 1.
  rewrite Hstored, bool_decide_eq_false_2 by done. cbn [andb].
  destruct (Re.search_line "-name " _) as [node|] eqn:Hnode.
  - destruct Hmissing as [|Hcookie]; [done|]. rewrite Hcookie. reflexivity.
  - reflexivity.
Qed.

Lemma upgrade_needs_name_and_cookie_witness :
  upgrade_legacy_vm_args "/etc/oz_worker/vm.args" legacy_host
  = (Failed (Python AttributeError), legacy_host).
Proof.
  apply upgrade_needs_name_and_cookie;
    [by eexists | vm_compute; set_solver | by right].
Defined.

(** *** The files after the first part of the main block *)

Lemma sub_line_head k key repl a s :
  lacks k a = true →
  Re.sub_line (String k key) repl false (a +:+ s)
  = a +:+ Re.sub_line (String k key) repl false s.
Proof.
  induction a as [|x a IH]; [done|]. rewrite !append_cons. cbn [lacks].
  intros [Hx Ha]%andb_true_iff. apply negb_true_iff in Hx.
  rewrite sub_line_unfold, prefix_cons, Ascii.eqb_sym, Hx. cbn [andb].
  by rewrite IH.
Qed.

Lemma sub_line_at k key repl t :
  lacks NL key = true →
  Re.sub_line (String k key) repl false (String k key +:+ t)
  = repl +:+ Re.sub_line (String k key) repl true t.
Proof.
  intros Hkey. rewrite append_cons, sub_line_unfold.
  rewrite <- append_cons, prefix_app. by rewrite sub_line_skip.
Qed.

Lemma substring_lacks c key s :
  lacks c s = true → lacks c key = false → Py.substring key s = false.
Proof.
  intros Hs Hkey. induction s as [|x s IH].
  - destruct key; [done|]. reflexivity.
  - cbn [Py.substring]. apply orb_false_iff. split.
    + destruct (Py.prefix key (String x s)) eqn:Hat; [|done].
      apply prefix_inv in Hat as [r Hr]. rewrite Hr, lacks_app, Hkey in Hs. done.
    + cbn [lacks] in Hs. apply andb_true_iff in Hs as [_ Hs]. by apply IH.
Qed.

Lemma search_line_absent k key s :
  Py.substring (String k key) s = false → Re.search_line (String k key) s = None.
Proof.
  induction s as [|x s IH]; [done|]. cbn [Py.substring].
  intros [Hat Hs]%orb_false_iff. rewrite search_line_unfold.
  rewrite (drop_prefix_None _ _ Hat). by apply IH.
Qed.

(** [set_node_name] on the generated arguments changes the name and
    nothing else *)
Lemma sub_line_autogenerated name node cookie :
  lacks NL name = true → lacks NL node = true →
  Py.substring "-name " cookie = false →
  Re.sub_line "-name " ("-name " +:+ name) false (AUTOGENERATED_VM_ARGS node cookie)
  = AUTOGENERATED_VM_ARGS name cookie.
Proof.
  intros Hname Hnode Hcookie.
  set (head := "# MACHINE GENERATED FILE. DO NOT MODIFY." +:+ LF +:+ LF
               +:+ "## Name of the node" +:+ LF).
  set (middle := LF +:+ "## Cookie for distributed erlang" +:+ LF).
  assert (∀ n, AUTOGENERATED_VM_ARGS n cookie
          = head +:+ ("-name " +:+ (n +:+ String NL
              (middle +:+ (String "-" ("setcookie " +:+ (cookie +:+ String NL "")))))))
    as Hshape by reflexivity.
  rewrite !Hshape. rewrite sub_line_head by reflexivity. f_equal.
  rewrite sub_line_at by reflexivity. rewrite append_assoc. f_equal.
  rewrite sub_line_skip by done. rewrite sub_line_unfold.
  change (Ascii.eqb NL NL) with true. cbv iota. do 2 f_equal.
  rewrite sub_line_head by reflexivity. f_equal.
  apply sub_line_no_match. rewrite search_line_unfold.
  rewrite drop_prefix_None by reflexivity.
  rewrite search_line_skip by reflexivity.
  rewrite search_line_past by done. reflexivity.
Qed.

Lemma upgrade_components_absent env component components h :
  override env = None →
  files h !! ("/etc/" +:+ component +:+ "/vm.args") = None →
  upgrade_components env (component :: components) h
  = upgrade_components env components h.
Proof.
  intros Henv Habsent. cbn [upgrade_components]. unfold legacy_vm_args_path.
  rewrite Henv. rewrite sh_bind_run. cbn [mret sh_ret]. rewrite sh_bind_run.
  unfold path_exists. rewrite Habsent.
  rewrite bool_decide_eq_false_2 by (by intros [? ?]). by rewrite sh_bind_run.
Qed.

Lemma upgrade_components_present env component components h :
  override env = None →
  is_Some (files h !! ("/etc/" +:+ component +:+ "/vm.args")) →
  upgrade_components env (component :: components) h
  = match upgrade_legacy_vm_args ("/etc/" +:+ component +:+ "/vm.args") h with
    | (Done _, h') => upgrade_components env components h'
    | (Failed e, h') => (Failed e, h')
    end.
Proof.
  intros Henv Hpresent. cbn [upgrade_components]. unfold legacy_vm_args_path.
  rewrite Henv. rewrite sh_bind_run. cbn [mret sh_ret]. rewrite sh_bind_run.
  unfold path_exists. rewrite bool_decide_eq_true_2 by done. by rewrite sh_bind_run.
Qed.

Lemma config_file_initialized_run path h :
  ∃ b, config_file_initialized path h = (Done b, h).
Proof.
  unfold config_file_initialized, read_text. cbn [andb].
  destruct (files h !! path); eauto.
Qed.

(** X21: a panel of an earlier release keeps its cookie through the start,
    when the cookie does not hold the text ["-name "].  Take a start from
    the packages ([ONEPANEL_OVERRIDE] not set), with the legacy arguments of
    the panel as the only legacy file, a name and a cookie in it, the text
    ["-name "] nowhere in the cookie, no file read-only, and a host name
    without blank, line break or backslash.  Then the first part of the
    main block leaves the panel with [autogenerated.vm.args] that names the
    node [onepanel@] and the host name and holds the cookie of the legacy
    file, without the legacy file, and with a generated configuration that
    counts as initialised.  (A cookie that holds ["-name "] is rewritten by
    [set_node_name]: see [prepare_files_rewrites_odd_cookie] below.) *)
Theorem prepare_files_keeps_cookie env out h node cookie :
  override env = None →
  files h !! "/etc/cluster_manager/vm.args" = None →
  files h !! "/etc/oz_worker/vm.args" = None →
  node_name "/etc/oz_panel/vm.args" h = Some node →
  node_cookie "/etc/oz_panel/vm.args" h = Some cookie →
  Py.substring "-name " cookie = false →
  readonly h = ∅ →
  plain_hostname (rstrip NL out) = true →
  ∃ existed h',
    prepare_files env (Some out) h = (Done existed, h')
    ∧ files h' !! "/etc/oz_panel/vm.args" = None
    ∧ node_name "/etc/oz_panel/autogenerated.vm.args" h'
      = Some ("onepanel@" +:+ rstrip NL out)
    ∧ node_cookie "/etc/oz_panel/autogenerated.vm.args" h' = Some cookie
    ∧ config_file_initialized "/etc/oz_panel/autogenerated.config" h' = (Done true, h').
Proof.
  intros Henv Hmanager Hworker (stored & Hstored & Hnode)%node_name_inv
    (? & Hstored' & Hcookie)%node_cookie_inv Hfree Hro
    (Hblank & Hnl & Hcr & Hbs)%plain_hostname_inv.
  rewrite Hstored in Hstored'. injection Hstored' as <-.
  destruct (search_line_plain _ _ _ Hnode) as [Hn Hnr].
  destruct (search_line_plain _ _ _ Hcookie) as [Hc Hcr'].
  set (name := "onepanel@" +:+ rstrip NL out).
  assert (lacks NL name = true) as Hname_nl by (unfold name; by rewrite lacks_app, Hnl).
  assert (lacks CR name = true) as Hname_cr by (unfold name; by rewrite lacks_app, Hcr).
  assert (Py.substring "-setcookie " name = false) as Hname_free.
  { apply (substring_lacks " "); [|reflexivity]. unfold name. by rewrite lacks_app, Hblank. }
  destruct (autogenerated_vm_args_read node cookie Hn Hc Hnr Hcr') as (Hread & _ & _).
  destruct (autogenerated_vm_args_read name cookie Hname_nl Hc Hname_cr Hcr')
    as (Hread' & Hname & Hcook).
  set (upgraded := Host (delete "/etc/oz_panel/vm.args"
                           (<["/etc/oz_panel/autogenerated.vm.args"
                              := AUTOGENERATED_VM_ARGS node cookie]> (files h)))
                        (readonly h)
                        (printed h ++ [("Upgraded legacy vm.args: " +:+ "/etc/oz_panel/vm.args"
                                        +:+ " -> " +:+ "/etc/oz_panel/autogenerated.vm.args")
                                       +:+ LF])).
  assert (upgrade_legacy_vm_args_if_exists env h = (Done tt, upgraded)) as Hupgrade.
  { unfold upgrade_legacy_vm_args_if_exists, COMPONENTS.
    rewrite upgrade_components_absent by done.
    rewrite upgrade_components_present by (done || by eexists).
    change ("/etc/" +:+ "oz_panel" +:+ "/vm.args") with "/etc/oz_panel/vm.args".
    rewrite (upgrade_legacy_vm_args_run "/etc/oz_panel/vm.args" h stored node cookie)
      by (done || rewrite Hro; set_solver).
    rewrite upgrade_components_absent; [done|done|].
    cbn [files]. by rewrite lookup_delete_ne, lookup_insert_ne. }
  unfold prepare_files. rewrite sh_bind_run, Hupgrade. unfold app_config_path, vm_args_path.
  rewrite Henv. rewrite sh_bind_run.
  assert (∃ existed configured,
            config_file_initialized "/etc/oz_panel/autogenerated.config" upgraded
            = (Done existed, upgraded)
            ∧ ((if negb existed
                then generate_config_file env "/etc/oz_panel/autogenerated.config"
                else mret tt) upgraded = (Done tt, configured))
            ∧ files configured !! "/etc/oz_panel/autogenerated.vm.args"
              = Some (AUTOGENERATED_VM_ARGS node cookie)
            ∧ files configured !! "/etc/oz_panel/vm.args" = None
            ∧ readonly configured = ∅
            ∧ config_file_initialized "/etc/oz_panel/autogenerated.config" configured
              = (Done true, configured))
    as (existed & configured & -> & Hgenerate & Hargs & Hgone & Hro' & Hinit).
  { assert (files upgraded !! "/etc/oz_panel/autogenerated.vm.args"
            = Some (AUTOGENERATED_VM_ARGS node cookie)) as Hargs
      by (unfold upgraded; cbn [files]; by rewrite lookup_delete_ne, lookup_insert_eq).
    assert (files upgraded !! "/etc/oz_panel/vm.args" = None) as Hgone
      by (unfold upgraded; cbn [files]; by rewrite lookup_delete_eq).
    assert ((Done tt,
             Host (<["/etc/oz_panel/autogenerated.config" := config_content env]>
                     (files upgraded)) (readonly upgraded) (printed upgraded))
            = generate_config_file env "/etc/oz_panel/autogenerated.config" upgraded)
      as Hwrite.
    { unfold generate_config_file, write_text.
      rewrite bool_decide_eq_false_2; [done|]. unfold upgraded. cbn [readonly].
      rewrite Hro. set_solver. }
    assert (config_file_initialized "/etc/oz_panel/autogenerated.config"
              (Host (<["/etc/oz_panel/autogenerated.config" := config_content env]>
                       (files upgraded)) (readonly upgraded) (printed upgraded))
            = (Done true,
               Host (<["/etc/oz_panel/autogenerated.config" := config_content env]>
                       (files upgraded)) (readonly upgraded) (printed upgraded)))
      as Hfresh.
    { unfold config_file_initialized, read_text. cbn [files andb].
      by rewrite lookup_insert_eq, config_content_initialized. }
    destruct (config_file_initialized_run "/etc/oz_panel/autogenerated.config" upgraded)
      as [[|] Hcheck].
    - by exists true, upgraded.
    - eexists false, _. split; [done|]. split; [symmetry; exact Hwrite|].
      cbn [files readonly]. rewrite !lookup_insert_ne by done. done. }
  rewrite sh_bind_run, Hgenerate. rewrite sh_bind_run.
  rewrite (set_node_name_run out _ configured _ Hargs) by (done || rewrite Hro'; set_solver).
  exists existed. eexists. split; [reflexivity|]. cbn [files].
  split; [by rewrite lookup_insert_ne|].
  unfold node_name, node_cookie, read_text. cbn [files andb].
  rewrite lookup_insert_eq, Hread.
  change ("-name onepanel@" +:+ rstrip NL out) with ("-name " +:+ name).
  rewrite sub_line_autogenerated by done. rewrite Hread'.
  split; [done|]. split; [by apply Hcook|].
  revert Hinit. unfold config_file_initialized, read_text. cbn [files andb].
  rewrite lookup_insert_ne by done.
  destruct (files configured !! "/etc/oz_panel/autogenerated.config"); [|done].
  by intros [= ->].
Qed.

Lemma prepare_files_keeps_cookie_witness :
  ∃ existed h',
    prepare_files ∅ (Some ("zone.example.com" +:+ LF)) panel_legacy_host = (Done existed, h')
    ∧ files h' !! "/etc/oz_panel/vm.args" = None
    ∧ node_name "/etc/oz_panel/autogenerated.vm.args" h' = Some "onepanel@zone.example.com"
    ∧ node_cookie "/etc/oz_panel/autogenerated.vm.args" h' = Some "secret_cookie"
    ∧ config_file_initialized "/etc/oz_panel/autogenerated.config" h' = (Done true, h').
Proof.
  apply (prepare_files_keeps_cookie ∅ ("zone.example.com" +:+ LF) panel_legacy_host
           "onepanel@legacy.local" "secret_cookie"); reflexivity.
Defined.

(** The pattern of [set_node_name] matches wherever ["-name "] stands, not
    only at the start of a line: a cookie that holds it loses what follows
    it to the name of the node. *)
Example prepare_files_rewrites_odd_cookie :
  node_cookie "/etc/oz_panel/vm.args" odd_cookie_host = Some "key-name x"
  ∧ ∃ h',
      prepare_files ∅ (Some ("zone.example.com" +:+ LF)) odd_cookie_host = (Done false, h')
      ∧ node_cookie "/etc/oz_panel/autogenerated.vm.args" h'
        = Some "key-name onepanel@zone.example.com".
Proof.
  split; [reflexivity|]. eexists. split; [by vm_compute|]. by vm_compute.
Qed.

(** *** An upgrade that stops half way *)

(** X22: the upgrade of the legacy arguments is not undone when it fails.
    The components are upgraded in the order [cluster_manager], [oz_panel],
    [oz_worker]; when the file of the manager is upgraded and the file of
    the panel lacks a name or a cookie, [upgrade_legacy_vm_args_if_exists]
    raises [AttributeError] with the manager's file already replaced, the
    panel's file as it was, and the worker's files not looked at. *)
Theorem upgrade_stops_at_incomplete_file env h node cookie :
  override env = None →
  node_name "/etc/cluster_manager/vm.args" h = Some node →
  node_cookie "/etc/cluster_manager/vm.args" h = Some cookie →
  is_Some (files h !! "/etc/oz_panel/vm.args") →
  node_name "/etc/oz_panel/vm.args" h = None
  ∨ node_cookie "/etc/oz_panel/vm.args" h = None →
  readonly h = ∅ →
  ∃ h',
    upgrade_legacy_vm_args_if_exists env h = (Failed (Python AttributeError), h')
    ∧ files h' !! "/etc/cluster_manager/vm.args" = None
    ∧ files h' !! "/etc/cluster_manager/autogenerated.vm.args"
      = Some (AUTOGENERATED_VM_ARGS node cookie)
    ∧ ∀ other,
        other ≠ "/etc/cluster_manager/vm.args" →
        other ≠ "/etc/cluster_manager/autogenerated.vm.args" →
        files h' !! other = files h !! other.
Proof.
  intros Henv (stored & Hstored & Hnode)%node_name_inv
    (? & Hstored' & Hcookie)%node_cookie_inv [panel Hpanel] Hmissing Hro.
  rewrite Hstored in Hstored'. injection Hstored' as <-.
  unfold node_name, node_cookie, read_text in Hmissing. rewrite Hpanel in Hmissing.
  cbn [andb] in Hmissing.
  eexists. split.
  { unfold upgrade_legacy_vm_args_if_exists, COMPONENTS.
    rewrite upgrade_components_present by (done || by eexists).
    change ("/etc/" +:+ "cluster_manager" +:+ "/vm.args") with "/etc/cluster_manager/vm.args".
    rewrite (upgrade_legacy_vm_args_run "/etc/cluster_manager/vm.args" h stored node cookie)
      by (done || rewrite Hro; set_solver).
    rewrite upgrade_components_present;
      [|done|cbn [files]; rewrite lookup_delete_ne, lookup_insert_ne by done; by eexists].
    change ("/etc/" +:+ "oz_panel" +:+ "/vm.args") with "/etc/oz_panel/vm.args".
    unfold upgrade_legacy_vm_args. rewrite sh_bind_run. unfold read_text at 1.
    cbn [files readonly]. rewrite lookup_delete_ne, lookup_insert_ne, Hpanel by done.
    rewrite bool_decide_eq_false_2 by (rewrite Hro; set_solver). cbn [andb].
    destruct (Re.search_line "-name " (universal_newlines false panel)) as [name|].
    - destruct Hmissing as [|Hnone]; [done|]. rewrite Hnone. reflexivity.
    - reflexivity. }
  cbn [files]. split; [by rewrite lookup_delete_eq|].
  split; [by rewrite lookup_delete_ne, lookup_insert_eq|].
  intros other Ho Ho'. by rewrite lookup_delete_ne, lookup_insert_ne.
Qed.

Lemma upgrade_stops_at_incomplete_file_witness :
  ∃ h',
    upgrade_legacy_vm_args_if_exists ∅ half_legacy_host = (Failed (Python AttributeError), h')
    ∧ files h' !! "/etc/cluster_manager/vm.args" = None
    ∧ files h' !! "/etc/oz_panel/vm.args" = Some ("-name onepanel@legacy.local" +:+ LF).
Proof.
  destruct (upgrade_stops_at_incomplete_file ∅ half_legacy_host
              "cluster_manager@legacy.local" "secret_cookie")
    as (h' & Hrun & Hgone & _ & Hother);
    [reflexivity | reflexivity | reflexivity | by eexists | by right | reflexivity |].
  exists h'. split; [exact Hrun|]. split; [exact Hgone|].
  by rewrite Hother.
Defined.

(** *** The container id *)

Lemma first_line_app a r :
  lacks NL a = true → first_line (a +:+ String NL r) = a +:+ String NL "".
Proof.
  induction a as [|x a IH]; intros Ha.
  - change (first_line (String NL r) = String NL ""). cbn [first_line].
    by rewrite Ascii.eqb_refl.
  - rewrite !append_cons. cbn [lacks] in Ha. apply andb_true_iff in Ha as [Hx Ha].
    apply negb_true_iff in Hx. cbn [first_line]. by rewrite Hx, IH.
Qed.

Lemma split_lacks c s : lacks c s = true → Str.split c s = [s].
Proof.
  induction s as [|x s IH]; [done|]. cbn [lacks Str.split].
  intros [Hx Hs]%andb_true_iff. apply negb_true_iff in Hx. by rewrite Hx, IH.
Qed.

Lemma split_not_nil c s : Str.split c s ≠ [].
Proof.
  induction s as [|x s IH]; [done|]. cbn [Str.split].
  destruct (Ascii.eqb x c); [done|]. by destruct (Str.split c s).
Qed.

Lemma split_app c a b :
  ∃ parts, parts ≠ [] ∧ Str.split c (a +:+ String c b) = parts ++ Str.split c b.
Proof.
  induction a as [|x a (parts & Hparts & IH)].
  - exists [""]. split; [done|].
    change (Str.split c (String c b) = "" :: Str.split c b).
    cbn [Str.split]. by rewrite Ascii.eqb_refl.
  - rewrite append_cons. cbn [Str.split]. rewrite IH. destruct (Ascii.eqb x c).
    + by exists ("" :: parts).
    + destruct parts as [|p parts]; [done|]. by exists (String x p :: parts).
Qed.

Lemma last_app_r {A} (l l' : list A) d : l' ≠ [] → List.last (l ++ l') d = List.last l' d.
Proof.
  intros Hl'. induction l as [|x l IH]; [done|].
  cbn [app List.last]. rewrite IH. destruct (l ++ l') eqn:Happ; [|done].
  by destruct l, l'.
Qed.

Lemma last_split_app c a b d :
  List.last (Str.split c (a +:+ String c b)) d = List.last (Str.split c b) d.
Proof.
  destruct (split_app c a b) as (parts & _ & ->).
  apply last_app_r, split_not_nil.
Qed.

Lemma rstrip_newline c s : lacks c s = true → rstrip c (s +:+ String c "") = s.
Proof.
  induction s as [|x s IH]; intros Hs.
  - change (rstrip c (String c "") = ""). cbn [rstrip]. by rewrite Ascii.eqb_refl.
  - rewrite append_cons. cbn [lacks] in Hs. apply andb_true_iff in Hs as [Hx Hs].
    apply negb_true_iff in Hx. cbn [rstrip]. rewrite (IH Hs).
    destruct s; [by rewrite Hx|done].
Qed.

(** X23: the container id is what follows the last slash of the first line
    of [/proc/self/cgroup], without the end of the line.  A first line that
    ends in a slash, as under a unified cgroup hierarchy, gives the empty
    id. *)
Theorem get_container_id_last_segment h stored before id rest :
  files h !! "/proc/self/cgroup" = Some stored →
  universal_newlines false stored = before +:+ "/" +:+ id +:+ LF +:+ rest →
  lacks NL before = true →
  lacks NL id = true →
  lacks SLASH id = true →
  get_container_id h = (Done id, h).
Proof.
  intros Hstored Hread Hbefore Hnl Hslash. unfold get_container_id.
  rewrite sh_bind_run. unfold read_text. rewrite Hstored. cbn [andb mret sh_ret].
  rewrite Hread. unfold mret, sh_ret.
  assert (before +:+ "/" +:+ id +:+ LF +:+ rest
          = (before +:+ "/" +:+ id) +:+ String NL rest) as ->
    by by rewrite !append_assoc.
  rewrite first_line_app by (by rewrite !lacks_app, Hbefore, Hnl).
  rewrite !append_assoc. change ("/" +:+ ?x) with (String SLASH x).
  rewrite last_split_app. rewrite split_lacks by (by rewrite lacks_app, Hslash).
  cbn [List.last]. by rewrite rstrip_newline.
Qed.

Lemma get_container_id_last_segment_witness :
  get_container_id docker_host = (Done "0123456789abcdef", docker_host)
  ∧ get_container_id unified_host = (Done "", unified_host).
Proof.
  split.
  - apply (get_container_id_last_segment docker_host
             ("12:pids:/docker/0123456789abcdef" +:+ LF
              +:+ "11:cpu:/docker/0123456789abcdef" +:+ LF)
             "12:pids:/docker" "0123456789abcdef"
             ("11:cpu:/docker/0123456789abcdef" +:+ LF)); reflexivity.
  - apply (get_container_id_last_segment unified_host ("0::/" +:+ LF) "0::" "" "");
      reflexivity.
Defined.

(** ** The details of the container *)

(** X24: [show_ip_address] never shows an address.  The output of
    [hostname -i] is bytes, stripping a [str] from it raises [TypeError],
    and the handler keeps the dash: whatever the command prints and whatever
    the daemon tells, the line is [* IP Address: -]. *)
Theorem show_ip_address_shows_no_address hostname_i json h :
  show_ip_address hostname_i json h
  = (Done tt, Host (files h) (readonly h) (printed h ++ ["* IP Address: -" +:+ LF])).
Proof.
  unfold show_ip_address. rewrite sh_bind_run. unfold sh_try.
  destruct hostname_i as [out|]; reflexivity.
Qed.

Lemma lift_run {A} (o : outcome A) a h : o = Return a → lift o h = (Done a, h).
Proof. by intros ->. Qed.

Lemma print_run message h :
  print message h = (Done tt, Host (files h) (readonly h) (printed h ++ [message +:+ LF])).
Proof. reflexivity. Qed.

Lemma ports_of_get json ports :
  ports_of json = Some ports →
  (settings ← Py.get json "NetworkSettings" (PyDict []);
   Py.get settings "Ports" (PyDict [])) = Return (PyDict ports).
Proof.
  unfold ports_of. destruct json as [| | | | |d]; try done.
  cbn [Py.get mbind outcome_bind].
  change (from_option id (PyDict []) ?o) with (default (PyDict []) o).
  destruct (default (PyDict []) (Py.lookup "NetworkSettings" d)) as [| | | | |s]; try done.
  cbn [Py.get]. change (from_option id (PyDict []) ?o) with (default (PyDict []) o).
  destruct (default (PyDict []) (Py.lookup "Ports" s)); try done. by intros [= ->].
Qed.

Lemma binding_entries_run container_port bindings :
  forallb is_binding bindings = true →
  mapM (binding_entry (PyStr container_port)) bindings
  = Return (PyStr <$> (binding_text container_port <$> bindings)).
Proof.
  induction bindings as [|b bindings IH]; [done|]. cbn [forallb].
  intros [Hb Hbs]%andb_true_iff. cbn [mapM]. rewrite (IH Hbs).
  destruct b as [| | | | |b]; try done. cbn [is_binding] in Hb.
  apply andb_true_iff in Hb as [[ip Hip]%bool_decide_eq_true [port Hport]%bool_decide_eq_true].
  unfold binding_entry. cbn [Py.getitem mbind outcome_bind]. rewrite Hip.
  cbn [mbind outcome_bind]. rewrite Hport. cbn [mbind outcome_bind mret outcome_ret].
  cbn [fmap list_fmap binding_text]. by rewrite Hip, Hport.
Qed.

Lemma port_entries_run ports container_port host :
  Py.lookup container_port ports = Some host →
  is_published host = true →
  port_entries (PyDict ports) (PyStr container_port)
  = Return (PyStr <$> port_texts (container_port, host)).
Proof.
  intros Hhost Hpublished. unfold port_entries. cbn [subscript Py.getitem].
  rewrite Hhost. cbn [mbind outcome_bind]. destruct host as [| | | |bindings|]; try done.
  cbn [is_published] in Hpublished. destruct bindings as [|b bindings]; [done|].
  cbn [Py.truthy length Nat.eqb negb Py.iter mbind outcome_bind].
  by rewrite binding_entries_run.
Qed.

Lemma port_texts_not_nil port : port_texts port ≠ [].
Proof. destruct port as [name [| | | |[|b bindings]|]]; done. Qed.

Lemma all_port_entries_run ports listed :
  (∀ port, port ∈ listed → Py.lookup port.1 ports = Some port.2) →
  forallb (λ port, is_published port.2) listed = true →
  mapM (port_entries (PyDict ports)) ((λ kv, PyStr kv.1) <$> listed)
  = Return ((λ port, PyStr <$> port_texts port) <$> listed).
Proof.
  induction listed as [|[name host] listed IH]; [done|]. intros Hlookup Hpublished.
  cbn [forallb] in Hpublished. apply andb_true_iff in Hpublished as [Hhost Hrest].
  cbn [fmap list_fmap mapM fst snd] in *.
  rewrite (port_entries_run ports name host); [|by apply (Hlookup (name, host)), elem_of_cons; left|done].
  cbn [mbind outcome_bind].
  change (list_fmap _ _ (λ kv, PyStr kv.1) listed) with ((λ kv : string * pyval, PyStr kv.1) <$> listed).
  change (list_fmap _ _ (λ port, PyStr <$> port_texts port) listed)
    with ((λ port : string * pyval, PyStr <$> port_texts port) <$> listed).
  rewrite IH; [done| |done]. intros port Hport. apply Hlookup, elem_of_cons. by right.
Qed.

Lemma lookup_unique ports :
  NoDup ports.*1 → ∀ port, port ∈ ports → Py.lookup port.1 ports = Some port.2.
Proof.
  induction ports as [|[name host] ports IH]; intros Hnodup port Hport.
  - by apply elem_of_nil in Hport.
  - cbn [fmap list_fmap fst] in Hnodup. apply NoDup_cons in Hnodup as [Hname Hnodup].
    cbn [Py.lookup]. apply elem_of_cons in Hport as [-> | Hport].
    + cbn [fst snd]. by rewrite String.eqb_refl.
    + destruct (String.eqb port.1 name) eqn:Heq; [|by apply IH].
      apply String.eqb_eq in Heq. exfalso. apply Hname. rewrite <- Heq.
      by apply (list_elem_of_fmap_2 fst) in Hport.
Qed.

Lemma concat_fmap_fmap {A B} (f : A → B) (ls : list (list A)) :
  concat ((λ l : list A, f <$> l) <$> ls) = f <$> concat ls.
Proof.
  induction ls as [|l ls IH]; [done|]. cbn [fmap list_fmap concat].
  change (list_fmap _ _ (λ l, f <$> l) ls) with ((λ l : list A, f <$> l) <$> ls).
  rewrite IH. by rewrite fmap_app.
Qed.

(** X25: [show_ports] prints one line with an entry for every binding of
    every port, [address:port -> container port], in the order of the
    inspection, and the name alone of a port that is not bound; entries are
    set off by a line feed and nine blanks.  Without any port, and without
    the settings or the ports in the inspection, the line is [* Ports: -]. *)
Theorem show_ports_lists_bindings json ports h :
  ports_of json = Some ports →
  NoDup ports.*1 →
  forallb (λ port, is_published port.2) ports = true →
  show_ports json h
  = (Done tt,
     Host (files h) (readonly h)
       (printed h
        ++ [("* Ports: " +:+ (if ports is [] then "-"
                              else Str.join PORTS_SEPARATOR (concat (port_texts <$> ports))))
            +:+ LF])).
Proof.
  intros Hports Hnodup Hpublished. unfold show_ports.
  rewrite sh_bind_run, (lift_run _ _ _ (ports_of_get _ _ Hports)).
  rewrite sh_bind_run.
  rewrite (lift_run _ (PyStr <$> concat (port_texts <$> ports))).
  2:{ cbn [Py.iter mbind outcome_bind].
      rewrite (all_port_entries_run ports ports (lookup_unique _ Hnodup) Hpublished).
      cbn [mbind outcome_bind]. f_equal.
      rewrite <- concat_fmap_fmap. by rewrite <- list_fmap_compose. }
  rewrite sh_bind_run. destruct ports as [|port ports]; [done|].
  assert (length (PyStr <$> concat (port_texts <$> port :: ports)) ≠ 0%nat) as Hlen.
  { rewrite length_fmap. cbn [fmap list_fmap concat]. rewrite length_app.
    pose proof (port_texts_not_nil port). destruct (port_texts port); [done|].
    cbn [length]. lia. }
  apply Nat.eqb_neq in Hlen. rewrite Hlen. cbn [negb].
  rewrite (lift_run _ (Str.join PORTS_SEPARATOR (concat (port_texts <$> port :: ports)))).
  2:{ by rewrite strings_of_strings. }
  reflexivity.
Qed.

Lemma show_ports_lists_bindings_witness :
  show_ports sample_inspection fresh_host
  = (Done tt,
     Host ∅ ∅ ["* Ports: 0.0.0.0:443 -> 443/tcp" +:+ LF
               +:+ "         :::443 -> 443/tcp" +:+ LF
               +:+ "         9443/tcp" +:+ LF])
  ∧ show_ports (PyDict []) fresh_host = (Done tt, Host ∅ ∅ ["* Ports: -" +:+ LF]).
Proof.
  split.
  - refine (eq_trans (show_ports_lists_bindings sample_inspection
                        [("443/tcp",
                          PyList [PyDict [("HostIp", PyStr "0.0.0.0"); ("HostPort", PyStr "443")];
                                  PyDict [("HostIp", PyStr "::"); ("HostPort", PyStr "443")]]);
                         ("9443/tcp", PyNone)]
                        fresh_host eq_refl _ eq_refl) eq_refl).
    apply (bool_decide_unpack _). by vm_compute.
  - exact (show_ports_lists_bindings (PyDict []) [] fresh_host eq_refl NoDup_nil_2 eq_refl).
Defined.

(** X26: without a daemon to ask, [show_details] prints its heading and two
    dashes: when the control groups can be read and the request to the
    daemon fails, the output is the heading, [* IP Address: -] and
    [* Ports: -], and nothing else happens. *)
Theorem show_details_without_daemon curl hostname_i h stored :
  files h !! "/proc/self/cgroup" = Some stored →
  (∀ request, curl request = None) →
  show_details curl hostname_i h
  = (Done tt,
     Host (files h) (readonly h)
       (printed h ++ [LF +:+ "Container details:" +:+ LF;
                      "* IP Address: -" +:+ LF;
                      "* Ports: -" +:+ LF])).
Proof.
  intros Hstored Hcurl. unfold show_details. rewrite sh_bind_run, print_run.
  rewrite sh_bind_run. unfold get_container_id. rewrite sh_bind_run.
  unfold read_text. cbn [files andb]. rewrite Hstored. cbn [mret sh_ret].
  rewrite sh_bind_run. unfold inspect_container. rewrite Hcurl.
  cbn [default from_option id mret sh_ret]. rewrite sh_bind_run.
  assert (∀ h', show_ip_address hostname_i (PyDict []) h'
                = (Done tt, Host (files h') (readonly h')
                              (printed h' ++ ["* IP Address: -" +:+ LF]))) as ->
    by (intros h'; unfold show_ip_address; rewrite sh_bind_run; unfold sh_try;
        by destruct hostname_i).
  assert (∀ h', show_ports (PyDict []) h'
                = (Done tt, Host (files h') (readonly h')
                              (printed h' ++ ["* Ports: -" +:+ LF]))) as ->
    by reflexivity.
  cbn [files readonly printed]. rewrite <- !app_assoc. reflexivity.
Qed.

Lemma show_details_without_daemon_witness :
  show_details (λ _, None) (Some ("172.17.0.2" +:+ LF)) unified_host
  = (Done tt,
     Host (files unified_host) ∅
       [LF +:+ "Container details:" +:+ LF; "* IP Address: -" +:+ LF; "* Ports: -" +:+ LF]).
Proof.
  apply (show_details_without_daemon (λ _, None) (Some ("172.17.0.2" +:+ LF)) unified_host
           ("0::/" +:+ LF)); [reflexivity|done].
Defined.

(** ** Following the logs *)

(** X27: a log level that the script does not know stops the logs
    altogether.  With [ONEPANEL_LOG_LEVEL] set to anything but [debug],
    [info] or [error], in any case of letters, [print_logs] as the main
    block first calls it raises [TypeError] before it has written
    anything. *)
Theorem print_logs_unknown_level env infinitely t :
  current_log_level env ∉ LOG_LEVELS →
  print_logs (current_log_level env) None infinitely t = (Raise TypeError, t).
Proof.
  intros Hlevel. unfold print_logs. by rewrite bool_decide_eq_false_2.
Qed.

Lemma print_logs_unknown_level_witness :
  current_log_level {[ "ONEPANEL_LOG_LEVEL" := "WARNING" ]} = "warning"
  ∧ print_logs (current_log_level {[ "ONEPANEL_LOG_LEVEL" := "WARNING" ]}) None false
      sample_terminal
    = (Raise TypeError, sample_terminal).
Proof.
  split; [reflexivity|].
  apply (print_logs_unknown_level {[ "ONEPANEL_LOG_LEVEL" := "WARNING" ]} false).
  apply (bool_decide_unpack _). by vm_compute.
Defined.

Lemma lines_of_app a b :
  whole_lines a = true → lines_of (a +:+ b) = lines_of a ++ lines_of b.
Proof.
  induction a as [|c a IH]; [done|]. rewrite append_cons. cbn [whole_lines lines_of].
  destruct a as [|c' a].
  - intros Hc. rewrite Hc. reflexivity.
  - intros Ha. rewrite (IH Ha). destruct (Ascii.eqb c NL); [done|].
    assert (lines_of (String c' a) ≠ []) as Hne.
    { clear. cbn [lines_of]. destruct (Ascii.eqb c' NL); [done|]. by destruct (lines_of a). }
    by destruct (lines_of (String c' a)).
Qed.

Lemma skip_all a b : skip (String.length a) (a +:+ b) = b.
Proof. induction a as [|c a IH]; [by destruct b|]. by rewrite append_cons. Qed.

Lemma length_append a b :
  String.length (a +:+ b) = (String.length a + String.length b)%nat.
Proof. induction a as [|c a IH]; [done|]. rewrite append_cons. cbn [String.length]. by rewrite IH. Qed.

(** X28: of a log that can be opened and read, no line is written twice
    and none is left out.  Take a log file whose path can be opened and
    whose text, all of it readable and without carriage returns, ends with
    a line.  A first round of [print_new_logs] from a fresh cursor writes
    its lines, each with the prefix of the log.  When the file then grows by
    more readable text, the next round writes the new lines and only those;
    and the two rounds together have written exactly what one round from a
    fresh cursor writes of the file as it is now, and leave the same
    cursor.  (A file whose reading fails is another matter: see
    [failed_read_writes_lines_again] below.) *)
Theorem print_new_logs_follows_growth prefix file ino seen new t :
  inode (disk t) !! file = Some ino →
  file ∉ locked (disk t) →
  content (disk t) !! ino = Some (Readable seen) →
  whole_lines seen = true →
  lacks CR (seen +:+ new) = true →
  let fresh := Cursor prefix file None None in
  let grown := LogDisk (inode (disk t))
                 (<[ino := Readable (seen +:+ new)]> (content (disk t)))
                 (locked (disk t)) in
  let shown text := (λ line, prefix +:+ " " +:+ line) <$> lines_of text in
  ∃ first second,
    print_new_logs (Some [fresh]) t
    = (Return [first], Terminal (disk t) (later t) (screen t ++ shown seen))
    ∧ print_new_logs (Some [first]) (Terminal grown (later t) (screen t ++ shown seen))
      = (Return [second],
         Terminal grown (later t) ((screen t ++ shown seen) ++ shown new))
    ∧ print_new_logs (Some [fresh]) (Terminal grown (later t) (screen t))
      = (Return [second],
         Terminal grown (later t) ((screen t ++ shown seen) ++ shown new)).
Proof.
  intros Hino Hopen Hseen Hwhole Hplain fresh grown shown.
  rewrite lacks_app in Hplain. apply andb_true_iff in Hplain as [Hs Hn].
  exists (Cursor prefix file (Some (Descriptor ino (String.length seen))) (Some ino)),
         (Cursor prefix file
            (Some (Descriptor ino (String.length seen + String.length new))) (Some ino)).
  split; [|split].
  - unfold print_new_logs. cbn [mapM]. unfold mbind at 1, logio_bind.
    unfold print_new_log at 1. cbn [log_file log_ino log_fd log_prefix fresh].
    rewrite Hino. rewrite bool_decide_eq_true_2 by done.
    rewrite (bool_decide_eq_false_2 _ Hopen). cbn [andb].
    cbn [position opened]. rewrite Hseen. cbn [default from_option id skip].
    by rewrite (universal_newlines_plain _ Hs).
  - unfold print_new_logs. cbn [mapM]. unfold mbind at 1, logio_bind.
    unfold print_new_log at 1.
    cbn [log_file log_ino log_fd log_prefix disk inode content locked grown].
    rewrite Hino. rewrite bool_decide_eq_false_2 by (by intros []). cbn [andb].
    cbn [position opened]. rewrite lookup_insert_eq. cbn [default from_option id].
    rewrite skip_all. by rewrite (universal_newlines_plain _ Hn).
  - unfold print_new_logs. cbn [mapM]. unfold mbind at 1, logio_bind.
    unfold print_new_log at 1.
    cbn [log_file log_ino log_fd log_prefix disk inode content locked grown fresh].
    rewrite Hino. rewrite bool_decide_eq_true_2 by done.
    rewrite (bool_decide_eq_false_2 _ Hopen). cbn [andb].
    cbn [position opened]. rewrite lookup_insert_eq. cbn [default from_option id skip].
    rewrite universal_newlines_plain by (by rewrite lacks_app, Hs, Hn).
    rewrite length_append. unfold shown.
    by rewrite (lines_of_app _ _ Hwhole), fmap_app, app_assoc.
Qed.

Lemma print_new_logs_follows_growth_witness :
  ∃ first second,
    print_new_logs (Some [Cursor "[oz_panel]" "/var/log/oz_panel/info.log" None None])
      sample_terminal
    = (Return [first],
       Terminal (disk sample_terminal) [] ["[oz_panel] [info] started" +:+ LF])
    ∧ print_new_logs (Some [first])
        (Terminal (LogDisk (inode (disk sample_terminal))
                     {[ 7%nat := Readable ("[info] started" +:+ LF +:+ "[info] ready" +:+ LF) ]}
                     ∅)
           [] ["[oz_panel] [info] started" +:+ LF])
      = (Return [second],
         Terminal (LogDisk (inode (disk sample_terminal))
                     {[ 7%nat := Readable ("[info] started" +:+ LF +:+ "[info] ready" +:+ LF) ]}
                     ∅)
           [] ["[oz_panel] [info] started" +:+ LF; "[oz_panel] [info] ready" +:+ LF]).
Proof.
  destruct (print_new_logs_follows_growth "[oz_panel]" "/var/log/oz_panel/info.log" 7
              ("[info] started" +:+ LF) ("[info] ready" +:+ LF) sample_terminal)
    as (first & second & Hfirst & Hsecond & _);
    [reflexivity | apply (bool_decide_unpack _); by vm_compute
     | reflexivity | reflexivity | reflexivity |].
  exists first, second. split; [exact Hfirst|exact Hsecond].
Defined.

(** When reading fails, the lines delivered before the failure are written
    and the cursor starts over, so that the next round opens the file again
    and writes them once more: here the line of the damaged log is on the
    screen twice after two rounds. *)
Example failed_read_writes_lines_again :
  let fresh := Cursor "[oz_panel]" "/var/log/oz_panel/info.log" None None in
  print_new_logs (Some [fresh]) damaged_terminal
  = (Return [fresh],
     Terminal (disk damaged_terminal) [] ["[oz_panel] [info] started" +:+ LF])
  ∧ (print_new_logs (Some [fresh]) ≫= λ cursors, print_new_logs (Some cursors))
      damaged_terminal
    = (Return [fresh],
       Terminal (disk damaged_terminal) []
         ["[oz_panel] [info] started" +:+ LF; "[oz_panel] [info] started" +:+ LF]).
Proof. split; reflexivity. Qed.

(** A log that cannot be opened is passed over, and tried again in the next
    round. *)
Example locked_log_is_passed_over :
  let fresh := Cursor "[oz_panel]" "/var/log/oz_panel/info.log" None None in
  let t := Terminal (LogDisk (inode (disk sample_terminal))
                       (content (disk sample_terminal))
                       {[ "/var/log/oz_panel/info.log" ]}) [] [] in
  print_new_logs (Some [fresh]) t = (Return [fresh], t).
Proof. reflexivity. Qed.

(** *** A round over the logs *)

Lemma logio_bind_run {A B} (m : logio A) (f : A → logio B) t :
  (m ≫= f) t = match m t with
               | (Return a, t') => f a t'
               | (Raise e, t') => (Raise e, t')
               | (Blocked, t') => (Blocked, t')
               | (OutOfFuel, t') => (OutOfFuel, t')
               end.
Proof. reflexivity. Qed.

Lemma print_new_log_run c t :
  ∃ c' written,
    print_new_log c t = (Return c', Terminal (disk t) (later t) (screen t ++ written))
    ∧ log_prefix c' = log_prefix c
    ∧ log_file c' = log_file c
    ∧ (inode (disk t) !! log_file c = None → log_fd c' = None ∧ log_ino c' = None).
Proof.
  unfold print_new_log. destruct (inode (disk t) !! log_file c) as [ino|].
  - destruct (bool_decide (Some ino ≠ log_ino c) && _).
    + eexists _, []. rewrite app_nil_r. by destruct t.
    + destruct (if bool_decide (Some ino ≠ log_ino c) then _ else _) as [fd|].
      * destruct (default _ _); eexists _, _; by repeat split.
      * eexists _, []. rewrite app_nil_r. by destruct t.
  - eexists _, []. rewrite app_nil_r. by destruct t.
Qed.

(** X29: a round over the logs never fails.  Whatever has become of the
    log files, missing, replaced or cut short, [print_new_logs] returns one
    cursor for each cursor it was given, in the same order and for the same
    log, leaves the files alone and only adds to the output; a log whose
    file is missing gets a cursor that starts over. *)
Theorem print_new_logs_never_fails cursors t :
  ∃ cursors' written,
    print_new_logs (Some cursors) t
    = (Return cursors', Terminal (disk t) (later t) (screen t ++ written))
    ∧ log_prefix <$> cursors' = log_prefix <$> cursors
    ∧ log_file <$> cursors' = log_file <$> cursors
    ∧ ∀ c', c' ∈ cursors' → inode (disk t) !! log_file c' = None
            → log_fd c' = None ∧ log_ino c' = None.
Proof.
  unfold print_new_logs. revert t. induction cursors as [|c cursors IH]; intros t.
  - exists [], []. rewrite app_nil_r. split; [by destruct t|].
    split; [done|]. split; [done|]. intros x Hx. by apply elem_of_nil in Hx.
  - destruct (print_new_log_run c t) as (c' & written & Hrun & Hprefix & Hfile & Hmissing).
    destruct (IH (Terminal (disk t) (later t) (screen t ++ written)))
      as (cursors' & written' & Hrest & Hprefixes & Hfiles & Hmissings).
    exists (c' :: cursors'), (written ++ written').
    cbn [mapM]. rewrite logio_bind_run, Hrun. rewrite logio_bind_run, Hrest.
    cbn [disk later screen mret logio_ret].
    rewrite app_assoc. split; [done|]. cbn [fmap list_fmap].
    split; [by f_equal|]. split; [by f_equal|].
    intros x [-> | Hx]%elem_of_cons.
    + rewrite Hfile. apply Hmissing.
    + by apply Hmissings.
Qed.

(** ** The width of wrapped text *)

Lemma len_append a b : Str.len (a +:+ b) = Str.len a + Str.len b.
Proof. unfold Str.len. rewrite length_append. lia. Qed.

Lemma len_nonneg s : 0 ≤ Str.len s.
Proof. unfold Str.len. lia. Qed.

Lemma len_join chunks : Str.len (Str.join "" chunks) = total_len chunks.
Proof.
  induction chunks as [|c [|c' cs] IH]; [done| |].
  - cbn [Str.join total_len foldr]. lia.
  - change (Str.join "" (c :: c' :: cs)) with (c +:+ "" +:+ Str.join "" (c' :: cs)).
    rewrite !len_append, IH. change (Str.len "") with 0.
    change (total_len (c :: c' :: cs)) with (Str.len c + total_len (c' :: cs)). lia.
Qed.

Lemma total_len_nonneg chunks : 0 ≤ total_len chunks.
Proof.
  induction chunks as [|c cs IH]; [done|].
  change (total_len (c :: cs)) with (Str.len c + total_len cs).
  pose proof (len_nonneg c). lia.
Qed.

Lemma total_len_removelast chunks : total_len (removelast chunks) ≤ total_len chunks.
Proof.
  induction chunks as [|c [|c' cs] IH]; [done| |].
  - cbn [removelast]. apply total_len_nonneg.
  - change (removelast (c :: c' :: cs)) with (c :: removelast (c' :: cs)).
    change (total_len (c :: ?l)) with (Str.len c + total_len l). lia.
Qed.

Lemma take_fitting_fits width cur_len chunks :
  let taken := Textwrap.take_fitting width cur_len chunks in
  chunks = taken.1 ++ taken.2
  ∧ (taken.1 = [] ∨ cur_len + total_len taken.1 ≤ width).
Proof.
  revert cur_len. induction chunks as [|c cs IH]; intros cur_len; [by split; [|left]|].
  cbn [Textwrap.take_fitting]. destruct (cur_len + Str.len c <=? width) eqn:Hfit.
  - destruct (IH (cur_len + Str.len c)) as [Hsplit Hlen].
    destruct (Textwrap.take_fitting width (cur_len + Str.len c) cs) as [line rest].
    cbn [fst snd] in *. split; [by rewrite Hsplit at 1|]. right.
    change (total_len (c :: line)) with (Str.len c + total_len line).
    destruct Hlen as [-> | Hlen]; [|lia].
    apply Z.leb_le in Hfit. change (total_len []) with 0. lia.
  - split; [done|by left].
Qed.

Lemma drop_last_blank_len cur_line :
  total_len (Textwrap.drop_last_blank cur_line) ≤ total_len cur_line.
Proof.
  unfold Textwrap.drop_last_blank. destruct (last cur_line) as [c|]; [|lia].
  destruct (Textwrap.blank c); [apply total_len_removelast|lia].
Qed.

Lemma drop_last_blank_single c :
  Textwrap.drop_last_blank [c] = [c] ∨ Textwrap.drop_last_blank [c] = [].
Proof.
  unfold Textwrap.drop_last_blank. cbn [last]. destruct (Textwrap.blank c); auto.
Qed.

(** one round adds at most one line, which is within the width, and hands
    on chunks of the text only *)
Lemma wrap_round_within text initial_indent subsequent_indent lines chunks :
  Forall (within_width text initial_indent subsequent_indent) lines →
  chunks ⊆ chunks_of text →
  let round := Textwrap.wrap_round initial_indent subsequent_indent lines chunks in
  Forall (within_width text initial_indent subsequent_indent) round.1
  ∧ round.2 ⊆ chunks_of text.
Proof.
  intros Hlines Hchunks. unfold Textwrap.wrap_round.
  set (indent := match lines with [] => initial_indent | _ => subsequent_indent end).
  assert (indent = initial_indent ∨ indent = subsequent_indent) as Hindent
    by (subst indent; destruct lines; auto).
  set (width := Textwrap.WRAP_WIDTH - Str.len indent).
  set (chunks' := match chunks with [] => _ | _ => _ end).
  assert (chunks' ⊆ chunks_of text) as Hchunks'.
  { subst chunks'. destruct chunks as [|c cs]; [done|]. destruct lines; [done|].
    destruct (Textwrap.blank c); [|done]. intros x Hx. apply Hchunks, elem_of_cons. by right. }
  destruct (take_fitting_fits width 0 chunks') as [Hsplit Hfit].
  destruct (Textwrap.take_fitting width 0 chunks') as [cur_line rest].
  cbn [fst snd] in Hsplit, Hfit.
  assert (rest ⊆ chunks_of text) as Hrest.
  { intros x Hx. apply Hchunks'. rewrite Hsplit. apply elem_of_app. by right. }
  assert (∀ cur_line' rest',
            (cur_line' = [] ∨ total_len cur_line' ≤ width
             ∨ ∃ c, cur_line' = [c] ∧ c ∈ chunks_of text ∧ width < Str.len c) →
            rest' ⊆ chunks_of text →
            let round :=
              match Textwrap.drop_last_blank cur_line' with
              | [] => (lines, rest')
              | _ => (lines ++ [indent +:+ Str.join "" (Textwrap.drop_last_blank cur_line')],
                      rest')
              end in
            Forall (within_width text initial_indent subsequent_indent) round.1
            ∧ round.2 ⊆ chunks_of text) as Hfinish.
  { intros cur_line' rest' Hcur Hrest'.
    destruct (Textwrap.drop_last_blank cur_line') as [|c cs] eqn:Hdrop; [done|].
    cbn [fst snd]. split; [|done]. apply Forall_app. split; [done|].
    apply Forall_singleton. destruct Hcur as [-> | [Hlen | (c' & -> & Hc' & Hlong)]].
    - done.
    - left. rewrite len_append, len_join.
      pose proof (drop_last_blank_len cur_line') as Hle. rewrite Hdrop in Hle.
      subst width. lia.
    - destruct (drop_last_blank_single c') as [Hkeep | Hnone]; [|by rewrite Hnone in Hdrop].
      rewrite Hkeep in Hdrop. injection Hdrop as <- <-.
      right. exists indent, c'. by subst width. }
  destruct rest as [|c cs]; [|destruct cur_line as [|c' cur_line]].
  - apply Hfinish; [|done]. destruct Hfit as [Hfit | Hfit]; [by left|]. right. left. lia.
  - destruct (width <? Str.len c) eqn:Hlong.
    + apply Hfinish.
      * right. right. exists c. split; [done|]. split; [|by apply Z.ltb_lt].
        apply Hrest, elem_of_cons. by left.
      * intros x Hx. apply Hrest, elem_of_cons. by right.
    + apply Hfinish; [by left|done].
  - apply Hfinish; [|done]. destruct Hfit as [Hfit | Hfit]; [done|]. right. left. lia.
Qed.

Lemma wrap_chunks_within text initial_indent subsequent_indent fuel lines chunks :
  Forall (within_width text initial_indent subsequent_indent) lines →
  chunks ⊆ chunks_of text →
  Forall (within_width text initial_indent subsequent_indent)
    (Textwrap.wrap_chunks fuel initial_indent subsequent_indent lines chunks).
Proof.
  revert lines chunks. induction fuel as [|fuel IH]; intros lines chunks Hlines Hchunks.
  - by destruct chunks.
  - destruct chunks as [|c cs]; [done|]. cbn [Textwrap.wrap_chunks].
    destruct (wrap_round_within text initial_indent subsequent_indent lines (c :: cs)
                Hlines Hchunks) as [Hlines' Hchunks'].
    destruct (Textwrap.wrap_round initial_indent subsequent_indent lines (c :: cs))
      as [lines' chunks'].
    by apply IH.
Qed.

(** X30: wrapped text keeps to the width.  Every line that
    [textwrap.fill] makes for an error report, under [WRAP_KWARGS] and with
    any indents, has at most 100 characters with its indent, unless it is
    the indent and a single chunk of the text that is too long to fit: long
    words are not broken. *)
Theorem wrapped_lines_within_width text initial_indent subsequent_indent line :
  line ∈ Textwrap.wrap text initial_indent subsequent_indent →
  within_width text initial_indent subsequent_indent line.
Proof.
  intros Hline. unfold Textwrap.wrap in Hline.
  assert (Forall (within_width text initial_indent subsequent_indent)
            (Textwrap.wrap_chunks (length (chunks_of text)) initial_indent
               subsequent_indent [] (chunks_of text))) as Hall
    by (apply wrap_chunks_within; [constructor|done]).
  rewrite Forall_forall in Hall. by apply Hall.
Qed.

Lemma wrapped_lines_within_width_witness :
  within_width "description: The operation failed." "  " "    "
    "  description: The operation failed.".
Proof.
  apply wrapped_lines_within_width. apply (bool_decide_unpack _). by vm_compute.
Defined.
